(** * Order tracking backend: the status and cancellation rules, the tag
    update, the platform client and the four route handlers.

    Two source files are embedded.  They are two deployments of the same
    adapter:
    - [VariantA]: src/unnamed/part_000 (status from the [fulfillment_stage]
      metafield, payment slip stored as a file reference);
    - [VariantB]: src/order-tracking-backend.js (status from fulfillment
      status and tags, payment slip stored inline as JSON).
    Code that is textually the same in both files is embedded once. *)

From Stdlib Require Import String Ascii List ZArith QArith Bool Lia.
From Stdlib Require Import DecimalString Floats.
From ExtLib Require Import Structures.Monad.
Import ListNotations.
Import MonadNotation.
Local Open Scope monad_scope.
Local Open Scope Z_scope.
Local Open Scope string_scope.

(** ** JavaScript values as the handlers see them

    Platform responses are decoded JSON, accessed without any schema check,
    so orders and metafields are untyped values.  A string holds the UTF-8
    encoding of the JavaScript string; numbers are the integral ones the
    handlers meet (identifiers, sizes, status codes, lengths). *)

#[warnings="-register-all"]
Inductive value : Type :=
| VUndefined
| VNull
| VBool (b : bool)
| VNum (n : Z)
| VStr (s : string)
| VArr (items : list value)
| VObj (fields : list (string * value)).

(** Errors a handler can see: thrown by the engine, built with
    [new Error(message)], or emitted by the https module. *)
Inductive Error : Type :=
| TypeError
| ReferenceError (identifier : string)
| SyntaxError
| NewError (message : string)
| SystemError (code : string).

Inductive Result (A : Type) : Type :=
| Ok (a : A)
| Throw (e : Error).
Arguments Ok {A} a.
Arguments Throw {A} e.

#[global] Instance Monad_Result : Monad Result :=
  {| ret := @Ok;
     bind := fun _ _ r k => match r with Ok a => k a | Throw e => Throw e end |}.

(** [ToBoolean]. *)
Definition truthy (v : value) : bool :=
  match v with
  | VUndefined | VNull => false
  | VBool b => b
  | VNum n => negb (n =? 0)%Z
  | VStr s => negb (s =? EmptyString)
  | VArr _ | VObj _ => true
  end.

Fixpoint lookup (k : string) (fields : list (string * value)) : value :=
  match fields with
  | [] => VUndefined
  | (k', v) :: rest => if k' =? k then v else lookup k rest
  end.

(** [v.k] for the property names the source uses: an own property of an
    object, [length] of an array or string, [undefined] otherwise; reading a
    property of [null] or [undefined] throws. *)
Definition prop (v : value) (k : string) : Result value :=
  match v with
  | VUndefined | VNull => Throw TypeError
  | VObj fields => Ok (lookup k fields)
  | VArr items =>
      Ok (if k =? "length" then VNum (Z.of_nat (List.length items)) else VUndefined)
  | VStr s =>
      Ok (if k =? "length" then VNum (Z.of_nat (String.length s)) else VUndefined)
  | VBool _ | VNum _ => Ok VUndefined
  end.

(** [v?.k] *)
Definition opt_prop (v : value) (k : string) : Result value :=
  match v with
  | VUndefined | VNull => Ok VUndefined
  | _ => prop v k
  end.

(** [v === 'literal'] *)
Definition str_eq (v : value) (lit : string) : bool :=
  match v with
  | VStr s => s =? lit
  | _ => false
  end.

(** [a || b] on values, [b] already evaluated (it has no effect here). *)
Definition js_or (a b : value) : value := if truthy a then a else b.

(** ** String methods *)

(** [s.split(', ')]: cut at each leftmost occurrence of comma-space. *)
Fixpoint split_comma_space (s : string) : list string :=
  match s with
  | EmptyString => [EmptyString]
  | String "," (String " " rest) => EmptyString :: split_comma_space rest
  | String c rest =>
      match split_comma_space rest with
      | piece :: pieces => String c piece :: pieces
      | [] => [String c EmptyString]
      end
  end.

(** [v.split(', ')] on a value that passed a truthiness test: only strings
    have the method. *)
Definition split_method (v : value) : Result (list string) :=
  match v with
  | VStr s => Ok (split_comma_space s)
  | _ => Throw TypeError
  end.

(** [list.includes(x)] on strings. *)
Definition includes (l : list string) (x : string) : bool :=
  existsb (String.eqb x) l.

(** [list.join(', ')] *)
Definition join_comma_space (l : list string) : string :=
  String.concat ", " l.

Definition lower_ascii (c : ascii) : ascii :=
  let n := nat_of_ascii c in
  if ((65 <=? n) && (n <=? 90))%nat then ascii_of_nat (n + 32) else c.

(** [s.toLowerCase()] on the ASCII letters; the bytes of other characters
    are kept, which agrees with the engine on whether the result is one of
    the three ASCII stage names. *)
Fixpoint toLowerCase (s : string) : string :=
  match s with
  | EmptyString => EmptyString
  | String c rest => String (lower_ascii c) (toLowerCase rest)
  end.

Definition toLowerCase_method (v : value) : Result string :=
  match v with
  | VStr s => Ok (toLowerCase s)
  | _ => Throw TypeError
  end.

(** [order.tags ? order.tags.split(', ') : []], shared by the status rule of
    variant B and by the payment confirmation. *)
Definition order_tags (order : value) : Result (list string) :=
  tags <- prop order "tags" ;;
  if truthy tags then split_method tags else ret [].

(** [orderNumber.replace('#', '')] and the like: the first occurrence of a
    one-character pattern is replaced, later ones are kept. *)
Fixpoint replace (pattern : ascii) (replacement : string) (s : string) : string :=
  match s with
  | EmptyString => EmptyString
  | String c rest =>
      if Ascii.eqb c pattern then replacement ++ rest
      else String c (replace pattern replacement rest)
  end.

Definition show_Z (n : Z) : string := NilZero.string_of_int (Z.to_int n).

(** [ToString], as a template literal applies it. *)
Fixpoint ToString (v : value) : string :=
  match v with
  | VUndefined => "undefined"
  | VNull => "null"
  | VBool b => if b then "true" else "false"
  | VNum n => show_Z n
  | VStr s => s
  | VArr items =>
      String.concat ","
        (map (fun x => match x with
                       | VUndefined | VNull => EmptyString
                       | _ => ToString x
                       end) items)
  | VObj _ => "[object Object]"
  end.

(** [v === n] for a number literal. *)
Definition num_eq (v : value) (n : Z) : bool :=
  match v with
  | VNum m => (m =? n)%Z
  | _ => false
  end.

(** [v !== null] *)
Definition not_null (v : value) : bool :=
  match v with
  | VNull => false
  | _ => true
  end.

(** [v[i]] *)
Definition index (v : value) (i : nat) : Result value :=
  match v with
  | VUndefined | VNull => Throw TypeError
  | VArr items => Ok (nth i items VUndefined)
  | VObj fields => Ok (lookup (show_Z (Z.of_nat i)) fields)
  | VStr s =>
      Ok (match String.get i s with
          | Some c => VStr (String c EmptyString)
          | None => VUndefined
          end)
  | VBool _ | VNum _ => Ok VUndefined
  end.

(** [metafields?.find(mf => mf.namespace === 'custom' && mf.key === key)] *)
Fixpoint find_custom (key : string) (metafields : list value) : Result value :=
  match metafields with
  | [] => Ok VUndefined
  | mf :: rest =>
      namespace <- prop mf "namespace" ;;
      if str_eq namespace "custom" then
        k <- prop mf "key" ;;
        if str_eq k key then ret mf else find_custom key rest
      else find_custom key rest
  end.

Definition find_metafield (metafields : value) (key : string) : Result value :=
  match metafields with
  | VUndefined | VNull => Ok VUndefined
  | VArr items => find_custom key items
  | _ => Throw TypeError
  end.

Fixpoint mapM {A B : Type} (f : A -> Result B) (l : list A) : Result (list B) :=
  match l with
  | [] => Ok []
  | a :: rest => b <- f a ;; bs <- mapM f rest ;; ret (b :: bs)
  end.

(** [v.map(f)] and [v.forEach(f)]: only arrays have the methods. *)
Definition map_method {B : Type} (v : value) (f : value -> Result B)
  : Result (list B) :=
  match v with
  | VArr items => mapM f items
  | _ => Throw TypeError
  end.

(** ** The host: Node.js library functions and the process environment

    What the source takes from outside the repository.  The theorems hold
    for every host. *)

Record URL : Type := { url_hostname : string; pathname : string; search : string }.

Class Host : Type := {
  (** [CONFIG.shopifyDomain], [CONFIG.accessToken] (from [process.env]) *)
  shopifyDomain : string;
  accessToken : string;
  (** [JSON.parse(text)]: [None] when it throws a [SyntaxError] *)
  JSON_parse : string -> option value;
  JSON_stringify : value -> string;
  (** [new Date(v)] as a time value in milliseconds: [None] is an invalid date *)
  Date_new : value -> option Z;
  toLocaleDateString_arSA : option Z -> string;
  (** [toISOString()] of a valid date *)
  toISOString : Z -> string;
  parseFloat : value -> float;
  toFixed2 : float -> string;
  (** [buffer.toString('base64')] *)
  base64 : string -> string;
  (** [new URL(v)]: [None] when it throws *)
  URL_new : value -> option URL;
  (** the boundary [form-data] picks for a form *)
  form_boundary : string;
  (** [ToNumber(s) > 0] *)
  string_gt_zero : string -> bool
}.

(** ** Handlers as programs over the network and the clock *)

Inductive Payload : Type :=
| NoBody
| Text (written : string)
| Multipart (fields : list (value * value))
            (fileField : string) (content filename contentType : string).

Record HttpsRequest : Type := {
  hostname : string;
  port : option Z;
  path : string;
  method : string;
  headers : list (string * value);
  payload : Payload
}.

Inductive HttpsOutcome : Type :=
| NetError (e : Error)                               (* the 'error' event *)
| NetResponse (statusCode : Z) (responseBody : string). (* the 'end' event *)

(** A handler either answers, throws, sends one https request and goes on
    with what came back, or reads the clock ([new Date()]). *)
Inductive Prog (A : Type) : Type :=
| Ret (a : A)
| Raise (e : Error)
| Https (req : HttpsRequest) (k : HttpsOutcome -> Prog A)
| Now (k : Z -> Prog A).
Arguments Ret {A} a.
Arguments Raise {A} e.
Arguments Https {A} req k.
Arguments Now {A} k.

Fixpoint Prog_bind {A B : Type} (p : Prog A) (f : A -> Prog B) : Prog B :=
  match p with
  | Ret a => f a
  | Raise e => Raise e
  | Https req k => Https req (fun out => Prog_bind (k out) f)
  | Now k => Now (fun t => Prog_bind (k t) f)
  end.

#[global] Instance Monad_Prog : Monad Prog :=
  {| ret := @Ret; bind := @Prog_bind |}.

Definition lift {A : Type} (r : Result A) : Prog A :=
  match r with
  | Ok a => Ret a
  | Throw e => Raise e
  end.

(** [try { p } catch (error) { handler }] *)
Fixpoint try_catch {A : Type} (p : Prog A) (handler : Error -> Prog A) : Prog A :=
  match p with
  | Ret a => Ret a
  | Raise e => handler e
  | Https req k => Https req (fun out => try_catch (k out) handler)
  | Now k => Now (fun t => try_catch (k t) handler)
  end.

(** The outside world: what the network answers to a request, given the
    requests sent before it, and what the clock shows at each reading. *)
Record World : Type := {
  network : list HttpsRequest -> HttpsRequest -> HttpsOutcome;
  clock : nat -> Z
}.

Record Run (A : Type) : Type := {
  outcome : Result A;
  sent : list HttpsRequest;
  ticks : nat
}.
Arguments outcome {A} r.
Arguments sent {A} r.
Arguments ticks {A} r.

Fixpoint run_from {A : Type} (w : World) (p : Prog A)
         (before : list HttpsRequest) (readings : nat) : Run A :=
  match p with
  | Ret a => {| outcome := Ok a; sent := before; ticks := readings |}
  | Raise e => {| outcome := Throw e; sent := before; ticks := readings |}
  | Https req k =>
      run_from w (k (network w before req)) (before ++ [req])%list readings
  | Now k => run_from w (k (clock w readings)) before (S readings)
  end.

Definition run {A : Type} (w : World) (p : Prog A) : Run A := run_from w p [] 0%nat.

Definition status_ok (statusCode : Z) : bool :=
  ((200 <=? statusCode) && (statusCode <? 300))%Z.

(** The [options] and the written body of a REST call; both files build
    them the same way. *)
Definition api_request {host : Host} (endpoint method : string) (data : value)
  : HttpsRequest :=
  {| hostname := shopifyDomain;
     port := Some 443%Z;
     path := "/admin/api/2024-01/" ++ endpoint;
     method := method;
     headers := [("Content-Type", VStr "application/json");
                 ("X-Shopify-Access-Token", VStr accessToken)];
     payload := if truthy data then Text (JSON_stringify data) else NoBody |}.

Module VariantA.

(** What the promise of [makeShopifyRequest] settles to: the ['error']
    listener rejects with the error, the ['end'] listener parses the body
    first and looks at the status code second. *)
Definition settle {host : Host} (out : HttpsOutcome) : Result value :=
  match out with
  | NetError e => Throw e
  | NetResponse statusCode responseBody =>
      match JSON_parse responseBody with
      | Some jsonResponse =>
          if status_ok statusCode then Ok jsonResponse
          else Throw (NewError ("Shopify API Error: " ++ show_Z statusCode
                                ++ " - " ++ JSON_stringify jsonResponse))
      | None =>
          Throw (NewError ("Failed to parse JSON response. Status: "
                           ++ show_Z statusCode ++ ", Body: "
                           ++ substring 0 200 responseBody))
      end
  end.

(** [makeShopifyRequest(endpoint, method = 'GET', data = null)] *)
Definition makeShopifyRequest {host : Host} (endpoint method : string) (data : value)
  : Prog value :=
  Https (api_request endpoint method data) (fun out => lift (settle out)).

Definition graphql_request {host : Host} (query : string) : HttpsRequest :=
  let postData := JSON_stringify (VObj [("query", VStr query)]) in
  {| hostname := shopifyDomain;
     port := Some 443%Z;
     path := "/admin/api/2024-01/graphql.json";
     method := "POST";
     headers := [("Content-Type", VStr "application/json");
                 ("Content-Length", VNum (Z.of_nat (String.length postData)));
                 ("X-Shopify-Access-Token", VStr accessToken)];
     payload := Text postData |}.

Definition settle_graphql {host : Host} (out : HttpsOutcome) : Result value :=
  match out with
  | NetError e => Throw e
  | NetResponse statusCode responseBody =>
      match JSON_parse responseBody with
      | Some jsonResponse =>
          if status_ok statusCode then Ok jsonResponse
          else Throw (NewError ("Shopify GraphQL Error: " ++ show_Z statusCode
                                ++ " - " ++ JSON_stringify jsonResponse))
      | None =>
          Throw (NewError ("Failed to parse GraphQL response: "
                           ++ substring 0 200 responseBody))
      end
  end.

Definition makeShopifyGraphQLRequest {host : Host} (query : string) : Prog value :=
  Https (graphql_request query) (fun out => lift (settle_graphql out)).

Definition stages : list string := ["processing"; "shipped"; "delivered"].

(** Priority 2 of [mapOrderStatus]: the stage the metafield selects, if
    any. *)
Definition fulfillment_stage (fulfillmentStageMetafield : value)
  : Result (option string) :=
  mv <- (if truthy fulfillmentStageMetafield
         then prop fulfillmentStageMetafield "value"
         else ret fulfillmentStageMetafield) ;;
  if truthy mv then
    stage <- toLowerCase_method mv ;;
    if includes stages stage then ret (Some stage) else ret None
  else ret None.

Definition mapOrderStatus (order fulfillmentStageMetafield : value)
  : Result string :=
  cancelled_at <- prop order "cancelled_at" ;;
  if truthy cancelled_at then ret "cancelled" else
  staged <- fulfillment_stage fulfillmentStageMetafield ;;
  match staged with
  | Some stage => ret stage
  | None =>
      financial_status <- prop order "financial_status" ;;
      if str_eq financial_status "paid" then ret "confirmed" else
      if str_eq financial_status "pending"
         || str_eq financial_status "authorized"
         || str_eq financial_status "partially_paid"
      then ret "pending_payment"
      else ret "pending_payment"
  end.

End VariantA.

Module VariantB.

(** What the promise of [makeShopifyRequest] settles to. *)
Definition settle {host : Host} (out : HttpsOutcome) : Result value :=
  match out with
  | NetError e => Throw e
  | NetResponse statusCode responseBody =>
      match JSON_parse responseBody with
      | Some jsonResponse =>
          if status_ok statusCode then Ok jsonResponse
          else Throw (NewError ("Shopify API Error: " ++ show_Z statusCode
                                ++ " - " ++ responseBody))
      | None =>
          Throw (NewError ("Failed to parse JSON response: " ++ responseBody))
      end
  end.

(** [makeShopifyRequest(endpoint, method = 'GET', data = null)] *)
Definition makeShopifyRequest {host : Host} (endpoint method : string) (data : value)
  : Prog value :=
  Https (api_request endpoint method data) (fun out => lift (settle out)).

Definition mapOrderStatus (order : value) : Result string :=
  cancelled_at <- prop order "cancelled_at" ;;
  if truthy cancelled_at then ret "cancelled" else
  fulfillment_status <- prop order "fulfillment_status" ;;
  if str_eq fulfillment_status "fulfilled" then ret "delivered" else
  if str_eq fulfillment_status "partial" || str_eq fulfillment_status "shipped"
  then ret "shipped" else
  tags <- order_tags order ;;
  if includes tags "payment-confirmed" then ret "processing" else
  financial_status <- prop order "financial_status" ;;
  if str_eq financial_status "paid" then ret "confirmed" else
  if str_eq financial_status "pending" || str_eq financial_status "authorized"
  then ret "pending_payment"
  else ret "pending_payment".

End VariantB.

Inductive Variant : Type := A | B.

(** The REST client of the deployment. *)
Definition client {host : Host} (v : Variant) : string -> string -> value -> Prog value :=
  match v with
  | A => VariantA.makeShopifyRequest
  | B => VariantB.makeShopifyRequest
  end.

Definition settle {host : Host} (v : Variant) : HttpsOutcome -> Result value :=
  match v with
  | A => VariantA.settle
  | B => VariantB.settle
  end.

(** ** [canCancelOrder] (the same text in both files) *)

(** [new Date()]: the time value the clock shows. *)
Definition new_Date : Prog Z := Now (fun t => Ret t).

Definition ms_per_day : positive := (1000 * 60 * 60 * 24)%positive.

(** Time values are whole milliseconds, so the quotient [daysDiff] is kept
    exact.  The double the engine computes compares with 3 the same way:
    three days are a whole number of milliseconds, and one millisecond more
    already exceeds 3 by far more than the rounding error. *)
Definition canCancelOrder {host : Host} (order : value) : Prog bool :=
  cancelled_at <- lift (prop order "cancelled_at") ;;
  if truthy cancelled_at then ret false else
  fulfillment_status <- lift (prop order "fulfillment_status") ;;
  if str_eq fulfillment_status "fulfilled" || str_eq fulfillment_status "shipped"
  then ret false else
  created_at <- lift (prop order "created_at") ;;
  let createdAt := Date_new created_at in
  now <- new_Date ;;
  (* a difference with an invalid date is NaN, and [NaN <= 3] is false *)
  let daysDiff := option_map (fun c => (now - c)%Z # ms_per_day) createdAt in
  ret (match daysDiff with
       | Some d => Qle_bool d (3 # 1)
       | None => false
       end).

(** ** The payment confirmation's tag update (the same text in both files) *)

Definition pc : string := "payment-confirmed".

Definition confirmed_tags (order : value) : Result (list string) :=
  tags <- order_tags order ;;
  if negb (includes tags "payment-confirmed")
  then ret (tags ++ ["payment-confirmed"])%list
  else ret tags.

(** ** Requests and responses of the adapter *)

Record File : Type := {
  originalname : string;
  mimetype : string;
  size : Z;
  buffer : string
}.

(** What a handler reads from the incoming request: [req.params.orderNumber],
    [req.file] (absent when no file came) and [req.body.reason]. *)
Record Request : Type := {
  orderNumber : string;
  file : option File;
  reason : value
}.

Module Item.
Record t : Type := {
  id : value;
  name : value;
  variant : value;
  quantity : value;
  price : string;
  priceAmount : float;
  image : value;
  sku : value
}.
End Item.

Module OrderData.
Record t : Type := {
  id : value;
  number : value;
  date : string;
  createdAt : value;
  status : string;
  email : value;
  phone : value;
  items : list Item.t;
  subtotal : string;
  shipping : string;
  tax : string;
  total : string;
  currency : value;
  subtotalAmount : float;
  shippingAmount : float;
  taxAmount : float;
  totalAmount : float;
  financialStatus : value;
  fulfillmentStatus : value;
  cancelled : bool;
  cancelledAt : value;
  paymentSlip : value;
  canCancel : bool
}.
End OrderData.

Inductive ResBody : Type :=
| Failure (error : string)                 (* { success: false, error } *)
| Success (message : string)               (* { success: true, message } *)
| Uploaded (message : string) (name : string) (size : Z) (uploadedAt : string)
                                           (* { success: true, message, file } *)
| OrderFound (order : OrderData.t).        (* { success: true, order } *)

(** [res.status(status).json(json)]; [res.json] alone answers 200. *)
Record Response : Type := { status : Z; json : ResBody }.

Definition order_not_found : Response :=
  {| status := 404; json := Failure "لم يتم العثور على الطلب" |}.
Definition error_fetching_order : Response :=
  {| status := 500; json := Failure "حدث خطأ أثناء جلب بيانات الطلب" |}.
Definition no_file_uploaded : Response :=
  {| status := 400; json := Failure "لم يتم تحميل أي ملف" |}.
Definition error_uploading_file : Response :=
  {| status := 500; json := Failure "حدث خطأ أثناء رفع الملف" |}.
Definition error_confirming_payment : Response :=
  {| status := 500; json := Failure "حدث خطأ أثناء تأكيد الدفع" |}.
Definition cannot_cancel : Response :=
  {| status := 400; json := Failure "لا يمكن إلغاء الطلب بعد مرور 3 أيام" |}.
Definition error_cancelling_order : Response :=
  {| status := 500; json := Failure "حدث خطأ أثناء إلغاء الطلب" |}.
Definition payment_confirmed : Response :=
  {| status := 200; json := Success "تم تأكيد الدفع بنجاح" |}.
Definition order_cancelled : Response :=
  {| status := 200; json := Success "تم إلغاء الطلب بنجاح" |}.
Definition slip_uploaded (f : File) (uploadedAt : string) : Response :=
  {| status := 200;
     json := Uploaded "تم رفع إيصال الدفع بنجاح" (originalname f) (size f) uploadedAt |}.

(** ** The opening of every handler: clean the number, look the order up

    [inl] is the early 404 answer, [inr] the first matching order. *)
Definition cleanOrderNumber (orderNumber : string) : string :=
  replace "#" EmptyString orderNumber.

Definition orders_query (orderNumber : string) : string :=
  "orders.json?name=" ++ cleanOrderNumber orderNumber ++ "&status=any".

(** [!ordersResponse.orders || ordersResponse.orders.length === 0] answers
    404; otherwise the order is [ordersResponse.orders[0]]. *)
Definition first_order (ordersResponse : value) : Result (Response + value) :=
  orders <- prop ordersResponse "orders" ;;
  none <- (if negb (truthy orders) then ret true
           else len <- prop orders "length" ;; ret (num_eq len 0)) ;;
  if (none : bool) then ret (inl order_not_found)
  else order <- index orders 0 ;; ret (inr order).

Definition lookup_request {host : Host} (orderNumber : string) : HttpsRequest :=
  api_request (orders_query orderNumber) "GET" VNull.

Definition locate_order {host : Host} (v : Variant) (orderNumber : string)
  : Prog (Response + value) :=
  ordersResponse <- client v (orders_query orderNumber) "GET" VNull ;;
  lift (first_order ordersResponse).

(** ** GET /api/order/:orderNumber *)

Definition price_string {host : Host} (amount currency : value) : string :=
  toFixed2 (parseFloat amount) ++ " " ++ ToString currency.

Definition item_view {host : Host} (order item : value) : Result Item.t :=
  id <- prop item "id" ;;
  name <- prop item "name" ;;
  variant_title <- prop item "variant_title" ;;
  quantity <- prop item "quantity" ;;
  price <- prop item "price" ;;
  currency <- prop order "currency" ;;
  image_url <- prop item "image_url" ;;
  product_image <- prop item "product_image" ;;
  sku <- prop item "sku" ;;
  ret {| Item.id := id;
         Item.name := name;
         Item.variant := js_or variant_title (VStr EmptyString);
         Item.quantity := quantity;
         Item.price := price_string price currency;
         Item.priceAmount := parseFloat price;
         Item.image := js_or (js_or image_url product_image)
                             (VStr "https://via.placeholder.com/80");
         Item.sku := sku |}.

(** [order.total_shipping_price_set?.shop_money?.amount || 0] *)
Definition shipping_amount (order : value) : Result value :=
  price_set <- prop order "total_shipping_price_set" ;;
  shop_money <- opt_prop price_set "shop_money" ;;
  amount <- opt_prop shop_money "amount" ;;
  ret (js_or amount (VNum 0)).

(** [order.phone || order.customer?.phone] *)
Definition order_phone (order : value) : Result value :=
  phone <- prop order "phone" ;;
  if truthy phone then ret phone
  else customer <- prop order "customer" ;; opt_prop customer "phone".

(** The [paymentSlip] entry of the view. *)
Definition payment_slip {host : Host} (v : Variant) (paymentSlipMetafield : value)
  : Result value :=
  if truthy paymentSlipMetafield then
    stored <- prop paymentSlipMetafield "value" ;;
    match v with
    | A => ret (VObj [("fileId", stored); ("uploaded", VBool true)])
    | B => match JSON_parse (ToString stored) with
           | Some slip => ret slip
           | None => Throw SyntaxError
           end
    end
  else ret VNull.

(** The object literal [orderData], its entries evaluated in source order. *)
Definition order_data {host : Host} (v : Variant)
           (order paymentSlipMetafield fulfillmentStageMetafield : value)
  : Prog OrderData.t :=
  id <- lift (prop order "id") ;;
  name <- lift (prop order "name") ;;
  created_at <- lift (prop order "created_at") ;;
  status <- lift (match v with
                  | A => VariantA.mapOrderStatus order fulfillmentStageMetafield
                  | B => VariantB.mapOrderStatus order
                  end) ;;
  email <- lift (prop order "email") ;;
  phone <- lift (order_phone order) ;;
  line_items <- lift (prop order "line_items") ;;
  items <- lift (map_method line_items (item_view order)) ;;
  currency <- lift (prop order "currency") ;;
  subtotal_price <- lift (prop order "subtotal_price") ;;
  shipping <- lift (shipping_amount order) ;;
  total_tax <- lift (prop order "total_tax") ;;
  total_price <- lift (prop order "total_price") ;;
  financial_status <- lift (prop order "financial_status") ;;
  fulfillment_status <- lift (prop order "fulfillment_status") ;;
  cancelled_at <- lift (prop order "cancelled_at") ;;
  paymentSlip <- lift (payment_slip v paymentSlipMetafield) ;;
  canCancel <- canCancelOrder order ;;
  ret {| OrderData.id := id;
         OrderData.number := name;
         OrderData.date := toLocaleDateString_arSA (Date_new created_at);
         OrderData.createdAt := created_at;
         OrderData.status := status;
         OrderData.email := email;
         OrderData.phone := phone;
         OrderData.items := items;
         OrderData.subtotal := price_string subtotal_price currency;
         OrderData.shipping := price_string shipping currency;
         OrderData.tax := price_string total_tax currency;
         OrderData.total := price_string total_price currency;
         OrderData.currency := currency;
         OrderData.subtotalAmount := parseFloat subtotal_price;
         OrderData.shippingAmount := parseFloat shipping;
         OrderData.taxAmount := parseFloat total_tax;
         OrderData.totalAmount := parseFloat total_price;
         OrderData.financialStatus := financial_status;
         OrderData.fulfillmentStatus := fulfillment_status;
         OrderData.cancelled := not_null cancelled_at;
         OrderData.cancelledAt := cancelled_at;
         OrderData.paymentSlip := paymentSlip;
         OrderData.canCancel := canCancel |}.

Definition metafields_endpoint (orderId : value) : string :=
  "orders/" ++ ToString orderId ++ "/metafields.json".

Definition get_order {host : Host} (v : Variant) (req : Request) : Prog Response :=
  try_catch
    (located <- locate_order v (orderNumber req) ;;
     match located with
     | inl notFound => ret notFound
     | inr order =>
         _ <- lift (prop order "name") ;;   (* logged *)
         orderId <- lift (prop order "id") ;;
         metafieldsResponse <- client v (metafields_endpoint orderId) "GET" VNull ;;
         metafields <- lift (prop metafieldsResponse "metafields") ;;
         paymentSlipMetafield <- lift (find_metafield metafields "payment_slip") ;;
         fulfillmentStageMetafield <-
           lift (match v with
                 | A => find_metafield metafields "fulfillment_stage"
                 | B => ret VUndefined
                 end) ;;
         orderData <- order_data v order paymentSlipMetafield fulfillmentStageMetafield ;;
         ret {| status := 200; json := OrderFound orderData |}
     end)
    (fun error => ret error_fetching_order).

(** ** POST /api/order/:orderNumber/upload-payment *)

Definition dq : string := String (ascii_of_nat 34) EmptyString.
Definition nl : string := String (ascii_of_nat 10) EmptyString.

Definition generateStagedUploads (originalname mimetype : string) : string :=
  String.concat nl
    [EmptyString;
     "      mutation generateStagedUploads {";
     "        stagedUploadsCreate(input: {";
     "          resource: FILE";
     "          filename: " ++ dq ++ originalname ++ dq;
     "          mimeType: " ++ dq ++ mimetype ++ dq;
     "          httpMethod: POST";
     "        }) {";
     "          stagedTargets {";
     "            url";
     "            resourceUrl";
     "            parameters {";
     "              name";
     "              value";
     "            }";
     "          }";
     "          userErrors {";
     "            field";
     "            message";
     "          }";
     "        }";
     "      }";
     "    "].

Definition fileCreate (name resourceUrl : value) : string :=
  String.concat nl
    [EmptyString;
     "      mutation fileCreate {";
     "        fileCreate(files: {";
     "          alt: " ++ dq ++ "Payment slip for order " ++ ToString name ++ dq;
     "          contentType: IMAGE";
     "          originalSource: " ++ dq ++ ToString resourceUrl ++ dq;
     "        }) {";
     "          files {";
     "            id";
     "            alt";
     "            createdAt";
     "            ... on MediaImage {";
     "              image {";
     "                url";
     "              }";
     "            }";
     "          }";
     "          userErrors {";
     "            field";
     "            message";
     "          }";
     "        }";
     "      }";
     "    "].

(** [v > 0] *)
Definition gt_zero {host : Host} (v : value) : bool :=
  match v with
  | VUndefined | VNull | VObj _ => false
  | VBool b => b
  | VNum n => (0 <? n)%Z
  | VStr s => string_gt_zero s
  | VArr _ => string_gt_zero (ToString v)
  end.

(** [response.data?.[operation]?.userErrors?.length > 0], and the error
    thrown when it holds. *)
Definition check_userErrors {host : Host} (response : value) (operation label : string)
  : Result unit :=
  data <- prop response "data" ;;
  op <- opt_prop data operation ;;
  userErrors <- opt_prop op "userErrors" ;;
  len <- opt_prop userErrors "length" ;;
  if gt_zero len
  then Throw (NewError (label ++ JSON_stringify userErrors))
  else ret tt.

Definition metafield_data (stored : value) (type : string) : value :=
  VObj [("metafield",
         VObj [("namespace", VStr "custom");
               ("key", VStr "payment_slip");
               ("value", stored);
               ("type", VStr type)])].

(** "Check if metafield exists", then update it or create it. *)
Definition write_payment_slip {host : Host} (v : Variant) (orderId metafieldData : value)
  : Prog unit :=
  metafieldsResponse <- client v (metafields_endpoint orderId) "GET" VNull ;;
  metafields <- lift (prop metafieldsResponse "metafields") ;;
  existingMetafield <- lift (find_metafield metafields "payment_slip") ;;
  (if truthy existingMetafield then
     existingId <- lift (prop existingMetafield "id") ;;
     client v ("orders/" ++ ToString orderId ++ "/metafields/"
               ++ ToString existingId ++ ".json") "PUT" metafieldData
   else
     client v (metafields_endpoint orderId) "POST" metafieldData) ;;
  ret tt.

(** Variant B: the slip goes inline, base64 in a JSON metafield. *)
Definition upload_payment_B {host : Host} (req : Request) : Prog Response :=
  try_catch
    (match file req with
     | None => ret no_file_uploaded
     | Some f =>
         located <- locate_order B (orderNumber req) ;;
         match located with
         | inl notFound => ret notFound
         | inr order =>
             let fileBase64 := base64 (buffer f) in
             uploaded <- new_Date ;;
             let uploadedAt := toISOString uploaded in
             let fileData :=
               VObj [("filename", VStr (originalname f));
                     ("mimetype", VStr (mimetype f));
                     ("size", VNum (size f));
                     ("uploadedAt", VStr uploadedAt);
                     ("data", VStr fileBase64)] in
             let metafieldData :=
               metafield_data (VStr (JSON_stringify fileData)) "json" in
             orderId <- lift (prop order "id") ;;
             write_payment_slip B orderId metafieldData ;;
             _ <- new_Date ;;   (* noteData.created_at; the note is not sent *)
             ret (slip_uploaded f uploadedAt)
         end
     end)
    (fun error => ret error_uploading_file).

(** Variant A: the slip goes to the platform's file storage and the
    metafield keeps the file's identifier.  The answer reads
    [fileData.uploadedAt], and no [fileData] is declared in this file. *)
Definition upload_payment_A {host : Host} (req : Request) : Prog Response :=
  try_catch
    (match file req with
     | None => ret no_file_uploaded
     | Some f =>
         located <- locate_order A (orderNumber req) ;;
         match located with
         | inl notFound => ret notFound
         | inr order =>
             (* Step 1: stage the file upload *)
             stagedUploadResponse <-
               VariantA.makeShopifyGraphQLRequest
                 (generateStagedUploads (originalname f) (mimetype f)) ;;
             lift (check_userErrors stagedUploadResponse "stagedUploadsCreate"
                                    "Staged upload error: ") ;;
             stagedTarget <-
               lift (data <- prop stagedUploadResponse "data" ;;
                     create <- prop data "stagedUploadsCreate" ;;
                     targets <- prop create "stagedTargets" ;;
                     index targets 0) ;;
             targetUrl <- lift (prop stagedTarget "url") ;;   (* logged *)
             (* Step 2: upload the file to the staged URL *)
             parameters <- lift (prop stagedTarget "parameters") ;;
             (* form-data's own checks on the appended values are not modelled *)
             fields <-
               lift (map_method parameters
                       (fun param =>
                          name <- prop param "name" ;;
                          val <- prop param "value" ;;
                          ret (name, val))) ;;
             uploadUrl <-
               lift (match URL_new targetUrl with
                     | Some u => ret u
                     | None => Throw TypeError
                     end) ;;
             Https {| hostname := url_hostname uploadUrl;
                      port := None;
                      path := pathname uploadUrl ++ search uploadUrl;
                      method := "POST";
                      headers := [("content-type",
                                   VStr ("multipart/form-data; boundary="
                                         ++ form_boundary))];
                      payload := Multipart fields "file" (buffer f)
                                           (originalname f) (mimetype f) |}
                   (fun out =>
                      match out with
                      | NetError e => Raise e
                      | NetResponse statusCode data =>
                          if status_ok statusCode then Ret tt
                          else Raise (NewError ("Upload failed: " ++ show_Z statusCode
                                                ++ " - " ++ data))
                      end) ;;
             (* Step 3: create the file in the platform *)
             orderName <- lift (prop order "name") ;;
             resourceUrl <- lift (prop stagedTarget "resourceUrl") ;;
             fileCreateResponse <-
               VariantA.makeShopifyGraphQLRequest (fileCreate orderName resourceUrl) ;;
             lift (check_userErrors fileCreateResponse "fileCreate"
                                    "File create error: ") ;;
             uploadedFile <-
               lift (data <- prop fileCreateResponse "data" ;;
                     create <- prop data "fileCreate" ;;
                     files <- prop create "files" ;;
                     index files 0) ;;
             fileId <- lift (prop uploadedFile "id") ;;
             (* Step 4: create or update the metafield with the reference *)
             let metafieldData := metafield_data fileId "file_reference" in
             orderId <- lift (prop order "id") ;;
             write_payment_slip A orderId metafieldData ;;
             _ <- new_Date ;;   (* noteData.created_at; the note is not sent *)
             Raise (ReferenceError "fileData")
         end
     end)
    (fun error => ret error_uploading_file).

(** ** POST /api/order/:orderNumber/confirm-payment *)

Definition confirm_payment {host : Host} (v : Variant) (req : Request) : Prog Response :=
  try_catch
    (located <- locate_order v (orderNumber req) ;;
     match located with
     | inl notFound => ret notFound
     | inr order =>
         tags <- lift (confirmed_tags order) ;;
         orderId <- lift (prop order "id") ;;
         client v ("orders/" ++ ToString orderId ++ ".json") "PUT"
                (VObj [("order", VObj [("id", orderId);
                                       ("tags", VStr (join_comma_space tags))])]) ;;
         ret payment_confirmed
     end)
    (fun error => ret error_confirming_payment).

(** ** POST /api/order/:orderNumber/cancel *)

Definition cancel_data (reason : value) : value :=
  VObj [("reason", js_or reason (VStr "customer")); ("email", VBool true)].

Definition cancel_order {host : Host} (v : Variant) (req : Request) : Prog Response :=
  try_catch
    (located <- locate_order v (orderNumber req) ;;
     match located with
     | inl notFound => ret notFound
     | inr order =>
         cancellable <- canCancelOrder order ;;
         if negb cancellable then ret cannot_cancel
         else
           orderId <- lift (prop order "id") ;;
           client v ("orders/" ++ ToString orderId ++ "/cancel.json") "POST"
                  (cancel_data (reason req)) ;;
           ret order_cancelled
     end)
    (fun error => ret error_cancelling_order).

(** ** Concrete orders, hosts and worlds used by the examples *)

Definition order_2050 : value :=
  VObj [("id", VNum 2050); ("name", VStr "#2050");
        ("created_at", VStr "2024-01-02T08:00:00Z");
        ("cancelled_at", VNull);
        ("financial_status", VStr "paid"); ("fulfillment_status", VNull);
        ("tags", VStr EmptyString)].

Definition order_1006_cancelled : value :=
  VObj [("id", VNum 1006); ("name", VStr "#1006");
        ("created_at", VStr "2024-01-02T08:00:00Z");
        ("cancelled_at", VStr "2024-01-05T10:00:00Z");
        ("financial_status", VStr "paid");
        ("fulfillment_status", VStr "fulfilled");
        ("tags", VStr "vip, payment-confirmed")].

Definition stage_shipped : value :=
  VObj [("id", VNum 7); ("namespace", VStr "custom");
        ("key", VStr "fulfillment_stage"); ("value", VStr "Shipped")].


(** A small host for the examples: it serialises without escaping and
    parses exactly the documents the example platform serves. *)
Fixpoint test_stringify (v : value) : string :=
  match v with
  | VUndefined | VNull => "null"
  | VBool b => if b then "true" else "false"
  | VNum n => show_Z n
  | VStr s => dq ++ s ++ dq
  | VArr items => "[" ++ String.concat "," (map test_stringify items) ++ "]"
  | VObj fields =>
      "{" ++ String.concat ","
               (map (fun '(k, x) => dq ++ k ++ dq ++ ":" ++ test_stringify x) fields)
          ++ "}"
  end.

Definition order_1006 : value :=
  VObj [("id", VNum 1006); ("name", VStr "#1006");
        ("created_at", VStr "2024-01-02T08:00:00Z");
        ("cancelled_at", VNull);
        ("financial_status", VStr "pending"); ("fulfillment_status", VNull);
        ("tags", VStr "vip, wholesale");
        ("currency", VStr "SAR"); ("line_items", VArr [])].

Definition orders_document (order : value) : value :=
  VObj [("orders", VArr [order])].

Definition broken_slip : value :=
  VObj [("id", VNum 31); ("namespace", VStr "custom");
        ("key", VStr "payment_slip"); ("value", VStr "{filename:")].

Definition metafields_document (metafields : list value) : value :=
  VObj [("metafields", VArr metafields)].

Definition staged_document : value :=
  VObj [("data",
         VObj [("stagedUploadsCreate",
                VObj [("stagedTargets",
                       VArr [VObj [("url", VStr "https://storage.example/upload");
                                   ("resourceUrl", VStr "https://storage.example/tmp/slip.png");
                                   ("parameters",
                                    VArr [VObj [("name", VStr "key");
                                                ("value", VStr "tmp/slip.png")]])]]);
                      ("userErrors", VArr [])])])].

Definition file_document : value :=
  VObj [("data",
         VObj [("fileCreate",
                VObj [("files", VArr [VObj [("id", VStr "gid://shopify/MediaImage/77")]]);
                      ("userErrors", VArr [])])])].

Definition written_document : value := VObj [("metafield", VObj [("id", VNum 32)])].

Definition test_documents : list value :=
  [orders_document order_1006; orders_document order_2050;
   orders_document order_1006_cancelled;
   metafields_document []; metafields_document [broken_slip];
   staged_document; file_document; written_document].

Definition test_parse (text : string) : option value :=
  find (fun document => test_stringify document =? text) test_documents.

Definition created_1006 : Z := 1704182400000.   (* 2024-01-02T08:00:00Z *)

Definition test_Date (v : value) : option Z :=
  match v with
  | VStr s => if s =? "2024-01-02T08:00:00Z" then Some created_1006 else None
  | VNum n => Some n
  | _ => None
  end.

Definition test_host : Host :=
  {| shopifyDomain := "test-store.myshopify.com";
     accessToken := "shpat_test";
     JSON_parse := test_parse;
     JSON_stringify := test_stringify;
     Date_new := test_Date;
     toLocaleDateString_arSA := fun _ => EmptyString;
     toISOString := show_Z;
     parseFloat := fun _ => PrimFloat.zero;
     toFixed2 := fun _ => "0.00";
     base64 := fun bytes => bytes;
     URL_new := fun v =>
                  match v with
                  | VStr "https://storage.example/upload" =>
                      Some {| url_hostname := "storage.example";
                              pathname := "/upload";
                              search := EmptyString |}
                  | _ => None
                  end;
     form_boundary := "--------------------------0001";
     string_gt_zero := fun _ => false |}.

(** A world that answers the n-th request with the n-th entry of a script
    and whose clock stands still. *)
Definition scripted (script : list HttpsOutcome) (now : Z) : World :=
  {| network := fun before _ =>
                  nth (List.length before) script (NetError (SystemError "ECONNRESET"));
     clock := fun _ => now |}.

Definition ok_json (document : value) : HttpsOutcome :=
  NetResponse 200 (test_stringify document).

Definition slip_png : File :=
  {| originalname := "slip.png"; mimetype := "image/png"; size := 4; buffer := "PNG." |}.

Definition request_1006 : Request :=
  {| orderNumber := "#1006"; file := None; reason := VUndefined |}.

Definition upload_1006 : Request :=
  {| orderNumber := "#1006"; file := Some slip_png; reason := VUndefined |}.

(** Every step of an upload succeeds: lookup, staged target, storage,
    file creation, metafield read, metafield creation. *)
Definition upload_succeeds : World :=
  scripted [ok_json (orders_document order_1006);
            ok_json staged_document;
            NetResponse 204 EmptyString;
            ok_json file_document;
            ok_json (metafields_document []);
            NetResponse 201 (test_stringify written_document)]
           (created_1006 + 3600000).

(** A gateway in front of the platform answers 502 with an HTML page. *)
Definition bad_gateway : World :=
  scripted [NetResponse 502 "<html>Bad Gateway</html>"] created_1006.

(** Number of occurrences of a character in an order number. *)
Fixpoint count_char (c : ascii) (s : string) : nat :=
  match s with
  | EmptyString => 0
  | String d rest => ((if Ascii.eqb d c then 1 else 0) + count_char c rest)%nat
  end.

(** [Leaf a p]: along some answers of the world, [p] ends by returning [a]. *)
Inductive Leaf {A : Type} (a : A) : Prog A -> Prop :=
| Leaf_Ret : Leaf a (Ret a)
| Leaf_Https (req : HttpsRequest) (k : HttpsOutcome -> Prog A) (out : HttpsOutcome) :
    Leaf a (k out) -> Leaf a (Https req k)
| Leaf_Now (k : Z -> Prog A) (t : Z) :
    Leaf a (k t) -> Leaf a (Now k).

Definition three_days : Z := 3 * 86400000.

(** The clock shows exactly three days after order 1006 was created. *)
Definition three_days_later : World := scripted [] (created_1006 + three_days).
Definition three_days_and_1ms_later : World :=
  scripted [] (created_1006 + three_days + 1).

(** The lookup finds order 1006, ten days after it was created. *)
Definition ten_days_later : World :=
  scripted [ok_json (orders_document order_1006)] (created_1006 + 10 * 86400000).

(** The lookup finds order 1006 and its metafields hold a slip that is no
    JSON. *)
Definition slip_is_broken : World :=
  scripted [ok_json (orders_document order_1006);
            ok_json (metafields_document [broken_slip])]
           created_1006.

(** The lookup finds order 1006 and the update is accepted. *)
Definition update_accepted : World :=
  scripted [ok_json (orders_document order_1006); ok_json written_document]
           created_1006.

Definition order_1006_confirmed : value :=
  VObj [("id", VNum 1006); ("tags", VStr "vip, wholesale, payment-confirmed")].

Definition order_1006_confirmed_paid : value :=
  VObj [("id", VNum 1006); ("cancelled_at", VNull);
        ("financial_status", VStr "paid"); ("fulfillment_status", VNull);
        ("tags", VStr "vip, payment-confirmed")].

(** The platform answers 404 with a JSON body. *)
Definition not_found_json : World :=
  scripted [NetResponse 404 (test_stringify written_document)] created_1006.

(** ** Further orders and metafields used by the examples *)

(** A partially fulfilled order, paid and tagged. *)
Definition order_3001_partial : value :=
  VObj [("id", VNum 3001); ("name", VStr "#3001");
        ("created_at", VStr "2024-01-02T08:00:00Z");
        ("cancelled_at", VNull);
        ("financial_status", VStr "paid"); ("fulfillment_status", VStr "partial");
        ("tags", VStr "payment-confirmed")].

(** A [fulfillment_stage] metafield of an integer type. *)
Definition stage_number : value :=
  VObj [("id", VNum 8); ("namespace", VStr "custom");
        ("key", VStr "fulfillment_stage"); ("value", VNum 2)].

(** The six display statuses. *)
Definition statuses : list string :=
  ["cancelled"; "processing"; "shipped"; "delivered"; "confirmed"; "pending_payment"].

(** [v] is [null] or [undefined]. *)
Definition nullish (v : value) : bool :=
  match v with
  | VUndefined | VNull => true
  | _ => false
  end.

(** The predicate the handlers pass to [find]:
    [mf.namespace === 'custom' && mf.key === key], on an entry it can read. *)
Definition metafield_matches (key : string) (mf : value) : bool :=
  match prop mf "namespace" with
  | Ok namespace =>
      str_eq namespace "custom"
      && match prop mf "key" with
         | Ok k => str_eq k key
         | Throw _ => false
         end
  | Throw _ => false
  end.

Definition stage_delivered : value :=
  VObj [("id", VNum 9); ("namespace", VStr "custom");
        ("key", VStr "fulfillment_stage"); ("value", VStr "delivered")].

Definition other_namespace_slip : value :=
  VObj [("id", VNum 10); ("namespace", VStr "global");
        ("key", VStr "payment_slip"); ("value", VStr "x")].

Definition item_without_image : value :=
  VObj [("id", VNum 501); ("name", VStr "Oud 12ml"); ("quantity", VNum 1);
        ("price", VStr "120.00"); ("sku", VNull)].

(** An entry [find] passes over: readable, and not the one asked for. *)
Definition skipped (key : string) (mf : value) : Prop :=
  nullish mf = false /\ metafield_matches key mf = false.

(** The lookup finds no order. *)
Definition no_such_order : World :=
  scripted [ok_json (VObj [("orders", VArr [])])] created_1006.

(** The platform cannot be reached. *)
Definition unreachable : World := scripted [] created_1006.

(** An order whose [cancelled_at] key is missing and whose tags are a list. *)
Definition order_4001_sparse : value :=
  VObj [("id", VNum 4001); ("name", VStr "#4001");
        ("created_at", VStr "2024-01-02T08:00:00Z");
        ("financial_status", VStr "paid");
        ("tags", VArr [VStr "vip"]);
        ("currency", VStr "SAR"); ("line_items", VArr [])].

(** The staged upload is refused with a user error. *)
Definition staged_refused_document : value :=
  VObj [("data",
         VObj [("stagedUploadsCreate",
                VObj [("stagedTargets", VArr []);
                      ("userErrors",
                       VArr [VObj [("field", VStr "filename");
                                   ("message", VStr "is invalid")]])])])].

(** What variant B stores for [slip.png] uploaded when order 1006 was
    created. *)
Definition slip_png_data : value :=
  VObj [("filename", VStr "slip.png");
        ("mimetype", VStr "image/png");
        ("size", VNum 4);
        ("uploadedAt", VStr (show_Z created_1006));
        ("data", VStr "PNG.")].

Definition order_1007 : value :=
  VObj [("id", VNum 1007); ("name", VStr "#1006");
        ("created_at", VStr "2024-01-02T08:00:00Z");
        ("cancelled_at", VNull);
        ("financial_status", VStr "paid"); ("fulfillment_status", VNull);
        ("tags", VStr EmptyString)].

Definition wide_documents : list value :=
  (test_documents
   ++ [VObj [("orders", VArr [])];
       orders_document order_4001_sparse;
       orders_document order_3001_partial;
       staged_refused_document;
       slip_png_data;
       VObj [("orders", VArr [order_1006; order_1007])]])%list.

(** The example host, able to parse the further documents as well. *)
Definition wide_host : Host :=
  {| shopifyDomain := shopifyDomain (Host := test_host);
     accessToken := accessToken (Host := test_host);
     JSON_parse := fun text =>
                     find (fun document => test_stringify document =? text)
                          wide_documents;
     JSON_stringify := test_stringify;
     Date_new := test_Date;
     toLocaleDateString_arSA := toLocaleDateString_arSA (Host := test_host);
     toISOString := show_Z;
     parseFloat := parseFloat (Host := test_host);
     toFixed2 := toFixed2 (Host := test_host);
     base64 := base64 (Host := test_host);
     URL_new := URL_new (Host := test_host);
     form_boundary := form_boundary (Host := test_host);
     string_gt_zero := string_gt_zero (Host := test_host) |}.

(** The lookup finds order 1006, then the staged upload is refused. *)
Definition staging_refused : World :=
  scripted [ok_json (orders_document order_1006); ok_json staged_refused_document]
           created_1006.

(** The lookup and the staging succeed, then the storage answers 403. *)
Definition storage_forbidden : World :=
  scripted [ok_json (orders_document order_1006); ok_json staged_document;
            NetResponse 403 "<Error>AccessDenied</Error>"]
           created_1006.

(** [AllRequests P p]: whatever the world answers, every request [p] sends
    satisfies [P]. *)
Inductive AllRequests {A : Type} (P : HttpsRequest -> Prop) : Prog A -> Prop :=
| AR_Ret (a : A) : AllRequests P (Ret a)
| AR_Raise (e : Error) : AllRequests P (Raise e)
| AR_Https (req : HttpsRequest) (k : HttpsOutcome -> Prog A) :
    P req -> (forall out, AllRequests P (k out)) -> AllRequests P (Https req k)
| AR_Now (k : Z -> Prog A) :
    (forall t, AllRequests P (k t)) -> AllRequests P (Now k).

(** A request to the shop's Admin API, carrying the access token. *)
Definition to_shop {host : Host} (r : HttpsRequest) : Prop :=
  hostname r = shopifyDomain
  /\ port r = Some 443%Z
  /\ prefix "/admin/api/2024-01/" (path r) = true
  /\ In ("X-Shopify-Access-Token", VStr accessToken) (headers r).

(** A request that carries no access-token header at all. *)
Definition without_token (r : HttpsRequest) : Prop :=
  forall t, ~ In ("X-Shopify-Access-Token", t) (headers r).

(** [CONFIG.allowedFileTypes] and [CONFIG.maxFileSize] of each file. *)
Definition allowedFileTypes (v : Variant) : list string :=
  match v with
  | A => ["image/jpeg"; "image/png"; "image/jpg"; "image/webp"; "image/heic";
          "image/heif"]
  | B => ["image/jpeg"; "image/png"; "image/jpg"; "application/pdf"]
  end.

Definition maxFileSize (v : Variant) : Z :=
  match v with
  | A => 10 * 1024 * 1024
  | B => 5 * 1024 * 1024
  end.

(** multer's [fileFilter]: [cb(null, true)] accepts the file, [cb(new
    Error(...))] refuses it. *)
Definition fileFilter (v : Variant) (f : File) : Result bool :=
  if includes (allowedFileTypes v) (mimetype f) then Ok true
  else Throw (NewError
                match v with
                | A => "نوع الملف غير مدعوم. يرجى تحميل صورة فقط (JPG, PNG, WEBP)."
                | B => "نوع الملف غير مدعوم. يرجى تحميل صورة أو PDF فقط."
                end).

Definition receipt_pdf : File :=
  {| originalname := "receipt.pdf"; mimetype := "application/pdf"; size := 9;
     buffer := "%PDF-1.4." |}.

(** The lookup finds the sparse order 4001. *)
Definition sparse_order_found : World :=
  scripted [ok_json (orders_document order_4001_sparse);
            ok_json (metafields_document [])]
           created_1006.

Definition request_4001 : Request :=
  {| orderNumber := "4001"; file := None; reason := VStr "changed my mind" |}.

(** The platform knows two orders named #1006. *)
Definition two_orders_found : World :=
  scripted [ok_json (VObj [("orders", VArr [order_1006; order_1007])])] created_1006.

(** A stored metafield holding what variant B wrote for [slip.png]. *)
Definition stored_slip : value :=
  VObj [("id", VNum 33); ("namespace", VStr "custom"); ("key", VStr "payment_slip");
        ("value", VStr (test_stringify slip_png_data)); ("type", VStr "json")].

(** Orders with a shipping price set that lacks [shop_money], and with one
    that holds an amount. *)
Definition order_5001_no_shop_money : value :=
  VObj [("id", VNum 5001); ("total_shipping_price_set", VObj [])].

Definition order_5002_shipped_for_25 : value :=
  VObj [("id", VNum 5002);
        ("total_shipping_price_set",
         VObj [("shop_money",
                VObj [("amount", VStr "25.00"); ("currency_code", VStr "SAR")])])].

(** * Properties *)

(** ** Status derivation *)

(** A non-empty string, a timestamp for one, is truthy. *)
Lemma timestamp_truthy (ts : string) : ts <> EmptyString -> truthy (VStr ts) = true.
Proof.
  intros Hne. simpl. destruct ts as [|c ts']; [congruence | reflexivity].
Qed.

(** C1.  An order whose [cancelled_at] holds a cancellation timestamp (any
    truthy value: a timestamp is a non-empty string) has status
    ['cancelled'] in both variants, whatever its other fields and whatever
    the [fulfillment_stage] metafield. *)
Theorem cancelled_wins (order cancelled_at fulfillmentStageMetafield : value) :
  prop order "cancelled_at" = Ok cancelled_at ->
  truthy cancelled_at = true ->
  VariantA.mapOrderStatus order fulfillmentStageMetafield = Ok "cancelled"
  /\ VariantB.mapOrderStatus order = Ok "cancelled".
Proof.
  intros Hprop Htruthy.
  unfold VariantA.mapOrderStatus, VariantB.mapOrderStatus.
  rewrite Hprop. simpl. rewrite Htruthy. split; reflexivity.
Qed.

Lemma cancelled_wins_witness :
  VariantA.mapOrderStatus order_1006_cancelled stage_shipped = Ok "cancelled"
  /\ VariantB.mapOrderStatus order_1006_cancelled = Ok "cancelled".
Proof.
  apply (cancelled_wins order_1006_cancelled (VStr "2024-01-05T10:00:00Z")).
  - reflexivity.
  - apply timestamp_truthy. discriminate.
Defined.

(** The second rule of variant A does not fire without a metafield, and
    for a metafield holding a non-empty string it fires exactly when the
    lower-cased string is one of the three stages. *)
Lemma fulfillment_stage_absent : VariantA.fulfillment_stage VUndefined = Ok None.
Proof. reflexivity. Qed.

Lemma fulfillment_stage_of_string (metafield : value) (s : string) :
  truthy metafield = true ->
  prop metafield "value" = Ok (VStr s) ->
  s <> EmptyString ->
  VariantA.fulfillment_stage metafield
  = Ok (if includes VariantA.stages (toLowerCase s) then Some (toLowerCase s) else None).
Proof.
  intros Ht Hv Hs. unfold VariantA.fulfillment_stage. rewrite Ht, Hv.
  cbn [bind Monad_Result]. rewrite (timestamp_truthy s Hs).
  cbn [toLowerCase_method bind Monad_Result ret].
  destruct (includes VariantA.stages (toLowerCase s)); reflexivity.
Qed.

Example stage_is_case_insensitive :
  VariantA.mapOrderStatus order_2050 stage_shipped = Ok "shipped".
Proof. reflexivity. Qed.

Example tag_drives_variant_B :
  VariantB.mapOrderStatus order_1006_confirmed_paid = Ok "processing".
Proof. reflexivity. Qed.

(** C3.  When neither the cancellation rule nor the variant's second rule
    fires, the status follows the financial status alone: ['confirmed'] for
    ['paid'], ['pending_payment'] for ['pending'], ['authorized'],
    ['partially_paid'] and for every other value. *)
Theorem financial_status_rules
        (order cancelled_at financial_status : value) :
  prop order "cancelled_at" = Ok cancelled_at ->
  truthy cancelled_at = false ->
  prop order "financial_status" = Ok financial_status ->
  (forall fulfillmentStageMetafield,
      VariantA.fulfillment_stage fulfillmentStageMetafield = Ok None ->
      VariantA.mapOrderStatus order fulfillmentStageMetafield
      = Ok (if str_eq financial_status "paid" then "confirmed" else "pending_payment"))
  /\ (forall fulfillment_status tags,
         prop order "fulfillment_status" = Ok fulfillment_status ->
         str_eq fulfillment_status "fulfilled" = false ->
         str_eq fulfillment_status "partial" = false ->
         str_eq fulfillment_status "shipped" = false ->
         order_tags order = Ok tags ->
         includes tags "payment-confirmed" = false ->
         VariantB.mapOrderStatus order
         = Ok (if str_eq financial_status "paid" then "confirmed" else "pending_payment")).
Proof.
  intros Hc Hfalsy Hf. split.
  - intros mf Hstage. unfold VariantA.mapOrderStatus.
    rewrite Hc. simpl. rewrite Hfalsy, Hstage. simpl. rewrite Hf. simpl.
    destruct (str_eq financial_status "paid"); [reflexivity|].
    destruct (str_eq financial_status "pending" || str_eq financial_status "authorized"
              || str_eq financial_status "partially_paid"); reflexivity.
  - intros fs tags Hfs H1 H2 H3 Htags Hinc. unfold VariantB.mapOrderStatus.
    rewrite Hc. simpl. rewrite Hfalsy, Hfs. simpl. rewrite H1, H2, H3. simpl.
    rewrite Htags. simpl. rewrite Hinc, Hf. simpl.
    destruct (str_eq financial_status "paid"); [reflexivity|].
    destruct (str_eq financial_status "pending" || str_eq financial_status "authorized");
      reflexivity.
Qed.

(** ** Running programs *)

Lemma run_lift {A : Type} (w : World) (r : Result A) before readings :
  run_from w (lift r) before readings
  = {| outcome := r; sent := before; ticks := readings |}.
Proof. destruct r; reflexivity. Qed.

Lemma run_bind {A B : Type} (w : World) (p : Prog A) (f : A -> Prog B) :
  forall before readings,
    run_from w (Prog_bind p f) before readings
    = match outcome (run_from w p before readings) with
      | Ok a => run_from w (f a) (sent (run_from w p before readings))
                         (ticks (run_from w p before readings))
      | Throw e => {| outcome := Throw e;
                      sent := sent (run_from w p before readings);
                      ticks := ticks (run_from w p before readings) |}
      end.
Proof.
  induction p as [a|e|req k IH|k IH]; intros before readings; simpl;
    try reflexivity; apply IH.
Qed.

Lemma run_try_catch {A : Type} (w : World) (p : Prog A) (h : Error -> Prog A) :
  forall before readings,
    run_from w (try_catch p h) before readings
    = match outcome (run_from w p before readings) with
      | Ok a => {| outcome := Ok a;
                   sent := sent (run_from w p before readings);
                   ticks := ticks (run_from w p before readings) |}
      | Throw e => run_from w (h e) (sent (run_from w p before readings))
                            (ticks (run_from w p before readings))
      end.
Proof.
  induction p as [a|e|req k IH|k IH]; intros before readings; simpl;
    try reflexivity; apply IH.
Qed.

(** ** Cancellability *)

Lemma days_le_3 (now createdAt : Z) :
  Qle_bool ((now - createdAt)%Z # ms_per_day) (3 # 1)
  = (now - createdAt <=? 3 * Z.pos ms_per_day)%Z.
Proof.
  unfold Qle_bool. cbn [Qnum Qden]. rewrite Z.mul_1_r. reflexivity.
Qed.

(** C2.  [canCancelOrder] answers false for a cancelled order, false for a
    fulfilled or shipped order whatever its age, and otherwise true exactly
    when the order is at most three days old (three days included; an
    unreadable creation date counts as too old). *)
Theorem canCancel_rule {host : Host} (w : World) (before : list HttpsRequest) (readings : nat)
        (order cancelled_at fulfillment_status created_at : value) :
  prop order "cancelled_at" = Ok cancelled_at ->
  prop order "fulfillment_status" = Ok fulfillment_status ->
  prop order "created_at" = Ok created_at ->
  let canCancel := outcome (run_from w (canCancelOrder order) before readings) in
  let now := clock w readings in
  (truthy cancelled_at = true -> canCancel = Ok false)
  /\ (str_eq fulfillment_status "fulfilled" || str_eq fulfillment_status "shipped" = true ->
      canCancel = Ok false)
  /\ (truthy cancelled_at = false ->
      str_eq fulfillment_status "fulfilled" || str_eq fulfillment_status "shipped" = false ->
      match Date_new created_at with
      | Some createdAt =>
          canCancel = Ok (now - createdAt <=? 3 * Z.pos ms_per_day)%Z
          /\ (canCancel = Ok true <-> (now - createdAt <= 3 * 86400000)%Z)
      | None => canCancel = Ok false
      end).
Proof.
  intros Hc Hf Hd canCancel now. subst canCancel now.
  unfold canCancelOrder. cbn [bind Monad_Prog].
  rewrite Hc. cbn [lift Prog_bind].
  destruct (truthy cancelled_at) eqn:Ht.
  - repeat split; intros; try discriminate; reflexivity.
  - rewrite Hf. cbn [lift Prog_bind].
    destruct (str_eq fulfillment_status "fulfilled" || str_eq fulfillment_status "shipped")
             eqn:Hs.
    + repeat split; intros; try discriminate; reflexivity.
    + rewrite Hd. cbn [lift Prog_bind new_Date run_from outcome ret Monad_Prog].
      repeat split; try (intros; discriminate).
      intros _ _. destruct (Date_new created_at) as [createdAt|]; cbn [option_map].
      * rewrite days_le_3. split; [reflexivity|].
        change (3 * Z.pos ms_per_day)%Z with (3 * 86400000)%Z.
        split.
        -- intros E. injection E as E. apply Z.leb_le. exact E.
        -- intros E. apply Z.leb_le in E. rewrite E. reflexivity.
      * reflexivity.
Qed.

(** ** Splitting and joining tag lists *)

Example split_examples :
  split_comma_space "vip, wholesale" = ["vip"; "wholesale"]
  /\ split_comma_space EmptyString = [EmptyString]
  /\ split_comma_space "a,, b" = ["a,"; "b"]
  /\ split_comma_space "a,b" = ["a,b"].
Proof. repeat split; reflexivity. Qed.

Lemma split_at_separator (rest : string) :
  split_comma_space (String "," (String " " rest))
  = EmptyString :: split_comma_space rest.
Proof. reflexivity. Qed.

Lemma split_no_separator (c : ascii) (rest : string) :
  (c = ","%char -> forall r, rest <> String " " r) ->
  split_comma_space (String c rest)
  = match split_comma_space rest with
    | piece :: pieces => String c piece :: pieces
    | [] => [String c EmptyString]
    end.
Proof.
  intros Hno. destruct (Ascii.eqb_spec c ",") as [->|Hc].
  - destruct rest as [|d r]; [reflexivity|].
    destruct (Ascii.eqb_spec d " ") as [->|Hd].
    + exfalso. apply (Hno eq_refl r). reflexivity.
    + destruct d as [[] [] [] [] [] [] [] []]; try reflexivity.
      exfalso. apply Hd. reflexivity.
  - destruct c as [[] [] [] [] [] [] [] []]; try reflexivity.
    exfalso. apply Hc. reflexivity.
Qed.

Lemma split_cases (c : ascii) (rest : string) :
  (exists r, c = ","%char /\ rest = String " " r)
  \/ (c = ","%char -> forall r, rest <> String " " r).
Proof.
  destruct (Ascii.eqb_spec c ",") as [->|Hc].
  - destruct rest as [|d r].
    + right. intros _ r. discriminate.
    + destruct (Ascii.eqb_spec d " ") as [->|Hd].
      * left. exists r. split; reflexivity.
      * right. intros _ r' E. injection E as E _. contradiction.
  - right. intros E. contradiction.
Qed.

Lemma string_length_ind (P : string -> Prop) :
  (forall s, (forall t, (String.length t < String.length s)%nat -> P t) -> P s) ->
  forall s, P s.
Proof.
  intros Hstep s.
  remember (String.length s) as n eqn:Hn. revert s Hn.
  induction n as [n IH] using lt_wf_ind. intros s ->.
  apply Hstep. intros t Hlt. apply (IH _ Hlt t eq_refl).
Qed.

Lemma split_not_nil (s : string) : split_comma_space s <> [].
Proof.
  induction s as [s IH] using string_length_ind.
  destruct s as [|c rest]; [discriminate|].
  destruct (split_cases c rest) as [(r & -> & ->)|Hno].
  - rewrite split_at_separator. discriminate.
  - rewrite (split_no_separator _ _ Hno).
    destruct (split_comma_space rest); discriminate.
Qed.

Lemma concat_cons_head (sep : string) (c : ascii) (piece : string) (pieces : list string) :
  String.concat sep (String c piece :: pieces)
  = String c (String.concat sep (piece :: pieces)).
Proof. destruct pieces; reflexivity. Qed.

(** Joining what was split gives the string back. *)
Lemma join_split (s : string) : join_comma_space (split_comma_space s) = s.
Proof.
  unfold join_comma_space.
  induction s as [s IH] using string_length_ind.
  destruct s as [|c rest]; [reflexivity|].
  destruct (split_cases c rest) as [(r & -> & ->)|Hno].
  - rewrite split_at_separator.
    assert (Hr : String.concat ", " (split_comma_space r) = r)
      by (apply IH; simpl; lia).
    destruct (split_comma_space r) as [|p ps] eqn:E.
    + exfalso. exact (split_not_nil r E).
    + cbn [String.concat]. cbn [String.concat] in Hr. rewrite Hr. reflexivity.
  - rewrite (split_no_separator _ _ Hno).
    assert (Hr : String.concat ", " (split_comma_space rest) = rest)
      by (apply IH; simpl; lia).
    destruct (split_comma_space rest) as [|p ps] eqn:E.
    + exfalso. exact (split_not_nil rest E).
    + rewrite concat_cons_head, Hr. reflexivity.
Qed.

(** A piece is a string that holds no separator. *)
Definition piece (x : string) : Prop := split_comma_space x = [x].

Lemma piece_tail (c : ascii) (rest : string) :
  piece (String c rest) ->
  piece rest /\ (c = ","%char -> forall r, rest <> String " " r).
Proof.
  unfold piece. intros Hp.
  destruct (split_cases c rest) as [(r & -> & ->)|Hno].
  - rewrite split_at_separator in Hp. discriminate.
  - split; [|exact Hno].
    rewrite (split_no_separator _ _ Hno) in Hp.
    destruct (split_comma_space rest) as [|p ps] eqn:E.
    + exfalso. exact (split_not_nil rest E).
    + congruence.
Qed.

Lemma split_head_first (rest : string) (d : ascii) (p : string) (ps : list string) :
  split_comma_space rest = String d p :: ps -> exists r, rest = String d r.
Proof.
  destruct rest as [|c r]; [discriminate|].
  destruct (split_cases c r) as [(r' & -> & ->)|Hno].
  - rewrite split_at_separator. discriminate.
  - rewrite (split_no_separator _ _ Hno).
    destruct (split_comma_space r); intros E; injection E as -> _ _; exists r; reflexivity.
Qed.

Lemma split_piece_then_separator (e r : string) :
  piece e ->
  split_comma_space (e ++ ", " ++ r) = e :: split_comma_space r.
Proof.
  induction e as [|c e IH]; intros Hp; [reflexivity|].
  destruct (piece_tail _ _ Hp) as [Hpe Hno].
  change (String c e ++ ", " ++ r) with (String c (e ++ ", " ++ r)).
  rewrite split_no_separator.
  - rewrite (IH Hpe). reflexivity.
  - intros Hc r' E. destruct e as [|d e'].
    + discriminate.
    + injection E as -> _. exact (Hno Hc e' eq_refl).
Qed.

Lemma split_gives_pieces (s : string) : Forall piece (split_comma_space s).
Proof.
  induction s as [s IH] using string_length_ind.
  destruct s as [|c rest]; [repeat constructor|].
  destruct (split_cases c rest) as [(r & -> & ->)|Hno].
  - rewrite split_at_separator. constructor; [reflexivity|].
    apply IH. simpl. lia.
  - rewrite (split_no_separator _ _ Hno).
    assert (Hr : Forall piece (split_comma_space rest)) by (apply IH; simpl; lia).
    destruct (split_comma_space rest) as [|p ps] eqn:E.
    + exfalso. exact (split_not_nil rest E).
    + inversion Hr as [|? ? Hp Hps]; subst. constructor; [|exact Hps].
      unfold piece in *. rewrite split_no_separator.
      * rewrite Hp. reflexivity.
      * intros Hc r' ->.
        destruct (split_head_first _ _ _ _ E) as [r ->].
        exact (Hno Hc r eq_refl).
Qed.

Lemma split_join (l : list string) :
  l <> [] -> Forall piece l -> split_comma_space (join_comma_space l) = l.
Proof.
  unfold join_comma_space.
  induction l as [|e l IH]; intros Hne Hall; [congruence|].
  inversion Hall as [|? ? He Hl]; subst.
  destruct l as [|e2 r]; [exact He|].
  change (String.concat ", " (e :: e2 :: r))
    with (e ++ ", " ++ String.concat ", " (e2 :: r)).
  rewrite (split_piece_then_separator _ _ He).
  rewrite IH; [reflexivity | discriminate | exact Hl].
Qed.

Lemma join_not_empty (l : list string) (x : string) :
  In x l -> x <> EmptyString -> join_comma_space l <> EmptyString.
Proof.
  unfold join_comma_space.
  destruct l as [|e [|e2 r]]; intros Hin Hx.
  - contradiction.
  - destruct Hin as [->|[]]. exact Hx.
  - cbn [String.concat]. destruct e; discriminate.
Qed.

Lemma includes_In (l : list string) (x : string) : includes l x = true <-> In x l.
Proof.
  unfold includes. rewrite existsb_exists. split.
  - intros (y & Hy & E). apply String.eqb_eq in E. subst. exact Hy.
  - intros Hin. exists x. split; [exact Hin | apply String.eqb_refl].
Qed.

Lemma order_tags_pieces (order : value) (tags : list string) :
  order_tags order = Ok tags -> Forall piece tags.
Proof.
  unfold order_tags. destruct (prop order "tags") as [t|e]; simpl; [|discriminate].
  destruct (truthy t).
  - destruct t; simpl; try discriminate.
    intros E. injection E as <-. apply split_gives_pieces.
  - intros E. injection E as <-. constructor.
Qed.

Lemma order_tags_of_string (order : value) (s : string) :
  prop order "tags" = Ok (VStr s) -> s <> EmptyString ->
  order_tags order = Ok (split_comma_space s).
Proof.
  intros Hp Hs. unfold order_tags. rewrite Hp. simpl.
  destruct s; [congruence | reflexivity].
Qed.

Lemma count_occ_app_one (l : list string) (x : string) :
  count_occ string_dec (l ++ [x])%list x = S (count_occ string_dec l x).
Proof.
  rewrite count_occ_app. simpl. destruct (string_dec x x); [lia | congruence].
Qed.

(** ** What the client and the order lookup do in a world *)

Lemma run_client {host : Host} (w : World) (v : Variant) (endpoint method : string)
      (data : value) before readings :
  run_from w (client v endpoint method data) before readings
  = {| outcome := settle v (network w before (api_request endpoint method data));
       sent := (before ++ [api_request endpoint method data])%list;
       ticks := readings |}.
Proof. destruct v; simpl; apply run_lift. Qed.

Lemma run_locate_order {host : Host} (w : World) (v : Variant) (orderNumber : string)
      before readings :
  run_from w (locate_order v orderNumber) before readings
  = {| outcome := (ordersResponse <-
                     settle v (network w before (lookup_request orderNumber)) ;;
                   first_order ordersResponse);
       sent := (before ++ [lookup_request orderNumber])%list;
       ticks := readings |}.
Proof.
  unfold locate_order. cbn [bind Monad_Prog]. rewrite run_bind, run_client.
  cbn [outcome sent ticks]. fold (lookup_request orderNumber).
  destruct (settle v _); [apply run_lift | reflexivity].
Qed.

Ltac run_steps :=
  repeat first
    [ rewrite run_try_catch
    | rewrite run_bind
    | rewrite run_locate_order
    | rewrite run_client
    | rewrite run_lift
    | progress cbn [outcome sent ticks bind ret Monad_Prog Monad_Result run_from lift] ].

Ltac case_settle :=
  repeat match goal with
         | |- context [match settle ?v ?out with _ => _ end] =>
             destruct (settle v out); run_steps
         end.

(** C4.  The confirmation appends ['payment-confirmed'] only when the tag
    list lacks it: the list keeps its order and grows by at most one
    element, the tag is present afterwards exactly as often as before (once
    if it was absent), a second confirmation of the written tags finds the
    same list and writes the same string, confirming an already confirmed
    order writes its tag string back unchanged, and the handler sends the
    joined list in its update call. *)
Theorem confirm_payment_idempotent {host : Host} (order : value) (tags : list string) :
  order_tags order = Ok tags ->
  let tags' := if includes tags pc then tags else (tags ++ [pc])%list in
  confirmed_tags order = Ok tags'
  /\ (In pc tags -> tags' = tags)
  /\ (~ In pc tags -> tags' = (tags ++ [pc])%list)
  /\ (List.length tags' <= List.length tags + 1)%nat
  /\ count_occ string_dec tags' pc = Nat.max 1 (count_occ string_dec tags pc)
  /\ (forall again : value,
         prop again "tags" = Ok (VStr (join_comma_space tags')) ->
         order_tags again = Ok tags' /\ confirmed_tags again = Ok tags')
  /\ (forall s, prop order "tags" = Ok (VStr s) -> In pc tags ->
                join_comma_space tags' = s)
  /\ (forall (w : World) (v : Variant) (req : Request) (orderId : value),
         outcome (run w (locate_order v (orderNumber req))) = Ok (inr order) ->
         prop order "id" = Ok orderId ->
         sent (run w (confirm_payment v req))
         = [lookup_request (orderNumber req);
            api_request ("orders/" ++ ToString orderId ++ ".json") "PUT"
              (VObj [("order",
                      VObj [("id", orderId);
                            ("tags", VStr (join_comma_space tags'))])])]).
Proof.
  intros Htags tags'.
  assert (Hconf : confirmed_tags order = Ok tags').
  { unfold confirmed_tags. rewrite Htags. subst tags'. fold pc. simpl.
    destruct (includes tags pc); reflexivity. }
  assert (Hin' : In pc tags').
  { subst tags'. destruct (includes tags pc) eqn:E.
    - apply includes_In. exact E.
    - apply in_or_app. right. left. reflexivity. }
  assert (Hpieces : Forall piece tags').
  { subst tags'. pose proof (order_tags_pieces _ _ Htags) as Hp.
    destruct (includes tags pc); [exact Hp|].
    apply Forall_app. split; [exact Hp | repeat constructor]. }
  assert (Hne : tags' <> []) by (intros E; rewrite E in Hin'; contradiction).
  split; [exact Hconf|].
  split.
  { intros Hin. subst tags'. apply includes_In in Hin. rewrite Hin. reflexivity. }
  split.
  { intros Hnin. subst tags'. destruct (includes tags pc) eqn:E; [|reflexivity].
    apply includes_In in E. contradiction. }
  split.
  { subst tags'. destruct (includes tags pc); [lia|]. rewrite length_app. simpl. lia. }
  split.
  { subst tags'. destruct (includes tags pc) eqn:E.
    - apply includes_In in E. apply (count_occ_In string_dec) in E. lia.
    - rewrite count_occ_app_one.
      assert (Hnin : ~ In pc tags).
      { intros Hin. apply includes_In in Hin. congruence. }
      apply (count_occ_not_In string_dec) in Hnin. rewrite Hnin. reflexivity. }
  split.
  { intros again Hagain.
    assert (Hagain_tags : order_tags again = Ok tags').
    { rewrite (order_tags_of_string _ _ Hagain).
      - rewrite (split_join _ Hne Hpieces). reflexivity.
      - apply (join_not_empty _ pc Hin'). discriminate. }
    split; [exact Hagain_tags|].
    unfold confirmed_tags. rewrite Hagain_tags. fold pc. simpl.
    apply includes_In in Hin'. rewrite Hin'. reflexivity. }
  split.
  { intros s Hs Hin. subst tags'. apply includes_In in Hin. rewrite Hin.
    destruct (string_dec s EmptyString) as [->|Hs0].
    - unfold order_tags in Htags. rewrite Hs in Htags. simpl in Htags.
      injection Htags as <-. discriminate Hin.
    - rewrite (order_tags_of_string _ _ Hs Hs0) in Htags.
      injection Htags as <-. apply join_split. }
  intros w v req orderId Hloc Hid.
  unfold run in *. unfold confirm_payment. run_steps.
  rewrite run_locate_order in Hloc. cbn [outcome] in Hloc. cbn [bind Monad_Result] in Hloc.
  rewrite Hloc. run_steps. rewrite Hconf. run_steps. rewrite Hid. run_steps.
  case_settle; reflexivity.
Qed.

(** ** Upload without a file *)

(** C9.  With no file attached the upload handler answers 400 "no file
    uploaded" and has sent nothing to the platform, in both variants. *)
Theorem no_file_fails_fast {host : Host} (w : World) (number : string) (why : value) :
  run w (upload_payment_A {| orderNumber := number; file := None; reason := why |})
  = {| outcome := Ok no_file_uploaded; sent := []; ticks := 0 |}
  /\ run w (upload_payment_B {| orderNumber := number; file := None; reason := why |})
     = {| outcome := Ok no_file_uploaded; sent := []; ticks := 0 |}.
Proof. split; reflexivity. Qed.

(** ** Cancellation *)

Lemma prop_defined (o : value) (k k' : string) (x : value) :
  prop o k = Ok x -> exists y, prop o k' = Ok y.
Proof. destruct o; simpl; intros E; try discriminate; eexists; reflexivity. Qed.

Lemma canCancelOrder_sends_nothing {host : Host} (w : World) (order : value)
      before readings :
  sent (run_from w (canCancelOrder order) before readings) = before.
Proof.
  unfold canCancelOrder. cbn [bind Monad_Prog].
  destruct (prop order "cancelled_at") as [c|e]; [|reflexivity].
  cbn [lift Prog_bind]. destruct (truthy c); [reflexivity|].
  destruct (prop order "fulfillment_status") as [f|e]; [|reflexivity].
  cbn [lift Prog_bind].
  destruct (str_eq f "fulfilled" || str_eq f "shipped"); [reflexivity|].
  destruct (prop order "created_at") as [d|e]; reflexivity.
Qed.

Lemma canCancelOrder_reads {host : Host} (w : World) (order : value)
      before readings (b : bool) :
  outcome (run_from w (canCancelOrder order) before readings) = Ok b ->
  exists c, prop order "cancelled_at" = Ok c.
Proof.
  unfold canCancelOrder. cbn [bind Monad_Prog].
  destruct (prop order "cancelled_at") as [c|e]; [eauto | discriminate].
Qed.

(** C5.  For a located order, when [canCancelOrder] says no the handler
    answers 400 "cannot cancel" having sent the lookup only; the cancel call
    goes out only when it says yes, and then carries the request's reason
    (['customer'] when none was given) and [email: true]. *)
Theorem cancel_only_when_cancellable {host : Host}
        (w : World) (v : Variant) (req : Request) (order : value) :
  outcome (run w (locate_order v (orderNumber req))) = Ok (inr order) ->
  let lookup := lookup_request (orderNumber req) in
  let canCancel := outcome (run_from w (canCancelOrder order) [lookup] 0) in
  let answer := run w (cancel_order v req) in
  (canCancel = Ok false ->
   outcome answer = Ok cannot_cancel /\ sent answer = [lookup])
  /\ (canCancel = Ok true ->
      exists orderId,
        prop order "id" = Ok orderId
        /\ sent answer
           = [lookup;
              api_request ("orders/" ++ ToString orderId ++ "/cancel.json") "POST"
                (VObj [("reason", if truthy (reason req) then reason req
                                  else VStr "customer");
                       ("email", VBool true)])])
  /\ (canCancel <> Ok true -> sent answer = [lookup]).
Proof.
  intros Hloc lookup canCancel answer.
  assert (Hrun : answer
                 = run_from w (try_catch
                                 (Prog_bind (canCancelOrder order)
                                    (fun cancellable : bool =>
                                       if negb cancellable then Ret cannot_cancel
                                       else
                                         Prog_bind (lift (prop order "id"))
                                           (fun orderId =>
                                              Prog_bind
                                                (client v ("orders/" ++ ToString orderId
                                                           ++ "/cancel.json") "POST"
                                                        (cancel_data (reason req)))
                                                (fun _ => Ret order_cancelled))))
                                 (fun _ => Ret error_cancelling_order))
                     [lookup] 0).
  { subst answer. unfold run in *. unfold cancel_order.
    rewrite run_locate_order in Hloc. cbn [outcome] in Hloc.
    rewrite !run_try_catch. cbn [bind Monad_Prog]. rewrite run_bind, run_locate_order.
    cbn [outcome sent ticks app]. rewrite Hloc. reflexivity. }
  rewrite Hrun. clear Hrun answer.
  rewrite run_try_catch, run_bind.
  pose proof (canCancelOrder_sends_nothing w order [lookup] 0) as Hsent.
  fold canCancel.
  destruct (run_from w (canCancelOrder order) [lookup] 0) as [o s t] eqn:Hcan.
  cbn [outcome sent ticks] in *. subst s canCancel.
  split; [|split].
  - intros ->. split; reflexivity.
  - intros ->. cbn [negb].
    assert (Hc : exists c, prop order "cancelled_at" = Ok c).
    { apply (canCancelOrder_reads w order [lookup] 0%nat true). rewrite Hcan. reflexivity. }
    destruct Hc as [c Hc]. destruct (prop_defined _ _ "id" _ Hc) as [orderId Hid].
    exists orderId. split; [exact Hid|].
    rewrite Hid. run_steps. case_settle; reflexivity.
  - intros Hno. destruct o as [[|]|e]; [congruence | reflexivity | reflexivity].
Qed.

(** ** Order lookup with an unreadable payment slip *)

Lemma payment_slip_unparsable {host : Host} (slip stored : value) :
  truthy slip = true ->
  prop slip "value" = Ok stored ->
  JSON_parse (ToString stored) = None ->
  payment_slip B slip = Throw SyntaxError.
Proof.
  intros Ht Hs Hp. unfold payment_slip. rewrite Ht, Hs.
  cbn [bind Monad_Result]. rewrite Hp. reflexivity.
Qed.

Lemma order_data_throws {host : Host} (w : World) (v : Variant)
      (order slip stage : value) (e : Error) before readings :
  payment_slip v slip = Throw e ->
  exists e',
    run_from w (order_data v order slip stage) before readings
    = {| outcome := Throw e'; sent := before; ticks := readings |}.
Proof.
  intros Hslip. unfold order_data. cbn [bind Monad_Prog].
  repeat match goal with
         | |- context [Prog_bind (lift ?r) _] =>
             destruct r eqn:?; cbn [lift Prog_bind run_from];
             try congruence; try (eexists; reflexivity)
         end.
Qed.

(** C10.  Variant B: the order is found, both platform calls succeed, the
    [payment_slip] metafield is there, but its value does not parse as JSON.
    Then the handler answers the generic 500 "error fetching order" and no
    view. *)
Theorem unparsable_slip_fails_lookup {host : Host} (w : World) (req : Request)
        (order orderId metafieldsResponse metafields slip stored : value) :
  let lookup := lookup_request (orderNumber req) in
  let read := api_request (metafields_endpoint orderId) "GET" VNull in
  outcome (run w (locate_order B (orderNumber req))) = Ok (inr order) ->
  prop order "id" = Ok orderId ->
  VariantB.settle (network w [lookup] read) = Ok metafieldsResponse ->
  prop metafieldsResponse "metafields" = Ok metafields ->
  find_metafield metafields "payment_slip" = Ok slip ->
  truthy slip = true ->
  prop slip "value" = Ok stored ->
  JSON_parse (ToString stored) = None ->
  run w (get_order B req)
  = {| outcome := Ok error_fetching_order; sent := [lookup; read]; ticks := 0 |}.
Proof.
  intros lookup read Hloc Hid Hread Hmeta Hfind Ht Hstored Hparse.
  subst lookup read.
  pose proof (payment_slip_unparsable slip stored Ht Hstored Hparse) as Hslip.
  destruct (prop_defined _ _ "name" _ Hid) as [name Hname].
  unfold run in *. rewrite run_locate_order in Hloc. cbn [outcome] in Hloc.
  unfold get_order. rewrite run_try_catch. cbn [bind Monad_Prog].
  rewrite run_bind, run_locate_order. cbn [outcome sent ticks app].
  rewrite Hloc.
  rewrite Hname. cbn [lift Prog_bind]. rewrite Hid. cbn [lift Prog_bind].
  rewrite run_bind, run_client. cbn [outcome sent ticks app settle].
  rewrite Hread.
  rewrite Hmeta. cbn [lift Prog_bind]. rewrite Hfind.
  cbn [lift Prog_bind ret Monad_Result].
  rewrite run_bind.
  destruct (order_data_throws w B order slip VUndefined SyntaxError
              [lookup_request (orderNumber req);
               api_request (metafields_endpoint orderId) "GET" VNull] 0 Hslip)
    as [e' ->].
  reflexivity.
Qed.

(** ** The platform client *)

(** C8, as the code has it.  A transport error rejects with that error.  A
    body that does not parse rejects with the parse failure whatever the
    status code is.  A body that parses resolves to the decoded value when
    the status is in 200..299 and otherwise rejects with the status code and
    the body (re-serialised in variant A). *)
Theorem client_settles {host : Host} (w : World) (v : Variant)
        (endpoint method : string) (data : value) before readings :
  let req := api_request endpoint method data in
  let answer := run_from w (client v endpoint method data) before readings in
  sent answer = (before ++ [req])%list
  /\ (forall e, network w before req = NetError e -> outcome answer = Throw e)
  /\ (forall statusCode responseBody,
         network w before req = NetResponse statusCode responseBody ->
         (JSON_parse responseBody = None ->
          outcome answer
          = Throw (NewError
                     match v with
                     | A => "Failed to parse JSON response. Status: "
                            ++ show_Z statusCode ++ ", Body: "
                            ++ substring 0 200 responseBody
                     | B => "Failed to parse JSON response: " ++ responseBody
                     end))
         /\ (forall decoded,
                JSON_parse responseBody = Some decoded ->
                ((200 <= statusCode < 300)%Z -> outcome answer = Ok decoded)
                /\ (~ (200 <= statusCode < 300)%Z ->
                    outcome answer
                    = Throw (NewError
                               ("Shopify API Error: " ++ show_Z statusCode ++ " - "
                                ++ match v with
                                   | A => JSON_stringify decoded
                                   | B => responseBody
                                   end))))).
Proof.
  intros req answer. subst req answer. rewrite run_client. cbn [outcome sent].
  split; [reflexivity|]. split.
  - intros e ->. destruct v; reflexivity.
  - intros statusCode responseBody ->. split.
    + intros Hp. destruct v; cbn [settle VariantA.settle VariantB.settle];
        rewrite Hp; reflexivity.
    + intros decoded Hp. split.
      * intros [Hlo Hhi].
        assert (Hok : status_ok statusCode = true).
        { unfold status_ok. apply andb_true_intro. split.
          - apply Z.leb_le. exact Hlo.
          - apply Z.ltb_lt. exact Hhi. }
        destruct v; cbn [settle VariantA.settle VariantB.settle];
          rewrite Hp, Hok; reflexivity.
      * intros Hout.
        assert (Hok : status_ok statusCode = false).
        { unfold status_ok. destruct (200 <=? statusCode)%Z eqn:Hlo;
            destruct (statusCode <? 300)%Z eqn:Hhi; try reflexivity.
          exfalso. apply Hout. split.
          - apply Z.leb_le. exact Hlo.
          - apply Z.ltb_lt. exact Hhi. }
        destruct v; cbn [settle VariantA.settle VariantB.settle];
          rewrite Hp, Hok; reflexivity.
Qed.

(** A 502 whose body is an HTML page: the status is outside 200..299, yet
    the client fails with the parse failure and with no "Shopify API Error"
    carrying the status code. *)
Lemma bad_gateway_is_parse_failure :
  (~ (200 <= 502 < 300)%Z)
  /\ outcome (run bad_gateway (client (host := test_host) B "orders.json" "GET" VNull))
     = Throw (NewError "Failed to parse JSON response: <html>Bad Gateway</html>")
  /\ (forall detail,
         outcome (run bad_gateway (client (host := test_host) B "orders.json" "GET" VNull))
         <> Throw (NewError ("Shopify API Error: 502 - " ++ detail))).
Proof.
  split; [lia|]. split; [reflexivity|].
  intros detail E. vm_compute in E. discriminate E.
Qed.

(** ** Order-number cleaning *)

Lemma clean_without_hash (number : string) :
  count_char "#" number = 0%nat -> cleanOrderNumber number = number.
Proof.
  unfold cleanOrderNumber. induction number as [|c rest IH]; intros Hc; [reflexivity|].
  simpl in Hc. simpl. destruct (Ascii.eqb c "#"); [discriminate|].
  rewrite IH; [reflexivity | exact Hc].
Qed.

Lemma clean_removes_one (number : string) :
  count_char "#" (cleanOrderNumber number) = Nat.pred (count_char "#" number).
Proof.
  unfold cleanOrderNumber. induction number as [|c rest IH]; [reflexivity|].
  simpl. destruct (Ascii.eqb c "#") eqn:E.
  - reflexivity.
  - simpl. rewrite E. simpl. exact IH.
Qed.

Lemma locate_order_clean {host : Host} (v : Variant) (n1 n2 : string) :
  cleanOrderNumber n1 = cleanOrderNumber n2 -> locate_order v n1 = locate_order v n2.
Proof. intros E. unfold locate_order, orders_query. rewrite E. reflexivity. Qed.

Lemma clean_first_hash (before after : string) :
  count_char "#" before = 0%nat ->
  cleanOrderNumber (before ++ "#" ++ after) = before ++ after.
Proof.
  unfold cleanOrderNumber. induction before as [|c rest IH]; intros Hc; [reflexivity|].
  simpl in Hc. simpl in IH. simpl. destruct (Ascii.eqb c "#"); [discriminate|].
  rewrite IH; [reflexivity | exact Hc].
Qed.

(** C7, as the code has it.  Cleaning removes the first ['#'] of the order
    number and nothing else: whatever stands before the first ['#'] and
    whatever follows it, later ['#'] included, is kept in place.  A ['#']
    prefix is stripped, a number without ['#'] is unchanged, so the number
    with and without the prefix make every handler run the same program (the
    same lookup query included), and cleaning twice is cleaning once for
    numbers with at most one ['#']. *)
Theorem cleaning_strips_first_hash {host : Host} (number : string) :
  (forall before after,
      count_char "#" before = 0%nat ->
      number = before ++ "#" ++ after ->
      cleanOrderNumber number = before ++ after)
  /\ cleanOrderNumber ("#" ++ number) = number
  /\ count_char "#" (cleanOrderNumber number) = Nat.pred (count_char "#" number)
  /\ ((count_char "#" number <= 1)%nat ->
      cleanOrderNumber (cleanOrderNumber number) = cleanOrderNumber number)
  /\ (count_char "#" number = 0%nat ->
      cleanOrderNumber number = number
      /\ orders_query ("#" ++ number) = orders_query number
      /\ forall (v : Variant) (f : option File) (why : value),
          let prefixed := {| orderNumber := "#" ++ number; file := f; reason := why |} in
          let plain := {| orderNumber := number; file := f; reason := why |} in
          get_order v prefixed = get_order v plain
          /\ upload_payment_A prefixed = upload_payment_A plain
          /\ upload_payment_B prefixed = upload_payment_B plain
          /\ confirm_payment v prefixed = confirm_payment v plain
          /\ cancel_order v prefixed = cancel_order v plain).
Proof.
  split; [intros before after Hbefore ->; apply clean_first_hash; exact Hbefore|].
  split; [reflexivity|]. split; [apply clean_removes_one|]. split.
  - intros Hle. apply clean_without_hash. rewrite clean_removes_one. lia.
  - intros Hzero.
    assert (Hclean : cleanOrderNumber ("#" ++ number) = cleanOrderNumber number)
      by (rewrite (clean_without_hash _ Hzero); reflexivity).
    split; [apply clean_without_hash; exact Hzero|].
    split; [unfold orders_query; rewrite Hclean; reflexivity|].
    intros v f why prefixed plain. subst prefixed plain.
    unfold get_order, upload_payment_A, upload_payment_B, confirm_payment, cancel_order.
    cbn [orderNumber file reason].
    rewrite !(locate_order_clean _ _ _ Hclean).
    repeat split; reflexivity.
Qed.

(** Two leading ['#']: the first cleaning leaves ["#1006"], the second
    changes it again; and a ['#'] that is no prefix is removed as well. *)
Lemma cleaning_twice_differs :
  cleanOrderNumber "##1006" = "#1006"
  /\ cleanOrderNumber (cleanOrderNumber "##1006") <> cleanOrderNumber "##1006"
  /\ cleanOrderNumber "10#06" = "1006".
Proof.
  split; [reflexivity|]. split; [|reflexivity].
  vm_compute. discriminate.
Qed.

(** ** The answer to a successful upload *)

Lemma run_Leaf {A : Type} (w : World) (p : Prog A) (a : A) :
  forall before readings,
    outcome (run_from w p before readings) = Ok a -> Leaf a p.
Proof.
  induction p as [b|e|req k IH|k IH]; intros before readings; simpl.
  - intros E. injection E as ->. constructor.
  - discriminate.
  - intros E. econstructor. eapply IH. exact E.
  - intros E. econstructor. eapply IH. exact E.
Qed.

Lemma Leaf_bind {A B : Type} (p : Prog A) (f : A -> Prog B) (b : B) :
  Leaf b (Prog_bind p f) -> exists a, Leaf a p /\ Leaf b (f a).
Proof.
  induction p as [a|e|req k IH|k IH]; simpl; intros HL.
  - exists a. split; [constructor | exact HL].
  - inversion HL.
  - inversion HL as [|? ? out Hk|]; subst.
    destruct (IH out Hk) as (a & Ha & Hb).
    exists a. split; [econstructor; exact Ha | exact Hb].
  - inversion HL as [| |? t Hk]; subst.
    destruct (IH t Hk) as (a & Ha & Hb).
    exists a. split; [econstructor; exact Ha | exact Hb].
Qed.

Lemma Leaf_try_catch {A : Type} (p : Prog A) (h : Error -> Prog A) (a : A) :
  Leaf a (try_catch p h) -> Leaf a p \/ exists e, Leaf a (h e).
Proof.
  induction p as [b|e|req k IH|k IH]; simpl; intros HL.
  - left. exact HL.
  - right. exists e. exact HL.
  - inversion HL as [|? ? out Hk|]; subst.
    destruct (IH out Hk) as [Hp|He]; [left; econstructor; exact Hp | right; exact He].
  - inversion HL as [| |? t Hk]; subst.
    destruct (IH t Hk) as [Hp|He]; [left; econstructor; exact Hp | right; exact He].
Qed.

Lemma Leaf_lift {A : Type} (r : Result A) (a : A) : Leaf a (lift r) -> r = Ok a.
Proof. destruct r; simpl; intros HL; inversion HL; reflexivity. Qed.

Lemma first_order_answers (ordersResponse : value) (x : Response + value) :
  first_order ordersResponse = Ok x ->
  x = inl order_not_found \/ exists order, x = inr order.
Proof.
  unfold first_order. cbn [bind Monad_Result ret].
  destruct (prop ordersResponse "orders") as [orders|]; [|discriminate].
  destruct (if negb (truthy orders) then Ok true
            else match prop orders "length" with
                 | Ok len => Ok (num_eq len 0)
                 | Throw e => Throw e
                 end) as [[|]|]; try discriminate.
  - intros E. injection E as <-. left. reflexivity.
  - destruct (index orders 0); [|discriminate].
    intros E. injection E as <-. right. eexists. reflexivity.
Qed.

Lemma Leaf_locate_order {host : Host} (v : Variant) (number : string)
      (x : Response + value) :
  Leaf x (locate_order v number) ->
  x = inl order_not_found \/ exists order, x = inr order.
Proof.
  unfold locate_order. cbn [bind Monad_Prog]. intros HL.
  apply Leaf_bind in HL. destruct HL as (r & _ & HL).
  apply Leaf_lift in HL. exact (first_order_answers _ _ HL).
Qed.

Lemma handler_answers {host : Host} (w : World) (body : Prog Response) (failure : Response) :
  exists r, outcome (run w (try_catch body (fun _ => ret failure))) = Ok r.
Proof.
  unfold run. rewrite run_try_catch.
  destruct (outcome (run_from w body [] 0)); eexists; reflexivity.
Qed.

(** Whatever the world does, variant A's upload handler ends with one of
    its three failure answers. *)
Lemma upload_A_never_succeeds {host : Host} (req : Request) (r : Response) :
  Leaf r (upload_payment_A req) ->
  r = no_file_uploaded \/ r = order_not_found \/ r = error_uploading_file.
Proof.
  unfold upload_payment_A. intros HL.
  apply Leaf_try_catch in HL. destruct HL as [HL|[e HL]].
  2:{ inversion HL. right. right. reflexivity. }
  destruct (file req) as [f|].
  2:{ inversion HL. left. reflexivity. }
  cbn [bind ret Monad_Prog] in HL.
  apply Leaf_bind in HL. destruct HL as (located & Hloc & HL).
  destruct (Leaf_locate_order _ _ _ Hloc) as [->|[order ->]].
  { inversion HL. right. left. reflexivity. }
  exfalso.
  repeat (apply Leaf_bind in HL; destruct HL as (? & _ & HL); cbn beta zeta in HL).
  inversion HL.
Qed.

(** Variant B does echo the file: when the order is found and the metafield
    is written, the answer names the file, its size and the upload time
    that was stored. *)
Lemma upload_B_echoes {host : Host} (w : World) (req : Request) (f : File)
      (order orderId : value) :
  file req = Some f ->
  outcome (run w (locate_order B (orderNumber req))) = Ok (inr order) ->
  prop order "id" = Ok orderId ->
  let uploadedAt := toISOString (clock w 0) in
  let fileData :=
    VObj [("filename", VStr (originalname f));
          ("mimetype", VStr (mimetype f));
          ("size", VNum (size f));
          ("uploadedAt", VStr uploadedAt);
          ("data", VStr (base64 (buffer f)))] in
  outcome (run_from w (write_payment_slip B orderId
                         (metafield_data (VStr (JSON_stringify fileData)) "json"))
                    [lookup_request (orderNumber req)] 1) = Ok tt ->
  outcome (run w (upload_payment_B req)) = Ok (slip_uploaded f uploadedAt).
Proof.
  intros Hfile Hloc Hid uploadedAt fileData Hwrite.
  unfold run in *. rewrite run_locate_order in Hloc. cbn [outcome] in Hloc.
  unfold upload_payment_B. rewrite Hfile.
  rewrite run_try_catch. cbn [bind Monad_Prog].
  rewrite run_bind, run_locate_order. cbn [outcome sent ticks app].
  rewrite Hloc. cbn [new_Date Prog_bind run_from].
  rewrite Hid. cbn [lift Prog_bind]. rewrite run_bind.
  fold uploadedAt. fold fileData. rewrite Hwrite. reflexivity.
Qed.

(** C6 fails in variant A.  Its upload handler never answers with the
    success message: every run ends with one of the three failure answers.
    In the world where the lookup, the staged upload, the storage, the file
    creation and the metafield write all succeed, the six calls are made and
    the answer is the 500 "error uploading file". *)
Theorem upload_A_fails_after_persisting :
  (forall (host : Host) (w : World) (req : Request),
      outcome (run w (upload_payment_A req)) = Ok no_file_uploaded
      \/ outcome (run w (upload_payment_A req)) = Ok order_not_found
      \/ outcome (run w (upload_payment_A req)) = Ok error_uploading_file)
  /\ outcome (run upload_succeeds (upload_payment_A (host := test_host) upload_1006))
     = Ok error_uploading_file
  /\ map (fun r => (method r, path r))
         (sent (run upload_succeeds (upload_payment_A (host := test_host) upload_1006)))
     = [("GET", "/admin/api/2024-01/orders.json?name=1006&status=any");
        ("POST", "/admin/api/2024-01/graphql.json");
        ("POST", "/upload");
        ("POST", "/admin/api/2024-01/graphql.json");
        ("GET", "/admin/api/2024-01/orders/1006/metafields.json");
        ("POST", "/admin/api/2024-01/orders/1006/metafields.json")].
Proof.
  split.
  - intros host w req.
    assert (Hans : exists r, outcome (run w (upload_payment_A req)) = Ok r).
    { unfold upload_payment_A. apply handler_answers. }
    destruct Hans as [r Hr]. rewrite Hr.
    destruct (upload_A_never_succeeds req r (run_Leaf w _ r [] 0%nat Hr))
      as [->|[->| ->]]; auto.
  - split; vm_compute; reflexivity.
Qed.

(** * The theorems at concrete orders and worlds *)

Lemma financial_status_rules_witness :
  VariantA.mapOrderStatus order_2050 VUndefined = Ok "confirmed"
  /\ VariantB.mapOrderStatus order_2050 = Ok "confirmed"
  /\ VariantA.mapOrderStatus order_1006 VUndefined = Ok "pending_payment"
  /\ VariantB.mapOrderStatus order_1006 = Ok "pending_payment".
Proof.
  destruct (financial_status_rules order_2050 VNull (VStr "paid")
              eq_refl eq_refl eq_refl) as [HA HB].
  destruct (financial_status_rules order_1006 VNull (VStr "pending")
              eq_refl eq_refl eq_refl) as [HA' HB'].
  split; [exact (HA VUndefined eq_refl)|].
  split; [exact (HB VNull [] eq_refl eq_refl eq_refl eq_refl eq_refl eq_refl)|].
  split; [exact (HA' VUndefined eq_refl)|].
  exact (HB' VNull ["vip"; "wholesale"] eq_refl eq_refl eq_refl eq_refl eq_refl eq_refl).
Defined.

Lemma canCancel_rule_witness :
  outcome (run three_days_later (canCancelOrder (host := test_host) order_1006)) = Ok true
  /\ outcome (run three_days_and_1ms_later (canCancelOrder (host := test_host) order_1006))
     = Ok false
  /\ outcome (run three_days_later (canCancelOrder (host := test_host) order_1006_cancelled))
     = Ok false.
Proof.
  split; [|split].
  - destruct (canCancel_rule (host := test_host) three_days_later [] 0 order_1006
                VNull VNull (VStr "2024-01-02T08:00:00Z") eq_refl eq_refl eq_refl)
      as (_ & _ & Hage).
    exact (proj1 (Hage eq_refl eq_refl)).
  - destruct (canCancel_rule (host := test_host) three_days_and_1ms_later [] 0 order_1006
                VNull VNull (VStr "2024-01-02T08:00:00Z") eq_refl eq_refl eq_refl)
      as (_ & _ & Hage).
    exact (proj1 (Hage eq_refl eq_refl)).
  - destruct (canCancel_rule (host := test_host) three_days_later [] 0 order_1006_cancelled
                (VStr "2024-01-05T10:00:00Z") (VStr "fulfilled")
                (VStr "2024-01-02T08:00:00Z") eq_refl eq_refl eq_refl)
      as (Hcancelled & _ & _).
    exact (Hcancelled eq_refl).
Defined.

Lemma confirm_payment_idempotent_witness :
  confirmed_tags order_1006 = Ok ["vip"; "wholesale"; "payment-confirmed"]
  /\ confirmed_tags order_1006_confirmed = Ok ["vip"; "wholesale"; "payment-confirmed"]
  /\ map payload (sent (run update_accepted
                          (confirm_payment (host := test_host) B request_1006)))
     = [NoBody;
        Text (test_stringify
                (VObj [("order",
                        VObj [("id", VNum 1006);
                              ("tags", VStr "vip, wholesale, payment-confirmed")])]))].
Proof.
  destruct (confirm_payment_idempotent (host := test_host) order_1006 ["vip"; "wholesale"]
              eq_refl)
    as (Hfirst & _ & _ & _ & _ & Hagain & _ & Hsent).
  split; [exact Hfirst|].
  split; [exact (proj2 (Hagain order_1006_confirmed eq_refl))|].
  assert (Hloc : outcome (run update_accepted
                            (locate_order (host := test_host) B (orderNumber request_1006)))
                 = Ok (inr order_1006)) by (vm_compute; reflexivity).
  rewrite (Hsent update_accepted B request_1006 (VNum 1006) Hloc eq_refl).
  reflexivity.
Defined.

Lemma cancel_only_when_cancellable_witness :
  outcome (run ten_days_later (cancel_order (host := test_host) B request_1006))
  = Ok cannot_cancel
  /\ sent (run ten_days_later (cancel_order (host := test_host) B request_1006))
     = [lookup_request (host := test_host) "#1006"].
Proof.
  assert (Hloc : outcome (run ten_days_later
                            (locate_order (host := test_host) B (orderNumber request_1006)))
                 = Ok (inr order_1006)) by (vm_compute; reflexivity).
  destruct (cancel_only_when_cancellable (host := test_host) ten_days_later B request_1006
              order_1006 Hloc) as (Hno & _ & _).
  apply Hno. vm_compute. reflexivity.
Defined.

Lemma unparsable_slip_fails_lookup_witness :
  run slip_is_broken (get_order (host := test_host) B request_1006)
  = {| outcome := Ok error_fetching_order;
       sent := [lookup_request (host := test_host) "#1006";
                api_request (host := test_host) "orders/1006/metafields.json" "GET" VNull];
       ticks := 0 |}.
Proof.
  apply (unparsable_slip_fails_lookup (host := test_host) slip_is_broken request_1006
           order_1006 (VNum 1006) (metafields_document [broken_slip])
           (VArr [broken_slip]) broken_slip (VStr "{filename:")).
  - vm_compute. reflexivity.
  - reflexivity.
  - vm_compute. reflexivity.
  - reflexivity.
  - reflexivity.
  - reflexivity.
  - reflexivity.
  - vm_compute. reflexivity.
Defined.

Lemma client_settles_witness :
  outcome (run bad_gateway (client (host := test_host) A "orders.json" "GET" VNull))
  = Throw (NewError "Failed to parse JSON response. Status: 502, Body: <html>Bad Gateway</html>")
  /\ outcome (run not_found_json (client (host := test_host) B "orders/1.json" "GET" VNull))
     = Throw (NewError ("Shopify API Error: 404 - " ++ test_stringify written_document)).
Proof.
  split.
  - destruct (client_settles (host := test_host) bad_gateway A "orders.json" "GET" VNull
                [] 0) as (_ & _ & Hresponse).
    destruct (Hresponse 502%Z "<html>Bad Gateway</html>" eq_refl) as [Hparse _].
    exact (Hparse eq_refl).
  - destruct (client_settles (host := test_host) not_found_json B "orders/1.json" "GET" VNull
                [] 0) as (_ & _ & Hresponse).
    destruct (Hresponse 404%Z (test_stringify written_document) eq_refl) as [_ Hdecoded].
    destruct (Hdecoded written_document) as [_ Hfail].
    + vm_compute. reflexivity.
    + apply Hfail. lia.
Defined.

Lemma cleaning_strips_first_hash_witness :
  cleanOrderNumber "#1006" = "1006"
  /\ cleanOrderNumber "1006" = "1006"
  /\ orders_query "#1006" = orders_query "1006"
  /\ get_order (host := test_host) A request_1006
     = get_order (host := test_host) A
                 {| orderNumber := "1006"; file := None; reason := VUndefined |}
  /\ cleanOrderNumber "10#0#6" = "100#6".
Proof.
  destruct (cleaning_strips_first_hash (host := test_host) "1006")
    as (_ & Hstrip & _ & _ & Hplain).
  destruct (Hplain eq_refl) as (Hsame & Hquery & Hhandlers).
  split; [exact Hstrip|]. split; [exact Hsame|]. split; [exact Hquery|].
  split; [exact (proj1 (Hhandlers A None VUndefined))|].
  destruct (cleaning_strips_first_hash (host := test_host) "10#0#6") as (Hfirst & _).
  exact (Hfirst "10" "0#6" eq_refl eq_refl).
Defined.

(** * Further properties of the code *)

(** ** The status rules beyond the financial status *)

Lemma fulfillment_stage_in_stages (metafield : value) (stage : string) :
  VariantA.fulfillment_stage metafield = Ok (Some stage) ->
  In stage VariantA.stages.
Proof.
  unfold VariantA.fulfillment_stage. cbn [bind ret Monad_Result].
  destruct (if truthy metafield then prop metafield "value" else Ok metafield)
    as [mv|e]; [|discriminate].
  destruct (truthy mv); [|discriminate].
  destruct (toLowerCase_method mv) as [lowered|e]; [|discriminate].
  destruct (includes VariantA.stages lowered) eqn:Hin; [|discriminate].
  intros E. injection E as <-. apply includes_In. exact Hin.
Qed.

Lemma status_A_shape (order metafield : value) (s : string) :
  VariantA.mapOrderStatus order metafield = Ok s ->
  exists c, prop order "cancelled_at" = Ok c
            /\ ((truthy c = true /\ s = "cancelled")
                \/ (truthy c = false
                    /\ (In s VariantA.stages \/ s = "confirmed" \/ s = "pending_payment"))).
Proof.
  intros H. unfold VariantA.mapOrderStatus in H. cbn [bind ret Monad_Result] in H.
  destruct (prop order "cancelled_at") as [c|e]; [|discriminate].
  exists c. split; [reflexivity|].
  destruct (truthy c).
  - injection H as <-. left. split; reflexivity.
  - right. split; [reflexivity|].
    destruct (VariantA.fulfillment_stage metafield) as [[stage|]|e] eqn:Hstage;
      [| |discriminate].
    + injection H as <-. left. exact (fulfillment_stage_in_stages _ _ Hstage).
    + destruct (prop order "financial_status") as [f|e]; [|discriminate].
      destruct (str_eq f "paid").
      * injection H as <-. right. left. reflexivity.
      * destruct (str_eq f "pending" || str_eq f "authorized" || str_eq f "partially_paid");
          injection H as <-; right; right; reflexivity.
Qed.

Lemma status_B_shape (order : value) (s : string) :
  VariantB.mapOrderStatus order = Ok s ->
  exists c, prop order "cancelled_at" = Ok c
            /\ ((truthy c = true /\ s = "cancelled")
                \/ (truthy c = false
                    /\ In s ["delivered"; "shipped"; "processing"; "confirmed";
                             "pending_payment"])).
Proof.
  intros H. unfold VariantB.mapOrderStatus in H. cbn [bind ret Monad_Result] in H.
  destruct (prop order "cancelled_at") as [c|e]; [|discriminate].
  exists c. split; [reflexivity|].
  destruct (truthy c).
  - injection H as <-. left. split; reflexivity.
  - right. split; [reflexivity|].
    destruct (prop order "fulfillment_status") as [f|e]; [|discriminate].
    destruct (str_eq f "fulfilled"); [injection H as <-; simpl; auto|].
    destruct (str_eq f "partial" || str_eq f "shipped");
      [injection H as <-; simpl; auto|].
    destruct (order_tags order) as [tags|e]; [|discriminate].
    destruct (includes tags "payment-confirmed");
      [injection H as <-; simpl; auto|].
    destruct (prop order "financial_status") as [fin|e]; [|discriminate].
    destruct (str_eq fin "paid"); [injection H as <-; simpl; auto|].
    destruct (str_eq fin "pending" || str_eq fin "authorized");
      injection H as <-; simpl; auto 6.
Qed.

(** X1.  Whatever the order and the metafield, a status that
    [mapOrderStatus] returns is one of the six display statuses, in both
    variants. *)
Theorem status_is_one_of_six (order metafield : value) (s : string) :
  VariantA.mapOrderStatus order metafield = Ok s \/ VariantB.mapOrderStatus order = Ok s ->
  In s statuses.
Proof.
  intros [HA|HB].
  - destruct (status_A_shape _ _ _ HA) as (c & _ & [[_ ->]|[_ [Hin|[->| ->]]]]);
      try (simpl; auto 8; fail).
    simpl in Hin. simpl. intuition.
  - destruct (status_B_shape _ _ HB) as (c & _ & [[_ ->]|[_ Hin]]).
    + simpl. auto.
    + simpl in Hin. simpl. intuition.
Qed.

Lemma status_is_one_of_six_witness :
  In "shipped" statuses /\ In "processing" statuses.
Proof.
  split.
  - apply (status_is_one_of_six order_2050 stage_shipped "shipped").
    left. reflexivity.
  - apply (status_is_one_of_six order_1006_confirmed_paid VUndefined "processing").
    right. reflexivity.
Defined.

(** X2.  The status is ['cancelled'] exactly when [cancelled_at] is truthy,
    in both variants: no metafield stage, tag, fulfillment or financial
    status yields it. *)
Theorem cancelled_iff_timestamp (order cancelled_at metafield : value) :
  prop order "cancelled_at" = Ok cancelled_at ->
  (VariantA.mapOrderStatus order metafield = Ok "cancelled" <-> truthy cancelled_at = true)
  /\ (VariantB.mapOrderStatus order = Ok "cancelled" <-> truthy cancelled_at = true).
Proof.
  intros Hc. split; split.
  - intros HA. destruct (status_A_shape _ _ _ HA) as (c & Hc' & [[Ht _]|[_ Hs]]).
    + congruence.
    + exfalso. destruct Hs as [Hin|[E|E]]; [|discriminate E|discriminate E].
      simpl in Hin. destruct Hin as [E|[E|[E|[]]]]; discriminate E.
  - intros Ht. unfold VariantA.mapOrderStatus. rewrite Hc.
    cbn [bind ret Monad_Result]. rewrite Ht. reflexivity.
  - intros HB. destruct (status_B_shape _ _ HB) as (c & Hc' & [[Ht _]|[_ Hin]]).
    + congruence.
    + exfalso. simpl in Hin.
      destruct Hin as [E|[E|[E|[E|[E|[]]]]]]; discriminate E.
  - intros Ht. unfold VariantB.mapOrderStatus. rewrite Hc.
    cbn [bind ret Monad_Result]. rewrite Ht. reflexivity.
Qed.

Lemma cancelled_iff_timestamp_witness :
  VariantA.mapOrderStatus order_1006_cancelled stage_shipped = Ok "cancelled"
  /\ VariantB.mapOrderStatus order_3001_partial <> Ok "cancelled".
Proof.
  split.
  - apply (proj1 (cancelled_iff_timestamp order_1006_cancelled
                    (VStr "2024-01-05T10:00:00Z") stage_shipped eq_refl)).
    reflexivity.
  - intros E.
    apply (proj2 (cancelled_iff_timestamp order_3001_partial VNull VUndefined eq_refl)) in E.
    discriminate E.
Defined.

(** X3.  An order whose status is ['cancelled'] (in either variant) is never
    cancellable: [canCancelOrder] answers false without reading the clock
    and without a request. *)
Theorem cancelled_is_never_cancellable {host : Host} (w : World)
        (order metafield : value) before readings :
  VariantA.mapOrderStatus order metafield = Ok "cancelled"
  \/ VariantB.mapOrderStatus order = Ok "cancelled" ->
  run_from w (canCancelOrder order) before readings
  = {| outcome := Ok false; sent := before; ticks := readings |}.
Proof.
  intros Hstatus.
  assert (Hc : exists c, prop order "cancelled_at" = Ok c /\ truthy c = true).
  { destruct Hstatus as [HA|HB].
    - destruct (status_A_shape _ _ _ HA) as (c & Hc & [[Ht _]|[_ Hs]]); [eauto|].
      exfalso. destruct Hs as [Hin|[E|E]]; [|discriminate E|discriminate E].
      simpl in Hin. destruct Hin as [E|[E|[E|[]]]]; discriminate E.
    - destruct (status_B_shape _ _ HB) as (c & Hc & [[Ht _]|[_ Hin]]); [eauto|].
      exfalso. simpl in Hin.
      destruct Hin as [E|[E|[E|[E|[E|[]]]]]]; discriminate E. }
  destruct Hc as (c & Hc & Ht).
  unfold canCancelOrder. cbn [bind ret Monad_Prog]. rewrite Hc.
  cbn [lift Prog_bind]. rewrite Ht. reflexivity.
Qed.

Lemma cancelled_is_never_cancellable_witness :
  run three_days_later (canCancelOrder (host := test_host) order_1006_cancelled)
  = {| outcome := Ok false; sent := []; ticks := 0 |}.
Proof.
  apply (cancelled_is_never_cancellable (host := test_host) three_days_later
           order_1006_cancelled VUndefined [] 0).
  right. reflexivity.
Defined.

Lemma str_eq_true (v : value) (lit : string) : str_eq v lit = true -> v = VStr lit.
Proof.
  destruct v; simpl; try discriminate.
  intros E. apply String.eqb_eq in E. subst. reflexivity.
Qed.

(** X4.  Variant B, order not cancelled: a fulfilled order is ['delivered']
    and a partially fulfilled or shipped one is ['shipped'] whatever its
    tags and financial status (the tags are not even read); below that, the
    ['payment-confirmed'] tag gives ['processing'] whatever the financial
    status, and tags that are neither empty nor a string make the function
    throw. *)
Theorem variantB_precedence (order cancelled_at fulfillment_status : value) :
  prop order "cancelled_at" = Ok cancelled_at ->
  truthy cancelled_at = false ->
  prop order "fulfillment_status" = Ok fulfillment_status ->
  (str_eq fulfillment_status "fulfilled" = true ->
   VariantB.mapOrderStatus order = Ok "delivered")
  /\ (str_eq fulfillment_status "partial" || str_eq fulfillment_status "shipped" = true ->
      VariantB.mapOrderStatus order = Ok "shipped")
  /\ (str_eq fulfillment_status "fulfilled" = false ->
      str_eq fulfillment_status "partial" || str_eq fulfillment_status "shipped" = false ->
      (forall tags, order_tags order = Ok tags ->
                    includes tags "payment-confirmed" = true ->
                    VariantB.mapOrderStatus order = Ok "processing")
      /\ (forall tags, prop order "tags" = Ok tags -> truthy tags = true ->
                       (forall s, tags <> VStr s) ->
                       VariantB.mapOrderStatus order = Throw TypeError)).
Proof.
  intros Hc Ht Hf. unfold VariantB.mapOrderStatus. rewrite Hc.
  cbn [bind ret Monad_Result]. rewrite Ht, Hf. split; [|split].
  - intros ->. reflexivity.
  - intros Hps.
    assert (Hnot : str_eq fulfillment_status "fulfilled" = false).
    { apply orb_true_iff in Hps. destruct Hps as [E|E];
        apply str_eq_true in E; subst; reflexivity. }
    rewrite Hnot, Hps. reflexivity.
  - intros -> ->. split.
    + intros tags -> ->. reflexivity.
    + intros tags Htags Htruthy Hnostr. unfold order_tags. rewrite Htags.
      cbn [bind ret Monad_Result]. rewrite Htruthy.
      destruct tags; try reflexivity. exfalso. exact (Hnostr s eq_refl).
Qed.

Lemma variantB_precedence_witness :
  VariantB.mapOrderStatus order_3001_partial = Ok "shipped"
  /\ VariantB.mapOrderStatus order_1006_confirmed_paid = Ok "processing".
Proof.
  split.
  - destruct (variantB_precedence order_3001_partial VNull (VStr "partial")
                eq_refl eq_refl eq_refl) as (_ & Hshipped & _).
    exact (Hshipped eq_refl).
  - destruct (variantB_precedence order_1006_confirmed_paid VNull VNull
                eq_refl eq_refl eq_refl) as (_ & _ & Htags).
    destruct (Htags eq_refl eq_refl) as [Hprocessing _].
    exact (Hprocessing ["vip"; "payment-confirmed"] eq_refl eq_refl).
Defined.

Lemma toLowerCase_in_stages_nonempty (s : string) :
  In (toLowerCase s) VariantA.stages -> s <> EmptyString.
Proof.
  intros Hin ->. simpl in Hin. destruct Hin as [E|[E|[E|[]]]]; discriminate E.
Qed.

(** X5.  Variant A, order not cancelled, [fulfillment_stage] metafield
    present: a string value that lower-cases to one of the three stages is
    the status, whatever the financial status (the order's other fields are
    not read); a truthy value that is no string makes the function throw. *)
Theorem variantA_stage_overrides (order cancelled_at metafield stored : value) :
  prop order "cancelled_at" = Ok cancelled_at ->
  truthy cancelled_at = false ->
  truthy metafield = true ->
  prop metafield "value" = Ok stored ->
  (forall s, stored = VStr s -> In (toLowerCase s) VariantA.stages ->
             VariantA.mapOrderStatus order metafield = Ok (toLowerCase s))
  /\ (truthy stored = true -> (forall s, stored <> VStr s) ->
      VariantA.mapOrderStatus order metafield = Throw TypeError).
Proof.
  intros Hc Ht Hm Hv. unfold VariantA.mapOrderStatus. rewrite Hc.
  cbn [bind ret Monad_Result]. rewrite Ht. split.
  - intros s -> Hin.
    rewrite (fulfillment_stage_of_string _ _ Hm Hv (toLowerCase_in_stages_nonempty _ Hin)).
    apply includes_In in Hin. rewrite Hin. reflexivity.
  - intros Hts Hnostr. unfold VariantA.fulfillment_stage. rewrite Hm, Hv.
    cbn [bind ret Monad_Result]. rewrite Hts.
    destruct stored; try reflexivity. exfalso. exact (Hnostr s eq_refl).
Qed.

Lemma variantA_stage_overrides_witness :
  VariantA.mapOrderStatus order_2050 stage_shipped = Ok "shipped"
  /\ VariantA.mapOrderStatus order_2050 stage_number = Throw TypeError.
Proof.
  split.
  - destruct (variantA_stage_overrides order_2050 VNull stage_shipped (VStr "Shipped")
                eq_refl eq_refl eq_refl eq_refl) as [Hstage _].
    apply (Hstage "Shipped" eq_refl). simpl. auto.
  - destruct (variantA_stage_overrides order_2050 VNull stage_number (VNum 2)
                eq_refl eq_refl eq_refl eq_refl) as [_ Hthrow].
    apply Hthrow; [reflexivity | discriminate].
Defined.

(** X6.  Variant B shows a partially fulfilled order as ['shipped'], and
    [canCancelOrder] still lets it be cancelled within three days: only
    ['fulfilled'] and ['shipped'] block the cancellation. *)
Theorem partial_is_shipped_yet_cancellable {host : Host} (w : World)
        (order cancelled_at created_at : value) (createdAt : Z) before readings :
  prop order "cancelled_at" = Ok cancelled_at ->
  truthy cancelled_at = false ->
  prop order "fulfillment_status" = Ok (VStr "partial") ->
  prop order "created_at" = Ok created_at ->
  Date_new created_at = Some createdAt ->
  VariantB.mapOrderStatus order = Ok "shipped"
  /\ outcome (run_from w (canCancelOrder order) before readings)
     = Ok (clock w readings - createdAt <=? 3 * 86400000)%Z.
Proof.
  intros Hc Ht Hf Hd Hdate. split.
  - unfold VariantB.mapOrderStatus. rewrite Hc. cbn [bind ret Monad_Result].
    rewrite Ht, Hf. reflexivity.
  - unfold canCancelOrder. cbn [bind ret Monad_Prog]. rewrite Hc.
    cbn [lift Prog_bind]. rewrite Ht, Hf. cbn [lift Prog_bind str_eq].
    cbn [String.eqb Ascii.eqb Bool.eqb orb]. rewrite Hd.
    cbn [lift Prog_bind new_Date run_from outcome]. rewrite Hdate.
    cbn [option_map]. rewrite days_le_3. reflexivity.
Qed.

Lemma partial_is_shipped_yet_cancellable_witness :
  VariantB.mapOrderStatus order_3001_partial = Ok "shipped"
  /\ outcome (run three_days_later (canCancelOrder (host := test_host) order_3001_partial))
     = Ok true.
Proof.
  exact (partial_is_shipped_yet_cancellable (host := test_host) three_days_later
           order_3001_partial VNull (VStr "2024-01-02T08:00:00Z") created_1006 [] 0
           eq_refl eq_refl eq_refl eq_refl eq_refl).
Defined.

(** ** Finding a metafield *)

Lemma find_custom_skip (key : string) (mf : value) (rest : list value) :
  nullish mf = false -> metafield_matches key mf = false ->
  find_custom key (mf :: rest) = find_custom key rest.
Proof.
  intros Hn Hm. cbn [find_custom bind ret Monad_Result].
  unfold metafield_matches in Hm.
  destruct (prop mf "namespace") as [ns|e] eqn:Hns.
  - destruct (str_eq ns "custom"); [|reflexivity].
    destruct (prop mf "key") as [k|e] eqn:Hk.
    + simpl in Hm. rewrite Hm. reflexivity.
    + destruct mf; discriminate.
  - destruct mf; discriminate.
Qed.

Lemma find_custom_hit (key : string) (mf : value) (rest : list value) :
  metafield_matches key mf = true ->
  find_custom key (mf :: rest) = Ok mf.
Proof.
  intros Hm. cbn [find_custom bind ret Monad_Result].
  unfold metafield_matches in Hm.
  destruct (prop mf "namespace") as [ns|e]; [|discriminate].
  destruct (str_eq ns "custom"); [|discriminate].
  destruct (prop mf "key") as [k|e]; [|discriminate].
  simpl in Hm. rewrite Hm. reflexivity.
Qed.

(** X7.  [find] over the metafields returns the first entry whose namespace
    is ['custom'] and whose key is the one asked for; it returns [undefined]
    when no entry matches, and it throws when it meets a [null] entry before
    any match. *)
Theorem find_returns_first_match (key : string) (before after : list value) :
  Forall (skipped key) before ->
  (forall mf, metafield_matches key mf = true ->
              find_custom key (before ++ mf :: after)%list = Ok mf)
  /\ find_custom key before = Ok VUndefined
  /\ (forall mf, nullish mf = true ->
                 find_custom key (before ++ mf :: after)%list = Throw TypeError).
Proof.
  induction 1 as [|x before [Hn Hm] Hall IH].
  - split; [|split].
    + intros mf Hmatch. apply find_custom_hit. exact Hmatch.
    + reflexivity.
    + intros mf Hnull. destruct mf; try discriminate; reflexivity.
  - destruct IH as (IH1 & IH2 & IH3). split; [|split].
    + intros mf Hmatch. cbn [app]. rewrite (find_custom_skip _ _ _ Hn Hm).
      apply IH1. exact Hmatch.
    + rewrite (find_custom_skip _ _ _ Hn Hm). exact IH2.
    + intros mf Hnull. cbn [app]. rewrite (find_custom_skip _ _ _ Hn Hm).
      apply IH3. exact Hnull.
Qed.

Lemma find_returns_first_match_witness :
  find_metafield (VArr [other_namespace_slip; stage_shipped; stage_delivered])
                 "fulfillment_stage" = Ok stage_shipped
  /\ find_metafield (VArr [other_namespace_slip; stage_shipped]) "payment_slip"
     = Ok VUndefined
  /\ find_metafield (VArr [other_namespace_slip; VNull; broken_slip]) "payment_slip"
     = Throw TypeError.
Proof.
  split; [|split].
  - assert (Hskip : Forall (skipped "fulfillment_stage") [other_namespace_slip])
      by (repeat constructor).
    exact (proj1 (find_returns_first_match "fulfillment_stage" [other_namespace_slip]
                    [stage_delivered] Hskip) stage_shipped eq_refl).
  - assert (Hskip : Forall (skipped "payment_slip") [other_namespace_slip; stage_shipped])
      by (repeat constructor).
    exact (proj1 (proj2 (find_returns_first_match "payment_slip"
                           [other_namespace_slip; stage_shipped] [] Hskip))).
  - assert (Hskip : Forall (skipped "payment_slip") [other_namespace_slip])
      by (repeat constructor).
    exact (proj2 (proj2 (find_returns_first_match "payment_slip" [other_namespace_slip]
                           [broken_slip] Hskip)) VNull eq_refl).
Defined.

(** ** The view's defaults *)

Lemma opt_prop_total (v : value) (k : string) : exists y, opt_prop v k = Ok y.
Proof. destruct v; simpl; eexists; reflexivity. Qed.

(** X8.  For an order object the shipping amount never throws, and it is 0
    whenever a level is missing: a [null] or missing
    [total_shipping_price_set], a [null] or missing [shop_money] inside it,
    or a missing or falsy [amount] inside that, each gives the number 0; a
    truthy amount is kept as it is. *)
Theorem shipping_defaults_to_zero (order probe : value) (k : string) :
  prop order k = Ok probe ->
  exists amount,
    shipping_amount order = Ok amount
    /\ (truthy amount = true \/ amount = VNum 0)
    /\ (forall price_set,
           prop order "total_shipping_price_set" = Ok price_set ->
           (nullish price_set = true -> amount = VNum 0)
           /\ (forall shop_money,
                  prop price_set "shop_money" = Ok shop_money ->
                  (nullish shop_money = true -> amount = VNum 0)
                  /\ (forall found,
                         prop shop_money "amount" = Ok found ->
                         amount = js_or found (VNum 0)
                         /\ (truthy found = true -> amount = found)
                         /\ (truthy found = false -> amount = VNum 0)))).
Proof.
  intros Hprobe.
  destruct (prop_defined _ _ "total_shipping_price_set" _ Hprobe) as [ps Hps].
  destruct (opt_prop_total ps "shop_money") as [sm Hsm].
  destruct (opt_prop_total sm "amount") as [am Ham].
  exists (js_or am (VNum 0)). split; [|split].
  - unfold shipping_amount. rewrite Hps. cbn [bind ret Monad_Result].
    rewrite Hsm, Ham. reflexivity.
  - unfold js_or. destruct (truthy am) eqn:E; [left; exact E | right; reflexivity].
  - intros ps' Hps'. rewrite Hps in Hps'. injection Hps' as <-. split.
    + intros Hnull.
      destruct ps; try discriminate; simpl in Hsm; injection Hsm as <-;
        simpl in Ham; injection Ham as <-; reflexivity.
    + intros sm' Hsm'.
      assert (sm = sm') by (destruct ps; simpl in Hsm, Hsm'; congruence).
      subst sm'. split.
      * intros Hnull.
        destruct sm; try discriminate; simpl in Ham; injection Ham as <-; reflexivity.
      * intros found Hfound.
        assert (am = found) by (destruct sm; simpl in Ham, Hfound; congruence).
        subst am. split; [reflexivity|]. unfold js_or.
        split; intros ->; reflexivity.
Qed.

Lemma shipping_defaults_to_zero_witness :
  shipping_amount order_1006 = Ok (VNum 0)
  /\ shipping_amount order_5001_no_shop_money = Ok (VNum 0)
  /\ shipping_amount order_5002_shipped_for_25 = Ok (VStr "25.00").
Proof.
  split; [|split].
  - destruct (shipping_defaults_to_zero order_1006 (VNum 1006) "id" eq_refl)
      as (amount & Hamount & _ & Hcases).
    rewrite Hamount. f_equal.
    exact (proj1 (Hcases VUndefined eq_refl) eq_refl).
  - destruct (shipping_defaults_to_zero order_5001_no_shop_money (VNum 5001) "id" eq_refl)
      as (amount & Hamount & _ & Hcases).
    rewrite Hamount. f_equal.
    exact (proj1 (proj2 (Hcases (VObj []) eq_refl) VUndefined eq_refl) eq_refl).
  - destruct (shipping_defaults_to_zero order_5002_shipped_for_25 (VNum 5002) "id" eq_refl)
      as (amount & Hamount & _ & Hcases).
    rewrite Hamount. f_equal.
    exact (proj1 (proj2 (proj2 (proj2 (Hcases _ eq_refl) _ eq_refl)
                           (VStr "25.00") eq_refl))
                 eq_refl).
Defined.

Lemma mapM_Forall {X Y : Type} (f : X -> Result Y) (P : Y -> Prop) :
  (forall x y, f x = Ok y -> P y) ->
  forall l ys, mapM f l = Ok ys -> Forall P ys /\ List.length ys = List.length l.
Proof.
  intros Hf. induction l as [|x l IH]; intros ys.
  - simpl. intros E. injection E as <-. split; [constructor | reflexivity].
  - cbn [mapM bind ret Monad_Result].
    destruct (f x) as [y|e] eqn:Hy; [|discriminate].
    destruct (mapM f l) as [ys'|e]; [|discriminate].
    intros E. injection E as <-. destruct (IH ys' eq_refl) as [Hall Hlen].
    split; [constructor; [exact (Hf _ _ Hy) | exact Hall] | simpl; rewrite Hlen; reflexivity].
Qed.

Lemma js_or_truthy (a b : value) : truthy b = true -> truthy (js_or a b) = true.
Proof. intros Hb. unfold js_or. destruct (truthy a) eqn:E; [exact E | exact Hb]. Qed.

(** X9.  When the line items map to a view, there is one entry per line
    item, every entry has an image (the placeholder at least) and a variant
    that is neither [null] nor [undefined]; line items that are no array
    make the mapping throw. *)
Theorem items_keep_count_and_have_image {host : Host}
        (order line_items : value) (views : list Item.t) :
  map_method line_items (item_view order) = Ok views ->
  exists items,
    line_items = VArr items
    /\ List.length views = List.length items
    /\ Forall (fun view => truthy (Item.image view) = true
                           /\ nullish (Item.variant view) = false) views.
Proof.
  destruct line_items; simpl; try discriminate.
  intros Hmap. exists items. split; [reflexivity|].
  assert (Hitem : forall item view, item_view order item = Ok view ->
                                    truthy (Item.image view) = true
                                    /\ nullish (Item.variant view) = false).
  { intros item view. unfold item_view. cbn [bind ret Monad_Result].
    repeat match goal with
           | |- context [match ?r with Ok _ => _ | Throw _ => _ end] =>
               destruct r; [|discriminate]
           end.
    intros E. injection E as <-. cbn [Item.image Item.variant]. split.
    - apply js_or_truthy. reflexivity.
    - unfold js_or. destruct (truthy a1) eqn:E; [|reflexivity].
      destruct a1; try reflexivity; discriminate. }
  destruct (mapM_Forall _ _ Hitem _ _ Hmap) as [Hall Hlen].
  split; [exact Hlen | exact Hall].
Qed.

Lemma items_keep_count_and_have_image_witness :
  exists views,
    map_method (VArr [item_without_image]) (item_view (host := test_host) order_1006)
    = Ok views
    /\ List.length views = 1%nat
    /\ Forall (fun view => truthy (Item.image view) = true) views.
Proof.
  eexists. split; [reflexivity|].
  destruct (items_keep_count_and_have_image (host := test_host) order_1006
              (VArr [item_without_image]) _ eq_refl) as (items & Hitems & Hlen & Hall).
  injection Hitems as <-. split; [exact Hlen|].
  eapply Forall_impl; [|exact Hall]. intros view [Himage _]. exact Himage.
Defined.

(** ** The handlers around the order lookup *)

Lemma run_after_locate {host : Host} (w : World) (v : Variant) (number : string)
      (k : Response + value -> Prog Response) (failure : Response) :
  run w (try_catch (Prog_bind (locate_order v number) k) (fun _ => Ret failure))
  = match (ordersResponse <- settle v (network w [] (lookup_request number)) ;;
           first_order ordersResponse) with
    | Ok located =>
        run_from w (try_catch (k located) (fun _ => Ret failure))
                 [lookup_request number] 0
    | Throw e => {| outcome := Ok failure; sent := [lookup_request number]; ticks := 0 |}
    end.
Proof.
  unfold run. rewrite run_try_catch, run_bind, run_locate_order.
  cbn [outcome sent ticks app].
  destruct (ordersResponse <- settle v (network w [] (lookup_request number)) ;;
            first_order ordersResponse) as [located|e].
  - rewrite run_try_catch. reflexivity.
  - reflexivity.
Qed.

Lemma first_order_none (ordersResponse orders : value) :
  prop ordersResponse "orders" = Ok orders ->
  truthy orders = false \/ orders = VArr [] ->
  first_order ordersResponse = Ok (inl order_not_found).
Proof.
  intros Ho Hnone. unfold first_order. rewrite Ho. cbn [bind ret Monad_Result].
  destruct Hnone as [Hf| ->].
  - rewrite Hf. reflexivity.
  - reflexivity.
Qed.

(** X10.  When the lookup succeeds but the response has no [orders], or an
    empty list, every handler answers 404 "order not found" and sends
    nothing after the lookup: no metafield is read, nothing is uploaded,
    tagged or cancelled. *)
Theorem no_order_is_404_everywhere {host : Host} (w : World) (v : Variant)
        (req : Request) (f : File) (ordersResponse orders : value) :
  settle v (network w [] (lookup_request (orderNumber req))) = Ok ordersResponse ->
  prop ordersResponse "orders" = Ok orders ->
  truthy orders = false \/ orders = VArr [] ->
  let answer := {| outcome := Ok order_not_found;
                   sent := [lookup_request (orderNumber req)];
                   ticks := 0 |} in
  let with_file := {| orderNumber := orderNumber req; file := Some f;
                      reason := reason req |} in
  run w (get_order v req) = answer
  /\ run w (confirm_payment v req) = answer
  /\ run w (cancel_order v req) = answer
  /\ (v = A -> run w (upload_payment_A with_file) = answer)
  /\ (v = B -> run w (upload_payment_B with_file) = answer).
Proof.
  intros Hsettle Ho Hnone answer with_file.
  pose proof (first_order_none _ _ Ho Hnone) as Hfirst.
  unfold get_order, confirm_payment, cancel_order, upload_payment_A, upload_payment_B.
  cbn [bind ret Monad_Prog file orderNumber with_file].
  repeat split; try intros ->; rewrite run_after_locate, Hsettle;
    cbn [bind ret Monad_Result]; rewrite Hfirst; reflexivity.
Qed.

Lemma no_order_is_404_everywhere_witness :
  run no_such_order (cancel_order (host := wide_host) B request_1006)
  = {| outcome := Ok order_not_found;
       sent := [lookup_request (host := wide_host) "#1006"];
       ticks := 0 |}
  /\ run no_such_order (upload_payment_A (host := wide_host) upload_1006)
     = {| outcome := Ok order_not_found;
          sent := [lookup_request (host := wide_host) "#1006"];
          ticks := 0 |}.
Proof.
  split.
  - assert (Hsettle : settle (host := wide_host) B
                        (network no_such_order []
                           (lookup_request (host := wide_host) (orderNumber request_1006)))
                      = Ok (VObj [("orders", VArr [])])) by (vm_compute; reflexivity).
    destruct (no_order_is_404_everywhere (host := wide_host) no_such_order B request_1006
                slip_png _ (VArr []) Hsettle eq_refl (or_intror eq_refl))
      as (_ & _ & Hcancel & _).
    exact Hcancel.
  - assert (Hsettle : settle (host := wide_host) A
                        (network no_such_order []
                           (lookup_request (host := wide_host) (orderNumber request_1006)))
                      = Ok (VObj [("orders", VArr [])])) by (vm_compute; reflexivity).
    destruct (no_order_is_404_everywhere (host := wide_host) no_such_order A request_1006
                slip_png _ (VArr []) Hsettle eq_refl (or_intror eq_refl))
      as (_ & _ & _ & HuploadA & _).
    exact (HuploadA eq_refl).
Defined.

(** X11.  When the lookup itself fails (transport error, parse failure or a
    status outside 200..299), every handler answers its own fixed 500
    message and sends nothing else. *)
Theorem lookup_failure_is_500_everywhere {host : Host} (w : World) (v : Variant)
        (req : Request) (f : File) (e : Error) :
  settle v (network w [] (lookup_request (orderNumber req))) = Throw e ->
  let failed := fun answer =>
                  {| outcome := Ok answer;
                     sent := [lookup_request (orderNumber req)];
                     ticks := 0 |} in
  let with_file := {| orderNumber := orderNumber req; file := Some f;
                      reason := reason req |} in
  run w (get_order v req) = failed error_fetching_order
  /\ run w (confirm_payment v req) = failed error_confirming_payment
  /\ run w (cancel_order v req) = failed error_cancelling_order
  /\ (v = A -> run w (upload_payment_A with_file) = failed error_uploading_file)
  /\ (v = B -> run w (upload_payment_B with_file) = failed error_uploading_file).
Proof.
  intros Hsettle failed with_file.
  unfold get_order, confirm_payment, cancel_order, upload_payment_A, upload_payment_B.
  cbn [bind ret Monad_Prog file orderNumber with_file].
  repeat split; try intros ->; rewrite run_after_locate, Hsettle; reflexivity.
Qed.

Lemma lookup_failure_is_500_everywhere_witness :
  run unreachable (get_order (host := test_host) A request_1006)
  = {| outcome := Ok error_fetching_order;
       sent := [lookup_request (host := test_host) "#1006"];
       ticks := 0 |}
  /\ run bad_gateway (confirm_payment (host := test_host) B request_1006)
     = {| outcome := Ok error_confirming_payment;
          sent := [lookup_request (host := test_host) "#1006"];
          ticks := 0 |}.
Proof.
  split.
  - destruct (lookup_failure_is_500_everywhere (host := test_host) unreachable A
                request_1006 slip_png (SystemError "ECONNRESET") eq_refl)
      as (Hget & _).
    exact Hget.
  - destruct (lookup_failure_is_500_everywhere (host := test_host) bad_gateway B
                request_1006 slip_png
                (NewError "Failed to parse JSON response: <html>Bad Gateway</html>")
                eq_refl)
      as (_ & Hconfirm & _).
    exact Hconfirm.
Defined.

(** ** What a handler can answer *)

Ltac leaf_binds H :=
  repeat (apply Leaf_bind in H; destruct H as (? & _ & H); cbn beta zeta in H).

Lemma get_order_leaves {host : Host} (v : Variant) (req : Request) (r : Response) :
  Leaf r (get_order v req) ->
  r = order_not_found \/ r = error_fetching_order
  \/ exists view, r = {| status := 200; json := OrderFound view |}.
Proof.
  unfold get_order. intros HL.
  apply Leaf_try_catch in HL. destruct HL as [HL|[e HL]].
  2:{ inversion HL. right. left. reflexivity. }
  cbn [bind ret Monad_Prog] in HL.
  apply Leaf_bind in HL. destruct HL as (located & Hloc & HL).
  destruct (Leaf_locate_order _ _ _ Hloc) as [->|[order ->]].
  { inversion HL. left. reflexivity. }
  leaf_binds HL. inversion HL. right. right. eexists. reflexivity.
Qed.

Lemma upload_B_leaves {host : Host} (req : Request) (r : Response) :
  Leaf r (upload_payment_B req) ->
  r = no_file_uploaded \/ r = order_not_found \/ r = error_uploading_file
  \/ exists f uploadedAt, file req = Some f /\ r = slip_uploaded f uploadedAt.
Proof.
  unfold upload_payment_B. intros HL.
  apply Leaf_try_catch in HL. destruct HL as [HL|[e HL]].
  2:{ inversion HL. right. right. left. reflexivity. }
  destruct (file req) as [f|].
  2:{ inversion HL. left. reflexivity. }
  cbn [bind ret Monad_Prog] in HL.
  apply Leaf_bind in HL. destruct HL as (located & Hloc & HL).
  destruct (Leaf_locate_order _ _ _ Hloc) as [->|[order ->]].
  { inversion HL. right. left. reflexivity. }
  leaf_binds HL. inversion HL. right. right. right. eexists. eexists.
  split; reflexivity.
Qed.

Lemma confirm_payment_leaves {host : Host} (v : Variant) (req : Request) (r : Response) :
  Leaf r (confirm_payment v req) ->
  r = order_not_found \/ r = error_confirming_payment \/ r = payment_confirmed.
Proof.
  unfold confirm_payment. intros HL.
  apply Leaf_try_catch in HL. destruct HL as [HL|[e HL]].
  2:{ inversion HL. right. left. reflexivity. }
  cbn [bind ret Monad_Prog] in HL.
  apply Leaf_bind in HL. destruct HL as (located & Hloc & HL).
  destruct (Leaf_locate_order _ _ _ Hloc) as [->|[order ->]].
  { inversion HL. left. reflexivity. }
  leaf_binds HL. inversion HL. right. right. reflexivity.
Qed.

Lemma cancel_order_leaves {host : Host} (v : Variant) (req : Request) (r : Response) :
  Leaf r (cancel_order v req) ->
  r = order_not_found \/ r = error_cancelling_order \/ r = cannot_cancel
  \/ r = order_cancelled.
Proof.
  unfold cancel_order. intros HL.
  apply Leaf_try_catch in HL. destruct HL as [HL|[e HL]].
  2:{ inversion HL. right. left. reflexivity. }
  cbn [bind ret Monad_Prog] in HL.
  apply Leaf_bind in HL. destruct HL as (located & Hloc & HL).
  destruct (Leaf_locate_order _ _ _ Hloc) as [->|[order ->]].
  { inversion HL. left. reflexivity. }
  apply Leaf_bind in HL. destruct HL as (cancellable & _ & HL).
  destruct cancellable; cbn [negb] in HL.
  - leaf_binds HL. inversion HL. right. right. right. reflexivity.
  - inversion HL. right. right. left. reflexivity.
Qed.

(** X12.  In every world each handler ends with an answer, and the answer
    is one of its fixed responses: the error of a failed platform call, of a
    thrown exception or of an unparsable body never reaches the caller. *)
Theorem handlers_answer_fixed_messages {host : Host} (w : World) (v : Variant)
        (req : Request) :
  (exists r, outcome (run w (get_order v req)) = Ok r
             /\ (r = order_not_found \/ r = error_fetching_order
                 \/ exists view, r = {| status := 200; json := OrderFound view |}))
  /\ (exists r, outcome (run w (upload_payment_B req)) = Ok r
                /\ (r = no_file_uploaded \/ r = order_not_found
                    \/ r = error_uploading_file
                    \/ exists f uploadedAt,
                        file req = Some f /\ r = slip_uploaded f uploadedAt))
  /\ (exists r, outcome (run w (confirm_payment v req)) = Ok r
                /\ (r = order_not_found \/ r = error_confirming_payment
                    \/ r = payment_confirmed))
  /\ (exists r, outcome (run w (cancel_order v req)) = Ok r
                /\ (r = order_not_found \/ r = error_cancelling_order
                    \/ r = cannot_cancel \/ r = order_cancelled)).
Proof.
  split; [|split; [|split]].
  - assert (Hans : exists r, outcome (run w (get_order v req)) = Ok r)
      by (unfold get_order; apply handler_answers).
    destruct Hans as [r Hr]. exists r. split; [exact Hr|].
    exact (get_order_leaves v req r (run_Leaf w _ r [] 0%nat Hr)).
  - assert (Hans : exists r, outcome (run w (upload_payment_B req)) = Ok r)
      by (unfold upload_payment_B; apply handler_answers).
    destruct Hans as [r Hr]. exists r. split; [exact Hr|].
    exact (upload_B_leaves req r (run_Leaf w _ r [] 0%nat Hr)).
  - assert (Hans : exists r, outcome (run w (confirm_payment v req)) = Ok r)
      by (unfold confirm_payment; apply handler_answers).
    destruct Hans as [r Hr]. exists r. split; [exact Hr|].
    exact (confirm_payment_leaves v req r (run_Leaf w _ r [] 0%nat Hr)).
  - assert (Hans : exists r, outcome (run w (cancel_order v req)) = Ok r)
      by (unfold cancel_order; apply handler_answers).
    destruct Hans as [r Hr]. exists r. split; [exact Hr|].
    exact (cancel_order_leaves v req r (run_Leaf w _ r [] 0%nat Hr)).
Qed.

(** ** Writing the payment slip *)

Lemma run_graphql {host : Host} (w : World) (query : string) before readings :
  run_from w (VariantA.makeShopifyGraphQLRequest query) before readings
  = {| outcome := VariantA.settle_graphql
                    (network w before (VariantA.graphql_request query));
       sent := (before ++ [VariantA.graphql_request query])%list;
       ticks := readings |}.
Proof. unfold VariantA.makeShopifyGraphQLRequest. simpl. apply run_lift. Qed.

(** X13.  The slip is written after one read of the order's metafields:
    when the read fails nothing is written; when a ['custom'/'payment_slip']
    entry exists it is updated (PUT on that entry's id), otherwise one is
    created (POST).  Never both, and never a write without the read. *)
Theorem slip_is_read_before_written {host : Host} (w : World) (v : Variant)
        (orderId metafieldData : value) before readings :
  let read := api_request (metafields_endpoint orderId) "GET" VNull in
  let requests :=
    sent (run_from w (write_payment_slip v orderId metafieldData) before readings) in
  (forall e, settle v (network w before read) = Throw e ->
             requests = (before ++ [read])%list)
  /\ (forall metafieldsResponse metafields existing,
         settle v (network w before read) = Ok metafieldsResponse ->
         prop metafieldsResponse "metafields" = Ok metafields ->
         find_metafield metafields "payment_slip" = Ok existing ->
         (truthy existing = false ->
          requests
          = (before ++ [read;
                        api_request (metafields_endpoint orderId) "POST"
                                    metafieldData])%list)
         /\ (forall existingId,
                truthy existing = true ->
                prop existing "id" = Ok existingId ->
                requests
                = (before ++ [read;
                              api_request ("orders/" ++ ToString orderId
                                           ++ "/metafields/" ++ ToString existingId
                                           ++ ".json") "PUT" metafieldData])%list)).
Proof.
  intros read requests. subst read requests. unfold write_payment_slip.
  cbn [bind ret Monad_Prog]. rewrite run_bind, run_client. cbn [outcome sent ticks].
  split.
  - intros e ->. reflexivity.
  - intros resp metafields existing -> Hm Hfind.
    rewrite Hm. cbn [lift Prog_bind]. rewrite Hfind. cbn [lift Prog_bind]. split.
    + intros ->. run_steps. case_settle; cbn [sent]; rewrite <- app_assoc; reflexivity.
    + intros existingId -> Hid. rewrite Hid. run_steps.
      case_settle; cbn [sent]; rewrite <- app_assoc; reflexivity.
Qed.

Lemma slip_is_read_before_written_witness :
  map (fun r => (method r, path r))
      (sent (run_from (scripted [ok_json (metafields_document [broken_slip]);
                                 ok_json written_document] created_1006)
                      (write_payment_slip (host := test_host) B (VNum 1006)
                                          (metafield_data (VStr "x") "json"))
                      [] 0))
  = [("GET", "/admin/api/2024-01/orders/1006/metafields.json");
     ("PUT", "/admin/api/2024-01/orders/1006/metafields/31.json")].
Proof.
  destruct (slip_is_read_before_written (host := test_host)
              (scripted [ok_json (metafields_document [broken_slip]);
                         ok_json written_document] created_1006)
              B (VNum 1006) (metafield_data (VStr "x") "json") [] 0)
    as [_ Hread].
  assert (Hsettle : settle (host := test_host) B
                      (network (scripted [ok_json (metafields_document [broken_slip]);
                                          ok_json written_document] created_1006) []
                         (api_request (host := test_host)
                            (metafields_endpoint (VNum 1006)) "GET" VNull))
                    = Ok (metafields_document [broken_slip]))
    by (vm_compute; reflexivity).
  destruct (Hread _ (VArr [broken_slip]) broken_slip Hsettle eq_refl eq_refl)
    as [_ Hupdate].
  rewrite (Hupdate (VNum 31) eq_refl eq_refl). reflexivity.
Defined.

Lemma write_payment_slip_run {host : Host} (w : World) (v : Variant)
      (orderId metafieldData : value) before readings :
  truthy metafieldData = true ->
  exists extra o,
    run_from w (write_payment_slip v orderId metafieldData) before readings
    = {| outcome := o; sent := (before ++ extra)%list; ticks := readings |}
    /\ Forall (fun r => method r = "GET"
                        \/ payload r = Text (JSON_stringify metafieldData)) extra
    /\ (o = Ok tt -> List.length extra = 2%nat).
Proof.
  intros Hdata.
  assert (Hwrite : forall endpoint verb,
             payload (api_request endpoint verb metafieldData)
             = Text (JSON_stringify metafieldData)).
  { intros endpoint verb. cbn [api_request payload]. rewrite Hdata. reflexivity. }
  unfold write_payment_slip. cbn [bind ret Monad_Prog].
  rewrite run_bind, run_client. cbn [outcome sent ticks].
  destruct (settle v _) as [resp|e].
  2:{ eexists [_], _. split; [reflexivity|]. split.
      - apply Forall_cons; [left; reflexivity | apply Forall_nil].
      - discriminate. }
  destruct (prop resp "metafields") as [metafields|e]; cbn [lift Prog_bind].
  2:{ eexists [_], _. split; [reflexivity|]. split.
      - apply Forall_cons; [left; reflexivity | apply Forall_nil].
      - discriminate. }
  destruct (find_metafield metafields "payment_slip") as [existing|e];
    cbn [lift Prog_bind].
  2:{ eexists [_], _. split; [reflexivity|]. split.
      - apply Forall_cons; [left; reflexivity | apply Forall_nil].
      - discriminate. }
  destruct (truthy existing).
  - destruct (prop existing "id") as [existingId|e]; cbn [lift Prog_bind].
    2:{ eexists [_], _. split; [reflexivity|]. split.
        - apply Forall_cons; [left; reflexivity | apply Forall_nil].
        - discriminate. }
    run_steps. case_settle; cbn [outcome sent ticks]; rewrite <- app_assoc;
      (eexists [_; _], _; split; [reflexivity|]; split;
       [apply Forall_cons;
        [left; reflexivity
        | apply Forall_cons; [right; apply Hwrite | apply Forall_nil]]
       | intros _; reflexivity]).
  - run_steps. case_settle; cbn [outcome sent ticks]; rewrite <- app_assoc;
      (eexists [_; _], _; split; [reflexivity|]; split;
       [apply Forall_cons;
        [left; reflexivity
        | apply Forall_cons; [right; apply Hwrite | apply Forall_nil]]
       | intros _; reflexivity]).
Qed.

(** X14.  Variant B, file attached and order found: whatever the platform
    answers afterwards, every write the handler sends carries the slip
    (file name, type, size, base64 data) stamped with the first clock
    reading, and a 200 answer echoes that same stamp, after exactly three
    requests and two clock readings. *)
Theorem upload_B_stores_what_it_echoes {host : Host} (w : World) (req : Request)
        (f : File) (order : value) :
  file req = Some f ->
  outcome (run w (locate_order B (orderNumber req))) = Ok (inr order) ->
  let uploadedAt := toISOString (clock w 0) in
  let fileData :=
    VObj [("filename", VStr (originalname f));
          ("mimetype", VStr (mimetype f));
          ("size", VNum (size f));
          ("uploadedAt", VStr uploadedAt);
          ("data", VStr (base64 (buffer f)))] in
  let stored := JSON_stringify (metafield_data (VStr (JSON_stringify fileData)) "json") in
  let answer := run w (upload_payment_B req) in
  Forall (fun r => method r = "GET" \/ payload r = Text stored) (sent answer)
  /\ (forall r, outcome answer = Ok r -> status r = 200%Z ->
                r = slip_uploaded f uploadedAt
                /\ List.length (sent answer) = 3%nat
                /\ ticks answer = 2%nat).
Proof.
  intros Hfile Hloc uploadedAt fileData stored answer.
  unfold run in Hloc. rewrite run_locate_order in Hloc. cbn [outcome] in Hloc.
  subst answer. unfold upload_payment_B. rewrite Hfile.
  cbn [bind ret Monad_Prog]. rewrite run_after_locate, Hloc.
  rewrite run_try_catch. cbn [new_Date Prog_bind run_from].
  fold uploadedAt. fold fileData.
  destruct (prop order "id") as [orderId|e]; cbn [lift Prog_bind run_from outcome sent ticks].
  2:{ split; [apply Forall_cons; [left; reflexivity | apply Forall_nil]|].
      intros r E. injection E as <-. discriminate. }
  rewrite run_bind.
  destruct (write_payment_slip_run w B orderId
              (metafield_data (VStr (JSON_stringify fileData)) "json")
              [lookup_request (orderNumber req)] 1 eq_refl)
    as (extra & o & -> & Hextra & Hlen).
  cbn [outcome sent ticks]. fold stored in Hextra.
  destruct o as [[]|e]; cbn [Prog_bind run_from outcome sent ticks].
  - split.
    + constructor; [left; reflexivity | exact Hextra].
    + intros r E _. injection E as <-. split; [reflexivity|]. split; [|reflexivity].
      cbn [app List.length]. rewrite (Hlen eq_refl). reflexivity.
  - split.
    + constructor; [left; reflexivity | exact Hextra].
    + intros r E. injection E as <-. discriminate.
Qed.

Lemma upload_B_stores_what_it_echoes_witness :
  outcome (run (scripted [ok_json (orders_document order_1006);
                          ok_json (metafields_document []);
                          ok_json written_document] created_1006)
               (upload_payment_B (host := test_host) upload_1006))
  = Ok (slip_uploaded slip_png (show_Z created_1006)).
Proof.
  destruct (upload_B_stores_what_it_echoes (host := test_host)
              (scripted [ok_json (orders_document order_1006);
                         ok_json (metafields_document []);
                         ok_json written_document] created_1006)
              upload_1006 slip_png order_1006 eq_refl)
    as [_ Hecho].
  - vm_compute. reflexivity.
  - destruct (outcome (run (scripted [ok_json (orders_document order_1006);
                                      ok_json (metafields_document []);
                                      ok_json written_document] created_1006)
                           (upload_payment_B (host := test_host) upload_1006)))
      as [r|e] eqn:Hr.
    + destruct (Hecho r eq_refl) as [-> _].
      * vm_compute in Hr. injection Hr as <-. reflexivity.
      * reflexivity.
    + vm_compute in Hr. discriminate Hr.
Defined.

(** ** Variant A's upload stops at the first failing step *)

Lemma opt_prop_of_prop (v : value) (k k' : string) (y : value) :
  prop v k = Ok y -> opt_prop v k' = prop v k'.
Proof. destruct v; simpl; try discriminate; reflexivity. Qed.

Lemma check_userErrors_array {host : Host} (response data created : value)
      (operation label : string) (userErrors : list value) :
  prop response "data" = Ok data ->
  prop data operation = Ok created ->
  prop created "userErrors" = Ok (VArr userErrors) ->
  check_userErrors response operation label
  = match userErrors with
    | [] => Ok tt
    | _ :: _ => Throw (NewError (label ++ JSON_stringify (VArr userErrors)))
    end.
Proof.
  intros Hd Hc Hu. unfold check_userErrors. rewrite Hd. cbn [bind ret Monad_Result].
  rewrite (opt_prop_of_prop _ _ operation _ Hc), Hc.
  rewrite (opt_prop_of_prop _ _ "userErrors" _ Hu), Hu.
  cbn [opt_prop prop String.eqb Ascii.eqb Bool.eqb].
  destruct userErrors as [|u us]; [reflexivity|].
  cbn [gt_zero List.length]. reflexivity.
Qed.

(** X15.  Variant A: when the staged-upload response lists user errors, the
    handler answers the 500 "error uploading file" and stops there: the file
    is not sent to the storage, no file is registered and no metafield is
    read or written. *)
Theorem staged_user_errors_stop_upload {host : Host} (w : World) (req : Request)
        (f : File) (order response data created firstError : value)
        (moreErrors : list value) :
  let lookup := lookup_request (orderNumber req) in
  let staging :=
    VariantA.graphql_request (generateStagedUploads (originalname f) (mimetype f)) in
  file req = Some f ->
  outcome (run w (locate_order A (orderNumber req))) = Ok (inr order) ->
  VariantA.settle_graphql (network w [lookup] staging) = Ok response ->
  prop response "data" = Ok data ->
  prop data "stagedUploadsCreate" = Ok created ->
  prop created "userErrors" = Ok (VArr (firstError :: moreErrors)) ->
  run w (upload_payment_A req)
  = {| outcome := Ok error_uploading_file; sent := [lookup; staging]; ticks := 0 |}.
Proof.
  intros lookup staging Hfile Hloc Hsettle Hd Hc Hu. subst lookup staging.
  unfold run in Hloc. rewrite run_locate_order in Hloc. cbn [outcome] in Hloc.
  unfold upload_payment_A. rewrite Hfile. cbn [bind ret Monad_Prog].
  rewrite run_after_locate, Hloc.
  rewrite run_try_catch, run_bind, run_graphql. cbn [outcome sent ticks app].
  rewrite Hsettle.
  rewrite (check_userErrors_array _ _ _ _ "Staged upload error: " _ Hd Hc Hu).
  reflexivity.
Qed.

Lemma staged_user_errors_stop_upload_witness :
  run staging_refused (upload_payment_A (host := wide_host) upload_1006)
  = {| outcome := Ok error_uploading_file;
       sent := [lookup_request (host := wide_host) "#1006";
                VariantA.graphql_request (host := wide_host)
                  (generateStagedUploads "slip.png" "image/png")];
       ticks := 0 |}.
Proof.
  apply (staged_user_errors_stop_upload (host := wide_host) staging_refused upload_1006
           slip_png order_1006 staged_refused_document
           (VObj [("stagedUploadsCreate",
                   VObj [("stagedTargets", VArr []);
                         ("userErrors",
                          VArr [VObj [("field", VStr "filename");
                                      ("message", VStr "is invalid")]])])])
           (VObj [("stagedTargets", VArr []);
                  ("userErrors",
                   VArr [VObj [("field", VStr "filename");
                               ("message", VStr "is invalid")]])])
           (VObj [("field", VStr "filename"); ("message", VStr "is invalid")]) []).
  - reflexivity.
  - vm_compute. reflexivity.
  - vm_compute. reflexivity.
  - reflexivity.
  - reflexivity.
  - reflexivity.
Defined.

(** X16.  Variant A: when the storage refuses the file (transport error or
    a status outside 200..299), the handler answers the 500 "error uploading
    file" after three requests: no file is registered with the platform and
    the order's metafields are neither read nor written. *)
Theorem storage_failure_stops_upload {host : Host} (w : World) (req : Request)
        (f : File)
        (order response data created target targetUrl parameters : value)
        (targets : list value) (fields : list (value * value)) (uploadUrl : URL) :
  let lookup := lookup_request (orderNumber req) in
  let staging :=
    VariantA.graphql_request (generateStagedUploads (originalname f) (mimetype f)) in
  let storage :=
    {| hostname := url_hostname uploadUrl;
       port := None;
       path := pathname uploadUrl ++ search uploadUrl;
       method := "POST";
       headers := [("content-type",
                    VStr ("multipart/form-data; boundary=" ++ form_boundary))];
       payload := Multipart fields "file" (buffer f) (originalname f) (mimetype f) |} in
  file req = Some f ->
  outcome (run w (locate_order A (orderNumber req))) = Ok (inr order) ->
  VariantA.settle_graphql (network w [lookup] staging) = Ok response ->
  prop response "data" = Ok data ->
  prop data "stagedUploadsCreate" = Ok created ->
  prop created "userErrors" = Ok (VArr []) ->
  prop created "stagedTargets" = Ok (VArr (target :: targets)) ->
  prop target "url" = Ok targetUrl ->
  prop target "parameters" = Ok parameters ->
  map_method parameters
             (fun param =>
                name <- prop param "name" ;;
                val <- prop param "value" ;;
                ret (name, val)) = Ok fields ->
  URL_new targetUrl = Some uploadUrl ->
  (exists e, network w [lookup; staging] storage = NetError e)
  \/ (exists statusCode body,
         network w [lookup; staging] storage = NetResponse statusCode body
         /\ status_ok statusCode = false) ->
  run w (upload_payment_A req)
  = {| outcome := Ok error_uploading_file;
       sent := [lookup; staging; storage];
       ticks := 0 |}.
Proof.
  intros lookup staging storage Hfile Hloc Hsettle Hd Hc Hu Ht Hurl Hp Hfields Hparse Hout.
  unfold run in Hloc. rewrite run_locate_order in Hloc. cbn [outcome] in Hloc.
  unfold upload_payment_A. rewrite Hfile. cbn [bind ret Monad_Prog].
  rewrite run_after_locate, Hloc.
  rewrite run_try_catch, run_bind, run_graphql. cbn [outcome sent ticks app].
  fold lookup. fold staging. rewrite Hsettle.
  rewrite (check_userErrors_array _ _ _ _ "Staged upload error: " _ Hd Hc Hu).
  cbn [lift Prog_bind]. rewrite Hd. cbn [bind ret Monad_Result]. rewrite Hc, Ht.
  cbn [index nth lift Prog_bind]. rewrite Hurl. cbn [lift Prog_bind].
  rewrite Hp. cbn [lift Prog_bind].
  cbn [bind ret Monad_Result] in Hfields. rewrite Hfields. cbn [lift Prog_bind].
  rewrite Hparse. cbn [lift Prog_bind run_from ret Monad_Result].
  fold storage.
  destruct Hout as [[e ->]|(statusCode & body & -> & Hbad)].
  - reflexivity.
  - rewrite Hbad. reflexivity.
Qed.

Lemma storage_failure_stops_upload_witness :
  outcome (run storage_forbidden (upload_payment_A (host := test_host) upload_1006))
  = Ok error_uploading_file
  /\ map (fun r => (method r, hostname r, path r))
         (sent (run storage_forbidden (upload_payment_A (host := test_host) upload_1006)))
     = [("GET", "test-store.myshopify.com",
         "/admin/api/2024-01/orders.json?name=1006&status=any");
        ("POST", "test-store.myshopify.com", "/admin/api/2024-01/graphql.json");
        ("POST", "storage.example", "/upload")].
Proof.
  assert (Hrun := storage_failure_stops_upload (host := test_host) storage_forbidden
                    upload_1006 slip_png order_1006 staged_document
                    (VObj [("stagedUploadsCreate",
                            VObj [("stagedTargets",
                                   VArr [VObj [("url", VStr "https://storage.example/upload");
                                               ("resourceUrl",
                                                VStr "https://storage.example/tmp/slip.png");
                                               ("parameters",
                                                VArr [VObj [("name", VStr "key");
                                                            ("value", VStr "tmp/slip.png")]])]]);
                                  ("userErrors", VArr [])])])
                    (VObj [("stagedTargets",
                            VArr [VObj [("url", VStr "https://storage.example/upload");
                                        ("resourceUrl",
                                         VStr "https://storage.example/tmp/slip.png");
                                        ("parameters",
                                         VArr [VObj [("name", VStr "key");
                                                     ("value", VStr "tmp/slip.png")]])]]);
                           ("userErrors", VArr [])])
                    (VObj [("url", VStr "https://storage.example/upload");
                           ("resourceUrl", VStr "https://storage.example/tmp/slip.png");
                           ("parameters",
                            VArr [VObj [("name", VStr "key");
                                        ("value", VStr "tmp/slip.png")]])])
                    (VStr "https://storage.example/upload")
                    (VArr [VObj [("name", VStr "key"); ("value", VStr "tmp/slip.png")]])
                    [] [(VStr "key", VStr "tmp/slip.png")]
                    {| url_hostname := "storage.example"; pathname := "/upload";
                       search := EmptyString |}
                    eq_refl).
  rewrite Hrun.
  - split; reflexivity.
  - vm_compute. reflexivity.
  - vm_compute. reflexivity.
  - reflexivity.
  - reflexivity.
  - reflexivity.
  - reflexivity.
  - reflexivity.
  - reflexivity.
  - reflexivity.
  - reflexivity.
  - right. exists 403%Z, "<Error>AccessDenied</Error>". split; reflexivity.
Defined.

(** ** Where the access token goes *)

Lemma prefix_app (p s : string) : prefix p (p ++ s) = true.
Proof.
  induction p as [|c p IH]; simpl.
  - destruct s; reflexivity.
  - destruct (ascii_dec c c); [exact IH | congruence].
Qed.

Lemma api_request_to_shop {host : Host} (endpoint method : string) (data : value) :
  to_shop (api_request endpoint method data).
Proof.
  unfold to_shop, api_request. cbn [hostname port path headers].
  repeat split; try reflexivity.
  - apply prefix_app.
  - right. left. reflexivity.
Qed.

Lemma graphql_request_to_shop {host : Host} (query : string) :
  to_shop (VariantA.graphql_request query).
Proof.
  unfold to_shop, VariantA.graphql_request. cbn [hostname port path headers].
  repeat split; try reflexivity.
  right. right. left. reflexivity.
Qed.

Lemma AR_run {A : Type} (P : HttpsRequest -> Prop) (w : World) (p : Prog A) :
  AllRequests P p ->
  forall before readings, Forall P before -> Forall P (sent (run_from w p before readings)).
Proof.
  induction 1 as [a|e|req k Hreq _ IH|k _ IH]; intros before readings Hbefore; simpl.
  - exact Hbefore.
  - exact Hbefore.
  - apply IH. apply Forall_app. split; [exact Hbefore | repeat constructor; exact Hreq].
  - apply IH. exact Hbefore.
Qed.

Lemma AR_bind {A B : Type} (P : HttpsRequest -> Prop) (p : Prog A) (f : A -> Prog B) :
  AllRequests P p -> (forall a, AllRequests P (f a)) -> AllRequests P (Prog_bind p f).
Proof.
  intros Hp Hf. induction Hp as [a|e|req k Hreq _ IH|k _ IH]; simpl.
  - apply Hf.
  - constructor.
  - constructor; [exact Hreq | exact IH].
  - constructor. exact IH.
Qed.

Lemma AR_try_catch {A : Type} (P : HttpsRequest -> Prop) (p : Prog A)
      (h : Error -> Prog A) :
  AllRequests P p -> (forall e, AllRequests P (h e)) -> AllRequests P (try_catch p h).
Proof.
  intros Hp Hh. induction Hp as [a|e|req k Hreq _ IH|k _ IH]; simpl.
  - constructor.
  - apply Hh.
  - constructor; [exact Hreq | exact IH].
  - constructor. exact IH.
Qed.

Lemma AR_lift {A : Type} (P : HttpsRequest -> Prop) (r : Result A) :
  AllRequests P (lift r).
Proof. destruct r; constructor. Qed.

Lemma AR_client {host : Host} (P : HttpsRequest -> Prop) (v : Variant)
      (endpoint method : string) (data : value) :
  P (api_request endpoint method data) -> AllRequests P (client v endpoint method data).
Proof.
  intros HP. destruct v; simpl; (constructor; [exact HP | intros out; apply AR_lift]).
Qed.

Lemma AR_graphql {host : Host} (P : HttpsRequest -> Prop) (query : string) :
  P (VariantA.graphql_request query) ->
  AllRequests P (VariantA.makeShopifyGraphQLRequest query).
Proof.
  intros HP. unfold VariantA.makeShopifyGraphQLRequest.
  constructor; [exact HP | intros out; apply AR_lift].
Qed.

Ltac all_requests :=
  repeat first
    [ apply AR_Ret | apply AR_Raise | apply AR_lift
    | apply AR_client | apply AR_graphql
    | apply AR_Now; intros ?
    | apply AR_Https; [|intros ?]
    | apply AR_try_catch; [|intros ?]
    | apply AR_bind; [|intros ?]
    | match goal with
      | |- AllRequests _ (match ?x with _ => _ end) => destruct x
      end ].

Lemma AR_canCancelOrder {host : Host} (P : HttpsRequest -> Prop) (order : value) :
  AllRequests P (canCancelOrder order).
Proof.
  unfold canCancelOrder, new_Date. cbn [bind ret Monad_Prog]. all_requests.
Qed.

Lemma AR_locate_order {host : Host} (P : HttpsRequest -> Prop) (v : Variant)
      (number : string) :
  (forall endpoint method data, P (api_request endpoint method data)) ->
  AllRequests P (locate_order v number).
Proof.
  intros HP. unfold locate_order. cbn [bind ret Monad_Prog]. all_requests. apply HP.
Qed.

Lemma AR_write_payment_slip {host : Host} (P : HttpsRequest -> Prop) (v : Variant)
      (orderId metafieldData : value) :
  (forall endpoint method data, P (api_request endpoint method data)) ->
  AllRequests P (write_payment_slip v orderId metafieldData).
Proof.
  intros HP. unfold write_payment_slip. cbn [bind ret Monad_Prog].
  all_requests; apply HP.
Qed.

Lemma AR_order_data {host : Host} (P : HttpsRequest -> Prop) (v : Variant)
      (order slip stage : value) :
  AllRequests P (order_data v order slip stage).
Proof.
  unfold order_data. cbn [bind ret Monad_Prog].
  repeat (apply AR_bind; [apply AR_lift | intros ?]).
  apply AR_bind; [apply AR_canCancelOrder | intros ?]. constructor.
Qed.

(** X17.  In every world, every request of the lookup, confirmation,
    cancellation and variant B upload handlers goes to the configured shop
    domain on port 443, under the Admin API path, with the access token.
    Variant A's upload sends one other kind of request, the file to the
    storage host, and that one carries no access-token header. *)
Theorem token_goes_to_the_shop_only {host : Host} (w : World) (v : Variant)
        (req : Request) :
  Forall to_shop (sent (run w (get_order v req)))
  /\ Forall to_shop (sent (run w (confirm_payment v req)))
  /\ Forall to_shop (sent (run w (cancel_order v req)))
  /\ Forall to_shop (sent (run w (upload_payment_B req)))
  /\ Forall (fun r => to_shop r \/ without_token r)
            (sent (run w (upload_payment_A req))).
Proof.
  assert (Hshop : forall endpoint method data, to_shop (api_request endpoint method data))
    by (intros; apply api_request_to_shop).
  assert (Hshop' : forall endpoint method data,
             (fun r => to_shop r \/ without_token r) (api_request endpoint method data))
    by (intros; left; apply api_request_to_shop).
  repeat split; (apply AR_run; [|constructor]).
  - unfold get_order. cbn [bind ret Monad_Prog].
    apply AR_try_catch; [|intros ?; constructor].
    apply AR_bind; [apply AR_locate_order; exact Hshop | intros [notFound|order]].
    + constructor.
    + repeat first [ apply AR_bind; [apply AR_lift | intros ?]
                   | apply AR_bind; [apply AR_client; apply Hshop | intros ?]
                   | apply AR_bind; [apply AR_order_data | intros ?] ].
      constructor.
  - unfold confirm_payment. cbn [bind ret Monad_Prog].
    apply AR_try_catch; [|intros ?; constructor].
    apply AR_bind; [apply AR_locate_order; exact Hshop | intros [notFound|order]].
    + constructor.
    + all_requests. apply Hshop.
  - unfold cancel_order. cbn [bind ret Monad_Prog].
    apply AR_try_catch; [|intros ?; constructor].
    apply AR_bind; [apply AR_locate_order; exact Hshop | intros [notFound|order]].
    + constructor.
    + apply AR_bind; [apply AR_canCancelOrder | intros cancellable].
      all_requests. apply Hshop.
  - unfold upload_payment_B, new_Date. cbn [bind ret Monad_Prog].
    apply AR_try_catch; [|intros ?; constructor].
    destruct (file req) as [f|]; [|constructor].
    apply AR_bind; [apply AR_locate_order; exact Hshop | intros [notFound|order]].
    + constructor.
    + apply AR_bind; [all_requests | intros uploaded].
      apply AR_bind; [apply AR_lift | intros orderId].
      apply AR_bind; [apply AR_write_payment_slip; exact Hshop | intros ?].
      all_requests.
  - unfold upload_payment_A, new_Date. cbn [bind ret Monad_Prog].
    apply AR_try_catch; [|intros ?; constructor].
    destruct (file req) as [f|]; [|constructor].
    apply AR_bind; [apply AR_locate_order; exact Hshop' | intros [notFound|order]].
    + constructor.
    + repeat first
        [ apply AR_bind; [apply AR_lift | intros ?]
        | apply AR_bind; [apply AR_graphql; left; apply graphql_request_to_shop | intros ?]
        | apply AR_bind; [apply AR_write_payment_slip; exact Hshop' | intros ?]
        | apply AR_bind;
          [apply AR_Https;
           [right; intros t [E|[]]; discriminate E
           | intros out; destruct out as [e|statusCode body];
             [constructor | destruct (status_ok statusCode); constructor]]
          | intros ?]
        | apply AR_bind; [apply AR_Now; intros ?; constructor | intros ?] ].
      constructor.
Qed.

(** ** The upload filter *)

(** X18.  What the filter does with every MIME type.  The three image
    types both files list are accepted by both; [image/webp], [image/heic]
    and [image/heif] are accepted by variant A and refused by variant B;
    [application/pdf] is accepted by variant B and refused by variant A;
    every other type is refused by both.  A refusal is the variant's own
    message, and the filter never answers "skip the file".  So everything
    variant A accepts is an [image/...] type, which is what its [fileCreate]
    call declares, and what variant B accepts beyond variant A is PDF
    alone. *)
Theorem filter_accepts_images_and_pdf (f : File) :
  let shared := In (mimetype f) ["image/jpeg"; "image/png"; "image/jpg"] in
  let modern := In (mimetype f) ["image/webp"; "image/heic"; "image/heif"] in
  let pdf := mimetype f = "application/pdf" in
  let refused_by_A : Result bool :=
    Throw (NewError "نوع الملف غير مدعوم. يرجى تحميل صورة فقط (JPG, PNG, WEBP).") in
  let refused_by_B : Result bool :=
    Throw (NewError "نوع الملف غير مدعوم. يرجى تحميل صورة أو PDF فقط.") in
  (shared -> fileFilter A f = Ok true /\ fileFilter B f = Ok true)
  /\ (modern -> fileFilter A f = Ok true /\ fileFilter B f = refused_by_B)
  /\ (pdf -> fileFilter A f = refused_by_A /\ fileFilter B f = Ok true)
  /\ (~ shared -> ~ modern -> ~ pdf ->
      fileFilter A f = refused_by_A /\ fileFilter B f = refused_by_B)
  /\ (forall v, fileFilter v f <> Ok false)
  /\ (fileFilter A f = Ok true -> prefix "image/" (mimetype f) = true)
  /\ (fileFilter B f = Ok true ->
      fileFilter A f = Ok true \/ mimetype f = "application/pdf").
Proof.
  intros shared modern pdf refused_by_A refused_by_B.
  subst shared modern pdf refused_by_A refused_by_B.
  split; [|split; [|split; [|split; [|split; [|split]]]]].
  - intros Hin. unfold fileFilter. simpl in Hin.
    destruct Hin as [E|[E|[E|[]]]]; rewrite <- E; split; reflexivity.
  - intros Hin. unfold fileFilter. simpl in Hin.
    destruct Hin as [E|[E|[E|[]]]]; rewrite <- E; split; reflexivity.
  - intros E. unfold fileFilter. rewrite E. split; reflexivity.
  - intros Hshared Hmodern Hpdf. unfold fileFilter.
    destruct (includes (allowedFileTypes A) (mimetype f)) eqn:HA.
    { exfalso. apply includes_In in HA. simpl in HA.
      destruct HA as [E|[E|[E|[E|[E|[E|[]]]]]]];
        first [ apply Hshared; simpl; auto; fail | apply Hmodern; simpl; auto ]. }
    destruct (includes (allowedFileTypes B) (mimetype f)) eqn:HB.
    { exfalso. apply includes_In in HB. simpl in HB.
      destruct HB as [E|[E|[E|[E|[]]]]];
        first [ apply Hshared; simpl; auto; fail | apply Hpdf; symmetry; exact E ]. }
    split; reflexivity.
  - intros v. unfold fileFilter.
    destruct (includes (allowedFileTypes v) (mimetype f)); discriminate.
  - unfold fileFilter.
    destruct (includes (allowedFileTypes A) (mimetype f)) eqn:Hin; [|discriminate].
    intros _. apply includes_In in Hin. simpl in Hin.
    destruct Hin as [E|[E|[E|[E|[E|[E|[]]]]]]]; rewrite <- E; reflexivity.
  - unfold fileFilter.
    destruct (includes (allowedFileTypes B) (mimetype f)) eqn:Hin; [|discriminate].
    intros _. apply includes_In in Hin. simpl in Hin.
    destruct Hin as [E|[E|[E|[E|[]]]]]; rewrite <- E; try (left; reflexivity).
    right. reflexivity.
Qed.

Lemma filter_accepts_images_and_pdf_witness :
  (fileFilter A slip_png = Ok true /\ fileFilter B slip_png = Ok true)
  /\ fileFilter B receipt_pdf = Ok true
  /\ fileFilter A receipt_pdf
     = Throw (NewError "نوع الملف غير مدعوم. يرجى تحميل صورة فقط (JPG, PNG, WEBP).")
  /\ prefix "image/" (mimetype slip_png) = true.
Proof.
  destruct (filter_accepts_images_and_pdf slip_png)
    as (Hshared & _ & _ & _ & _ & Himage & _).
  destruct (filter_accepts_images_and_pdf receipt_pdf) as (_ & _ & Hpdf & _).
  split; [apply Hshared; simpl; auto|].
  destruct (Hpdf eq_refl) as [HA HB].
  split; [exact HB|]. split; [exact HA|].
  apply Himage. apply Hshared. simpl. auto.
Defined.

(** ** The GraphQL client *)

(** X19.  [makeShopifyGraphQLRequest] posts the serialised query with a
    [Content-Length] equal to its length in bytes.  Like the REST client it
    parses the body before it looks at the status: an unparsable body is a
    parse failure whatever the status (and the message does not carry the
    status), a parsed body is returned for 200..299 and is otherwise
    reported with the status code. *)
Theorem graphql_client_settles {host : Host} (w : World) (query : string)
        before readings :
  let postData := JSON_stringify (VObj [("query", VStr query)]) in
  let req := VariantA.graphql_request query in
  let answer := run_from w (VariantA.makeShopifyGraphQLRequest query) before readings in
  payload req = Text postData
  /\ In ("Content-Length", VNum (Z.of_nat (String.length postData))) (headers req)
  /\ sent answer = (before ++ [req])%list
  /\ (forall e, network w before req = NetError e -> outcome answer = Throw e)
  /\ (forall statusCode responseBody,
         network w before req = NetResponse statusCode responseBody ->
         (JSON_parse responseBody = None ->
          outcome answer
          = Throw (NewError ("Failed to parse GraphQL response: "
                             ++ substring 0 200 responseBody)))
         /\ (forall decoded,
                JSON_parse responseBody = Some decoded ->
                ((200 <= statusCode < 300)%Z -> outcome answer = Ok decoded)
                /\ (~ (200 <= statusCode < 300)%Z ->
                    outcome answer
                    = Throw (NewError ("Shopify GraphQL Error: " ++ show_Z statusCode
                                       ++ " - " ++ JSON_stringify decoded))))).
Proof.
  intros postData req answer. subst postData req answer. rewrite run_graphql.
  cbn [outcome sent]. split; [reflexivity|]. split; [right; left; reflexivity|].
  split; [reflexivity|]. split.
  - intros e ->. reflexivity.
  - intros statusCode responseBody ->. cbn [VariantA.settle_graphql]. split.
    + intros ->. reflexivity.
    + intros decoded ->. split.
      * intros [Hlo Hhi].
        assert (Hok : status_ok statusCode = true).
        { unfold status_ok. apply andb_true_intro. split.
          - apply Z.leb_le. exact Hlo.
          - apply Z.ltb_lt. exact Hhi. }
        rewrite Hok. reflexivity.
      * intros Hout.
        assert (Hok : status_ok statusCode = false).
        { unfold status_ok. destruct (200 <=? statusCode)%Z eqn:Hlo;
            destruct (statusCode <? 300)%Z eqn:Hhi; try reflexivity.
          exfalso. apply Hout. split.
          - apply Z.leb_le. exact Hlo.
          - apply Z.ltb_lt. exact Hhi. }
        rewrite Hok. reflexivity.
Qed.

Lemma graphql_client_settles_witness :
  outcome (run bad_gateway
               (VariantA.makeShopifyGraphQLRequest (host := test_host) "{ shop { name } }"))
  = Throw (NewError "Failed to parse GraphQL response: <html>Bad Gateway</html>").
Proof.
  destruct (graphql_client_settles (host := test_host) bad_gateway "{ shop { name } }" [] 0)
    as (_ & _ & _ & _ & Hresponse).
  destruct (Hresponse 502%Z "<html>Bad Gateway</html>" eq_refl) as [Hparse _].
  exact (Hparse eq_refl).
Defined.

(** ** How the confirmation and the cancellation end *)

(** X20.  Confirmation of a located order: when the order's tags cannot be
    read as a list (truthy and no string) the handler answers the 500
    "error confirming payment" without writing; otherwise the update call is
    sent and its outcome decides between the success message and that same
    500, after two requests. *)
Theorem confirmation_follows_the_update {host : Host} (w : World) (v : Variant)
        (req : Request) (order : value) :
  outcome (run w (locate_order v (orderNumber req))) = Ok (inr order) ->
  let lookup := lookup_request (orderNumber req) in
  let answer := run w (confirm_payment v req) in
  (forall e, order_tags order = Throw e ->
             answer = {| outcome := Ok error_confirming_payment;
                         sent := [lookup]; ticks := 0 |})
  /\ (forall tags orderId,
         confirmed_tags order = Ok tags ->
         prop order "id" = Ok orderId ->
         let update :=
           api_request ("orders/" ++ ToString orderId ++ ".json") "PUT"
             (VObj [("order",
                     VObj [("id", orderId);
                           ("tags", VStr (join_comma_space tags))])]) in
         sent answer = [lookup; update]
         /\ (forall updated, settle v (network w [lookup] update) = Ok updated ->
                             outcome answer = Ok payment_confirmed)
         /\ (forall e, settle v (network w [lookup] update) = Throw e ->
                       outcome answer = Ok error_confirming_payment)).
Proof.
  intros Hloc lookup answer. subst lookup answer.
  unfold run in Hloc. rewrite run_locate_order in Hloc. cbn [outcome] in Hloc.
  unfold confirm_payment. cbn [bind ret Monad_Prog].
  rewrite run_after_locate, Hloc. rewrite run_try_catch. split.
  - intros e He. unfold confirmed_tags. rewrite He. reflexivity.
  - intros tags orderId Htags Hid.
    rewrite Htags. cbn [lift Prog_bind]. rewrite Hid. cbn [lift Prog_bind].
    rewrite run_bind, run_client. cbn [outcome sent ticks app].
    split; [|split].
    + case_settle; reflexivity.
    + intros updated ->. reflexivity.
    + intros e ->. reflexivity.
Qed.

Lemma confirmation_follows_the_update_witness :
  run sparse_order_found (confirm_payment (host := wide_host) A request_4001)
  = {| outcome := Ok error_confirming_payment;
       sent := [lookup_request (host := wide_host) "4001"];
       ticks := 0 |}
  /\ outcome (run update_accepted (confirm_payment (host := test_host) B request_1006))
     = Ok payment_confirmed.
Proof.
  split.
  - assert (Hloc : outcome (run sparse_order_found
                              (locate_order (host := wide_host) A
                                            (orderNumber request_4001)))
                   = Ok (inr order_4001_sparse)) by (vm_compute; reflexivity).
    destruct (confirmation_follows_the_update (host := wide_host) sparse_order_found A
                request_4001 order_4001_sparse Hloc) as [Hthrow _].
    exact (Hthrow TypeError eq_refl).
  - assert (Hloc : outcome (run update_accepted
                              (locate_order (host := test_host) B
                                            (orderNumber request_1006)))
                   = Ok (inr order_1006)) by (vm_compute; reflexivity).
    destruct (confirmation_follows_the_update (host := test_host) update_accepted B
                request_1006 order_1006 Hloc) as [_ Hupdate].
    destruct (Hupdate ["vip"; "wholesale"; "payment-confirmed"] (VNum 1006)
                eq_refl eq_refl) as (_ & Hok & _).
    apply (Hok written_document). vm_compute. reflexivity.
Defined.

(** X21.  Cancellation of a located, cancellable order: the outcome of the
    cancel call decides the answer, the success message when it resolves
    and the 500 "error cancelling order" when it is rejected; either way the
    clock was read once and two requests were sent. *)
Theorem cancellation_follows_the_cancel_call {host : Host} (w : World) (v : Variant)
        (req : Request) (order orderId : value) :
  outcome (run w (locate_order v (orderNumber req))) = Ok (inr order) ->
  let lookup := lookup_request (orderNumber req) in
  outcome (run_from w (canCancelOrder order) [lookup] 0) = Ok true ->
  prop order "id" = Ok orderId ->
  let cancel :=
    api_request ("orders/" ++ ToString orderId ++ "/cancel.json") "POST"
                (cancel_data (reason req)) in
  let answer := run w (cancel_order v req) in
  sent answer = [lookup; cancel]
  /\ ticks answer = 1%nat
  /\ (forall cancelled, settle v (network w [lookup] cancel) = Ok cancelled ->
                        outcome answer = Ok order_cancelled)
  /\ (forall e, settle v (network w [lookup] cancel) = Throw e ->
                outcome answer = Ok error_cancelling_order).
Proof.
  intros Hloc lookup Hcan Hid cancel answer. subst lookup cancel answer.
  unfold run in Hloc. rewrite run_locate_order in Hloc. cbn [outcome] in Hloc.
  unfold cancel_order. cbn [bind ret Monad_Prog].
  rewrite run_after_locate, Hloc. rewrite run_try_catch, run_bind.
  pose proof (canCancelOrder_sends_nothing w order
                [lookup_request (orderNumber req)] 0) as Hsent.
  assert (Hticks : ticks (run_from w (canCancelOrder order)
                            [lookup_request (orderNumber req)] 0) = 1%nat).
  { revert Hcan. unfold canCancelOrder, new_Date. cbn [bind ret Monad_Prog].
    destruct (prop order "cancelled_at") as [c|e]; cbn [lift Prog_bind run_from outcome];
      [|discriminate].
    destruct (truthy c); cbn [run_from outcome]; [discriminate|].
    destruct (prop order "fulfillment_status") as [fs|e];
      cbn [lift Prog_bind run_from outcome]; [|discriminate].
    destruct (str_eq fs "fulfilled" || str_eq fs "shipped");
      cbn [run_from outcome]; [discriminate|].
    destruct (prop order "created_at") as [d|e];
      cbn [lift Prog_bind run_from outcome ticks]; [|discriminate].
    intros _. reflexivity. }
  rewrite Hcan, Hsent, Hticks. cbn [negb]. rewrite Hid. cbn [lift Prog_bind].
  rewrite run_bind, run_client. cbn [outcome sent ticks app].
  split; [|split; [|split]].
  - case_settle; reflexivity.
  - case_settle; reflexivity.
  - intros cancelled ->. reflexivity.
  - intros e ->. reflexivity.
Qed.

Lemma cancellation_follows_the_cancel_call_witness :
  outcome (run update_accepted (cancel_order (host := test_host) B request_1006))
  = Ok order_cancelled
  /\ map path (sent (run update_accepted (cancel_order (host := test_host) B request_1006)))
     = ["/admin/api/2024-01/orders.json?name=1006&status=any";
        "/admin/api/2024-01/orders/1006/cancel.json"].
Proof.
  assert (Hloc : outcome (run update_accepted
                            (locate_order (host := test_host) B
                                          (orderNumber request_1006)))
                 = Ok (inr order_1006)) by (vm_compute; reflexivity).
  assert (Hcan : outcome (run_from update_accepted
                            (canCancelOrder (host := test_host) order_1006)
                            [lookup_request (host := test_host)
                                            (orderNumber request_1006)] 0)
                 = Ok true) by (vm_compute; reflexivity).
  destruct (cancellation_follows_the_cancel_call (host := test_host) update_accepted B
              request_1006 order_1006 (VNum 1006) Hloc Hcan eq_refl)
    as (Hsent & _ & Hok & _).
  split.
  - apply (Hok written_document). vm_compute. reflexivity.
  - rewrite Hsent. reflexivity.
Defined.

(** ** The view's cancellation flag, status and [canCancel] *)

Lemma status_cancelled_iff (v : Variant) (order stage c : value) (s : string) :
  match v with
  | A => VariantA.mapOrderStatus order stage
  | B => VariantB.mapOrderStatus order
  end = Ok s ->
  prop order "cancelled_at" = Ok c ->
  (s = "cancelled" <-> truthy c = true) /\ In s statuses.
Proof.
  intros Hs Hc. destruct v.
  - destruct (status_A_shape _ _ _ Hs) as (c' & Hc' & Hshape).
    assert (c' = c) by congruence. subst c'.
    destruct Hshape as [[Ht ->]|[Hf Hrest]].
    + split; [split; [intros _; exact Ht | reflexivity] | simpl; auto].
    + split.
      * split; [|congruence]. intros ->. exfalso.
        destruct Hrest as [Hin|[E|E]]; [|discriminate E|discriminate E].
        simpl in Hin. destruct Hin as [E|[E|[E|[]]]]; discriminate E.
      * destruct Hrest as [Hin|[->| ->]]; [|simpl; auto 8|simpl; auto 8].
        simpl in Hin. simpl. intuition.
  - destruct (status_B_shape _ _ Hs) as (c' & Hc' & Hshape).
    assert (c' = c) by congruence. subst c'.
    destruct Hshape as [[Ht ->]|[Hf Hin]].
    + split; [split; [intros _; exact Ht | reflexivity] | simpl; auto].
    + split.
      * split; [|congruence]. intros ->. exfalso. simpl in Hin.
        destruct Hin as [E|[E|[E|[E|[E|[]]]]]]; discriminate E.
      * simpl in Hin. simpl. intuition.
Qed.

(** X22.  In the view of a lookup the [cancelled] flag is [cancelled_at !==
    null] while the status and [canCancel] test [cancelled_at] for
    truthiness.  They agree on a timestamp and on [null]; for an order
    whose [cancelled_at] is missing the view says [cancelled: true] with a
    status other than ['cancelled'].  The view's [canCancel] is what
    [canCancelOrder] answers, and it is false for a cancelled order. *)
Theorem view_flags {host : Host} (w : World) (v : Variant)
        (order slip stage : value) before readings (view : OrderData.t) :
  outcome (run_from w (order_data v order slip stage) before readings) = Ok view ->
  exists cancelled_at,
    prop order "cancelled_at" = Ok cancelled_at
    /\ OrderData.cancelledAt view = cancelled_at
    /\ OrderData.cancelled view = not_null cancelled_at
    /\ (OrderData.status view = "cancelled" <-> truthy cancelled_at = true)
    /\ In (OrderData.status view) statuses
    /\ outcome (run_from w (canCancelOrder order) before readings)
       = Ok (OrderData.canCancel view)
    /\ (truthy cancelled_at = true -> OrderData.canCancel view = false)
    /\ (cancelled_at = VUndefined ->
        OrderData.cancelled view = true /\ OrderData.status view <> "cancelled").
Proof.
  intros H. unfold order_data in H. cbn [bind ret Monad_Prog] in H.
  repeat match type of H with
         | outcome (run_from _ (Prog_bind (lift ?r) _) _ _) = Ok _ =>
             destruct r eqn:?; cbn [lift Prog_bind run_from outcome] in H;
             [|discriminate H]
         end.
  rewrite run_bind in H.
  destruct (outcome (run_from w (canCancelOrder order) before readings))
    as [cancellable|e] eqn:Hcan; [|discriminate H].
  cbn [run_from outcome] in H. injection H as <-.
  match goal with
  | Hc : prop order "cancelled_at" = Ok ?c,
    Hs : match v with A => _ | B => _ end = Ok ?s |- _ =>
      exists c; destruct (status_cancelled_iff v order stage c s Hs Hc) as [Hiff Hin];
      cbn [OrderData.cancelledAt OrderData.cancelled OrderData.status OrderData.canCancel];
      assert (Hfalse : truthy c = true -> cancellable = false)
  end.
  { intros Ht. revert Hcan. unfold canCancelOrder. cbn [bind ret Monad_Prog].
    match goal with Hc : prop order "cancelled_at" = Ok _ |- _ => rewrite Hc end.
    cbn [lift Prog_bind]. rewrite Ht. cbn [run_from outcome]. congruence. }
  repeat split; try assumption; try reflexivity; try (apply Hiff).
  - subst. reflexivity.
  - intros Hs. apply Hiff in Hs. subst. discriminate Hs.
Qed.

Lemma view_flags_witness :
  exists view,
    outcome (run sparse_order_found
                 (order_data (host := wide_host) A order_4001_sparse VUndefined VUndefined))
    = Ok view
    /\ OrderData.cancelled view = true
    /\ OrderData.status view = "confirmed"
    /\ OrderData.canCancel view = true.
Proof.
  eexists. split; [vm_compute; reflexivity|].
  destruct (view_flags (host := wide_host) sparse_order_found A order_4001_sparse
              VUndefined VUndefined [] 0 _ eq_refl)
    as (c & Hc & _ & Hflag & _).
  assert (Hmissing : c = VUndefined) by (vm_compute in Hc; congruence).
  subst c. split; [exact Hflag|]. split; reflexivity.
Defined.

(** ** A successful lookup *)

Lemma order_data_ok {host : Host} (w : World) (v : Variant)
      (order slip stage : value) before readings (view : OrderData.t) :
  outcome (run_from w (order_data v order slip stage) before readings) = Ok view ->
  sent (run_from w (order_data v order slip stage) before readings) = before
  /\ match v with
     | A => VariantA.mapOrderStatus order stage
     | B => VariantB.mapOrderStatus order
     end = Ok (OrderData.status view)
  /\ prop order "id" = Ok (OrderData.id view)
  /\ payment_slip v slip = Ok (OrderData.paymentSlip view).
Proof.
  intros H. unfold order_data in H |- *. cbn [bind ret Monad_Prog] in H |- *.
  repeat match type of H with
         | outcome (run_from _ (Prog_bind (lift ?r) _) _ _) = Ok _ =>
             destruct r eqn:?; cbn [lift Prog_bind run_from outcome] in H |- *;
             [|discriminate H]
         end.
  rewrite run_bind in H |- *.
  pose proof (canCancelOrder_sends_nothing w order before readings) as Hsent.
  destruct (run_from w (canCancelOrder order) before readings) as [o s t].
  cbn [outcome sent ticks] in *. subst s.
  destruct o as [cancellable|e]; [|discriminate H].
  cbn [run_from outcome sent] in H |- *. injection H as <-.
  cbn [OrderData.status OrderData.id OrderData.paymentSlip].
  repeat split; reflexivity.
Qed.

Lemma first_order_answers_bind (settled : Result value) (x : Response + value) :
  (ordersResponse <- settled ;; first_order ordersResponse) = Ok x ->
  x = inl order_not_found \/ exists order, x = inr order.
Proof.
  destruct settled as [ordersResponse|e]; cbn [bind Monad_Result]; [|discriminate].
  apply first_order_answers.
Qed.

(** X23.  A lookup that answers 200 has sent exactly two requests, the
    order lookup and the read of that order's metafields.  Its view is built
    from the first order of the answer; in variant A the status comes from
    the order and the first ['custom'/'fulfillment_stage'] metafield of that
    read, in variant B from the order alone. *)
Theorem lookup_200_is_two_requests {host : Host} (w : World) (v : Variant)
        (req : Request) (view : OrderData.t) :
  outcome (run w (get_order v req)) = Ok {| status := 200; json := OrderFound view |} ->
  exists order metafieldsResponse metafields slip,
    let lookup := lookup_request (orderNumber req) in
    let read := api_request (metafields_endpoint (OrderData.id view)) "GET" VNull in
    outcome (run w (locate_order v (orderNumber req))) = Ok (inr order)
    /\ prop order "id" = Ok (OrderData.id view)
    /\ sent (run w (get_order v req)) = [lookup; read]
    /\ settle v (network w [lookup] read) = Ok metafieldsResponse
    /\ prop metafieldsResponse "metafields" = Ok metafields
    /\ find_metafield metafields "payment_slip" = Ok slip
    /\ payment_slip v slip = Ok (OrderData.paymentSlip view)
    /\ match v with
       | A => exists stage,
           find_metafield metafields "fulfillment_stage" = Ok stage
           /\ VariantA.mapOrderStatus order stage = Ok (OrderData.status view)
       | B => VariantB.mapOrderStatus order = Ok (OrderData.status view)
       end.
Proof.
  intros H. unfold run at 1 in H. unfold get_order in H |- *.
  cbn [bind ret Monad_Prog] in H |- *.
  unfold run. rewrite run_try_catch, run_bind, run_locate_order in H |- *.
  cbn [outcome sent ticks app] in H |- *.
  destruct (ordersResponse <- settle v (network w [] (lookup_request (orderNumber req))) ;;
            first_order ordersResponse) as [[notFound|order]|e] eqn:Hloc.
  3:{ cbn [run_from outcome] in H. discriminate H. }
  1:{ destruct (first_order_answers_bind _ _ Hloc) as [E|[o E]]; [|discriminate E].
      injection E as ->. cbn [run_from outcome] in H. discriminate H. }
  destruct (prop order "name") as [name|e]; cbn [lift Prog_bind run_from outcome] in H |- *;
    [|discriminate H].
  destruct (prop order "id") as [orderId|e] eqn:Hid;
    cbn [lift Prog_bind run_from outcome] in H |- *; [|discriminate H].
  rewrite run_bind, run_client in H |- *. cbn [outcome sent ticks app] in H |- *.
  destruct (settle v (network w [lookup_request (orderNumber req)] _))
    as [metafieldsResponse|e] eqn:Hsettle;
    [|cbn [run_from outcome] in H; discriminate H].
  destruct (prop metafieldsResponse "metafields") as [metafields|e] eqn:Hm;
    cbn [lift Prog_bind run_from outcome] in H |- *; [|discriminate H].
  destruct (find_metafield metafields "payment_slip") as [slip|e] eqn:Hslip;
    cbn [lift Prog_bind run_from outcome] in H |- *; [|discriminate H].
  destruct (match v with
            | A => find_metafield metafields "fulfillment_stage"
            | B => ret VUndefined
            end) as [stage|e] eqn:Hstage;
    cbn [lift Prog_bind run_from outcome] in H |- *; [|discriminate H].
  rewrite run_bind in H |- *.
  destruct (outcome (run_from w (order_data v order slip stage)
                              [lookup_request (orderNumber req);
                               api_request (metafields_endpoint orderId) "GET" VNull] 0))
    as [view'|e] eqn:Hview; [|cbn [run_from outcome] in H; discriminate H].
  cbn [run_from outcome] in H. injection H as <-.
  destruct (order_data_ok _ _ _ _ _ _ _ _ Hview) as (Hsent & Hstatus & Hid' & Hps).
  assert (orderId = OrderData.id view') by congruence. subst orderId.
  exists order, metafieldsResponse, metafields, slip. cbn zeta.
  split; [reflexivity|]. split; [exact Hid|].
  split; [cbn [run_from sent]; exact Hsent|].
  split; [exact Hsettle|]. split; [exact Hm|]. split; [exact Hslip|].
  split; [exact Hps|].
  destruct v; [exists stage; split; assumption | exact Hstatus].
Qed.

Lemma lookup_200_is_two_requests_witness :
  map path (sent (run sparse_order_found (get_order (host := wide_host) A request_4001)))
  = ["/admin/api/2024-01/orders.json?name=4001&status=any";
     "/admin/api/2024-01/orders/4001/metafields.json"].
Proof.
  assert (Hok : exists view,
             outcome (run sparse_order_found (get_order (host := wide_host) A request_4001))
             = Ok {| status := 200; json := OrderFound view |})
    by (eexists; vm_compute; reflexivity).
  destruct Hok as [view Hok].
  destruct (lookup_200_is_two_requests (host := wide_host) sparse_order_found A
              request_4001 view Hok)
    as (order & response & metafields & slip & Hloc & Hid & Hsent & _).
  vm_compute in Hloc. injection Hloc as <-.
  change (Ok (VNum 4001) = Ok (OrderData.id view)) in Hid. injection Hid as Hid.
  rewrite Hsent, <- Hid. reflexivity.
Defined.

(** ** From the upload to the lookup *)

(** X24.  What the upload stores, the lookup gives back.  Variant B: on a
    host whose [JSON.parse] inverts [JSON.stringify] on the slip, a metafield
    holding the value the upload wrote yields the slip itself (file name,
    type, size, upload time and base64 data) as the view's [paymentSlip].
    Variant A: whatever value the metafield holds, the view shows it as
    [fileId] with [uploaded: true], and nothing is parsed. *)
Theorem stored_slip_reads_back {host : Host} (f : File) (uploadedAt : string)
        (metafield stored : value) :
  let fileData :=
    VObj [("filename", VStr (originalname f));
          ("mimetype", VStr (mimetype f));
          ("size", VNum (size f));
          ("uploadedAt", VStr uploadedAt);
          ("data", VStr (base64 (buffer f)))] in
  let written := metafield_data (VStr (JSON_stringify fileData)) "json" in
  truthy metafield = true ->
  prop metafield "value" = Ok stored ->
  payment_slip A metafield = Ok (VObj [("fileId", stored); ("uploaded", VBool true)])
  /\ (JSON_parse (JSON_stringify fileData) = Some fileData ->
      (written_metafield <- prop written "metafield" ;; prop written_metafield "value")
      = Ok stored ->
      payment_slip B metafield = Ok fileData).
Proof.
  intros fileData written Ht Hv. unfold payment_slip. rewrite Ht, Hv.
  cbn [bind ret Monad_Result]. split; [reflexivity|].
  intros Hparse Hwritten. subst written. cbn in Hwritten. injection Hwritten as <-.
  cbn [ToString]. rewrite Hparse. reflexivity.
Qed.

Lemma stored_slip_reads_back_witness :
  payment_slip (host := wide_host) B stored_slip = Ok slip_png_data.
Proof.
  destruct (stored_slip_reads_back (host := wide_host) slip_png (show_Z created_1006)
              stored_slip (VStr (test_stringify slip_png_data)) eq_refl eq_refl)
    as [_ Hback].
  apply Hback.
  - vm_compute. reflexivity.
  - reflexivity.
Defined.

(** X25.  When the platform returns several orders for the number, every
    handler works on the first one and ignores the rest. *)
Theorem lookup_takes_first_order {host : Host} (w : World) (v : Variant)
        (number : string) (ordersResponse first : value) (others : list value) :
  settle v (network w [] (lookup_request number)) = Ok ordersResponse ->
  prop ordersResponse "orders" = Ok (VArr (first :: others)) ->
  run w (locate_order v number)
  = {| outcome := Ok (inr first); sent := [lookup_request number]; ticks := 0 |}.
Proof.
  intros Hsettle Horders. unfold run. rewrite run_locate_order, Hsettle.
  cbn [bind ret Monad_Result app]. unfold first_order. rewrite Horders.
  reflexivity.
Qed.

Lemma lookup_takes_first_order_witness :
  outcome (run two_orders_found (locate_order (host := wide_host) B "#1006"))
  = Ok (inr order_1006).
Proof.
  rewrite (lookup_takes_first_order (host := wide_host) two_orders_found B "#1006"
             (VObj [("orders", VArr [order_1006; order_1007])]) order_1006 [order_1007]).
  - reflexivity.
  - vm_compute. reflexivity.
  - reflexivity.
Defined.
